(** * Forecast sensitivity model of the CFO dashboards

    The dashboards perturb one input parameter of a baseline forecast at a
    time and report the percentage change of an aggregate (total revenue,
    net cash flow).  This development embeds the sensitivity routines of

    - [forecast_pkg/revenue_dashboard.py]        (module [RevenueDashboard]),
    - [code-v3/revenue-forecast-dashboard-streamlit-1.3.py] (module [RevenueV3]),
    - [forecast_pkg/cashflow_dashboard.py]       (module [CashflowDashboard]),
    - [forecast_pkg/expense_dashboard.py]        (module [ExpenseDashboard]),
    - [forecast_pkg/balance_sheet_dashboard.py]  (module [BalanceSheetDashboard]),

    and proves the properties of the forecast sensitivity model about them.
    Further properties of the same files follow them: of the sample data
    generators, of the proxy parameters of the revenue table, of
    [calculate_cashflow] and [calculate_balance_sheet] and what their
    outcomes tell about the records, of the sample frames and the run of
    [code-v3/expense-forecast-dashboard-streamlit-v1.6.py] (modules
    [ExpenseFrame] and [ExpenseV3]) and of the forecast summary of the v3
    revenue script.

    Numbers.  The Python code computes with binary64 floats.  Here every
    finite number is an exact rational ([Q]); rounding and overflow are not
    modelled, so equalities between computed numbers are stated up to [==]
    ([Qeq]).  What is modelled of the float semantics is the behaviour at a
    zero divisor, which differs between the two kinds of number the code
    meets at run time: a numpy scalar (what a pandas reduction or [np.sin]
    returns) divides to [inf] or [nan], a built-in Python number raises
    [ZeroDivisionError].

    Since the rounding is left out, the properties are kept to what does
    not rest on exact algebra: an equality relates two results of the same
    operations on the same numbers (or the difference of two equal numbers
    to 0), and a bound is the value of the code's own expression at the
    limit of its operands, the limit included (a sample below 1 can round a
    product up to its limit).  Identities that
    hold for rationals only, such as the linearity of an impact in its
    level, are not among them.

    Records.  The label of a period is a field of its record, so a dict
    without the key ['quarter'] (on which [calculate_cashflow] and
    [calculate_balance_sheet] raise [KeyError]) has no counterpart here; nor
    has the [OverflowError] of an [int] too large for a float.  Statements
    about an outcome therefore go from the outcome to the records (what a
    return or a [ZeroDivisionError] tells) or assume records with the keys
    read. *)

From Stdlib Require Import QArith Qfield Lqa.
From stdpp Require Import base option list gmap strings.

Local Open Scope Q_scope.

(** ** numpy: float64 scalars and the global random generator *)

Module np.

(** A [numpy.float64]: a finite value, a signed infinity or NaN.  The sign of
    a zero is not tracked (a zero counts as [+0.0]). *)
Inductive float64 : Type :=
| Fin (q : Q)
| Inf (negative : bool)
| NaN.

Definition is_neg (q : Q) : bool :=
match q ?= 0 with Lt => true | _ => false end.

Definition is_zero (q : Q) : bool :=
match q ?= 0 with Eq => true | _ => false end.

(** [x / y] on float64 scalars: never raises; a zero divisor gives [inf],
    [-inf] or [nan] (numpy only emits a RuntimeWarning). *)
Definition truediv (x y : float64) : float64 :=
match x, y with
| NaN, _ | _, NaN => NaN
| Inf _, Inf _ => NaN
| Inf s, Fin b => Inf (xorb s (is_neg b))
| Fin _, Inf _ => Fin 0
| Fin a, Fin b =>
    if is_zero b then (if is_zero a then NaN else Inf (is_neg a))
    else Fin (a / b)
end.

Definition mul (x y : float64) : float64 :=
match x, y with
| NaN, _ | _, NaN => NaN
| Inf s, Inf t => Inf (xorb s t)
| Inf s, Fin b => if is_zero b then NaN else Inf (xorb s (is_neg b))
| Fin a, Inf t => if is_zero a then NaN else Inf (xorb (is_neg a) t)
| Fin a, Fin b => Fin (a * b)
end.

Definition add (x y : float64) : float64 :=
match x, y with
| NaN, _ | _, NaN => NaN
| Inf s, Inf t => if Bool.eqb s t then Inf s else NaN
| Inf s, Fin _ => Inf s
| Fin _, Inf t => Inf t
| Fin a, Fin b => Fin (a + b)
end.

Definition sub (x y : float64) : float64 :=
match x, y with
| NaN, _ | _, NaN => NaN
| Inf s, Inf t => if Bool.eqb s t then NaN else Inf s
| Inf s, Fin _ => Inf s
| Fin _, Inf t => Inf (negb t)
| Fin a, Fin b => Fin (a - b)
end.

(** Equality of float64 values up to the representation of rationals. *)
Definition feq (x y : float64) : Prop :=
match x, y with
| Fin a, Fin b => a == b
| Inf s, Inf t => s = t
| NaN, NaN => True
| _, _ => False
end.

Definition is_finite (x : float64) : bool :=
match x with Fin _ => true | _ => false end.

(** The state of numpy's global generator: the sequence of uniform samples
    of [0, 1) it is going to produce, and how many have been consumed. *)
Record RandomState : Type := mkRandomState {
  samples : nat -> Q;
  consumed : nat
}.

(** Code that draws from the generator threads its state. *)
Definition Rand (A : Type) : Type := RandomState -> A * RandomState.

#[global] Instance Rand_ret : MRet Rand := λ A x g, (x, g).

#[global] Instance Rand_bind : MBind Rand :=
  λ A B f m g, let (x, g') := m g in f x g'.

(** [np.random.random()] *)
Definition random : Rand Q :=
  λ g, (samples g (consumed g), mkRandomState (samples g) (S (consumed g))).

(** [np.random.uniform(low, high)] *)
Definition uniform (low high : Q) : Rand Q :=
  u ← random; mret (low + (high - low) * u).

(** [g] and [g'] are going to produce the same next [k] samples. *)
Definition agree (k : nat) (g g' : RandomState) : Prop :=
  forall n, (n < k)%nat ->
    samples g (consumed g + n)%nat = samples g' (consumed g' + n)%nat.

(** [g1] is [g] after [k] more samples have been consumed. *)
Definition advanced (k : nat) (g g1 : RandomState) : Prop :=
  samples g1 = samples g /\ consumed g1 = (consumed g + k)%nat.

(** The computation [m] consumes exactly [k] samples, and its result is
    determined by them. *)
Definition draws {A : Type} (k : nat) (m : Rand A) : Prop :=
  (forall g, advanced k g (snd (m g)))
  /\ (forall g g', agree k g g' -> fst (m g) = fst (m g')).

End np.

(** ** Python: numbers at run time, and exceptions *)

Module py.

Inductive exn : Type :=
| KeyError (key : string)
| ZeroDivisionError.

Inductive result (A : Type) : Type :=
| Ok (a : A)
| Raise (e : exn).
Arguments Ok {A} a.
Arguments Raise {A} e.

#[global] Instance result_ret : MRet result := λ A x, Ok x.

#[global] Instance result_bind : MBind result :=
  λ A B f m, match m with Ok x => f x | Raise e => Raise e end.

(** A number in a dict: a built-in [int] or [float], or a numpy scalar.
    An operation with a numpy operand is numpy's, and its result a numpy
    scalar. *)
Inductive number : Type :=
| Builtin (q : Q)
| Numpy (x : np.float64).

Definition as_float64 (a : number) : np.float64 :=
match a with
| Builtin q => np.Fin q
| Numpy x => x
end.

Definition add (a b : number) : number :=
match a, b with
| Builtin x, Builtin y => Builtin (x + y)
| _, _ => Numpy (np.add (as_float64 a) (as_float64 b))
end.

Definition sub (a b : number) : number :=
match a, b with
| Builtin x, Builtin y => Builtin (x - y)
| _, _ => Numpy (np.sub (as_float64 a) (as_float64 b))
end.

Definition mul (a b : number) : number :=
match a, b with
| Builtin x, Builtin y => Builtin (x * y)
| _, _ => Numpy (np.mul (as_float64 a) (as_float64 b))
end.

(** [a / b]: only the division of two built-in numbers raises. *)
Definition truediv (a b : number) : result number :=
match a, b with
| Builtin x, Builtin y =>
    if np.is_zero y then Raise ZeroDivisionError else Ok (Builtin (x / y))
| _, _ => Ok (Numpy (np.truediv (as_float64 a) (as_float64 b)))
end.

(** the built-in [sum], which starts from the [int] 0 *)
Definition sum (l : list number) : number := foldl add (Builtin 0) l.

(** The number [a] is finite, with value [q]. *)
Definition represents (a : number) (q : Q) : Prop :=
match as_float64 a with
| np.Fin x => x == q
| _ => False
end.

Definition is_builtin (a : number) : Prop :=
match a with
| Builtin _ => True
| Numpy _ => False
end.

End py.

Declare Scope number_scope.
Delimit Scope number_scope with num.
Bind Scope number_scope with py.number.
Infix "+" := py.add : number_scope.
Infix "-" := py.sub : number_scope.
Infix "*" := py.mul : number_scope.

(** ** pandas: series, and frames held by reference *)

Module pd.

(** A numeric [Series] (one column of a frame). *)
Definition Series : Type := list Q.

(** [a + b], elementwise on two columns of the same frame *)
Definition add (a b : Series) : Series := zip_with Qplus a b.

(** [a * k] for a scalar [k] *)
Definition mul (a : Series) (k : Q) : Series := (λ x, x * k) <$> a.

(** [a.sum()] *)
Definition sum (a : Series) : Q := foldr Qplus 0 a.

End pd.

(** ** The revenue forecast frame

    [generate_sample_data] builds a frame with a label column [quarter], six
    input columns and the derived column [revenueForecast]; both revenue
    dashboards work on it. *)

Module RevenueFrame.

(** The numeric columns, by their labels. *)
Inductive Column : Type :=
| TopChannelValue
| MonthlyRecurringRevenue
| NewPromotionRevenue
| CustomerAcquisitionCost
| CustomerLifetimeValue
| InventoryTurnover
| RevenueForecast.

#[global] Instance Column_eq_dec : EqDecision Column.
Proof. solve_decision. Defined.

Definition label (c : Column) : string :=
match c with
| TopChannelValue => "topChannelValue"
| MonthlyRecurringRevenue => "monthlyRecurringRevenue"
| NewPromotionRevenue => "newPromotionRevenue"
| CustomerAcquisitionCost => "customerAcquisitionCost"
| CustomerLifetimeValue => "customerLifetimeValue"
| InventoryTurnover => "inventoryTurnover"
| RevenueForecast => "revenueForecast"
end.

(** One row of the frame: one quarter. *)
Record Row : Type := mkRow {
  quarter : string;
  topChannelValue : Q;
  monthlyRecurringRevenue : Q;
  newPromotionRevenue : Q;
  customerAcquisitionCost : Q;
  customerLifetimeValue : Q;
  inventoryTurnover : Q;
  revenueForecast : Q
}.

Definition DataFrame : Type := list Row.

Definition cell (c : Column) (r : Row) : Q :=
match c with
| TopChannelValue => topChannelValue r
| MonthlyRecurringRevenue => monthlyRecurringRevenue r
| NewPromotionRevenue => newPromotionRevenue r
| CustomerAcquisitionCost => customerAcquisitionCost r
| CustomerLifetimeValue => customerLifetimeValue r
| InventoryTurnover => inventoryTurnover r
| RevenueForecast => revenueForecast r
end.

Definition set_cell (c : Column) (v : Q) (r : Row) : Row :=
match c with
| TopChannelValue =>
    mkRow (quarter r) v (monthlyRecurringRevenue r) (newPromotionRevenue r)
      (customerAcquisitionCost r) (customerLifetimeValue r) (inventoryTurnover r)
      (revenueForecast r)
| MonthlyRecurringRevenue =>
    mkRow (quarter r) (topChannelValue r) v (newPromotionRevenue r)
      (customerAcquisitionCost r) (customerLifetimeValue r) (inventoryTurnover r)
      (revenueForecast r)
| NewPromotionRevenue =>
    mkRow (quarter r) (topChannelValue r) (monthlyRecurringRevenue r) v
      (customerAcquisitionCost r) (customerLifetimeValue r) (inventoryTurnover r)
      (revenueForecast r)
| CustomerAcquisitionCost =>
    mkRow (quarter r) (topChannelValue r) (monthlyRecurringRevenue r)
      (newPromotionRevenue r) v (customerLifetimeValue r) (inventoryTurnover r)
      (revenueForecast r)
| CustomerLifetimeValue =>
    mkRow (quarter r) (topChannelValue r) (monthlyRecurringRevenue r)
      (newPromotionRevenue r) (customerAcquisitionCost r) v (inventoryTurnover r)
      (revenueForecast r)
| InventoryTurnover =>
    mkRow (quarter r) (topChannelValue r) (monthlyRecurringRevenue r)
      (newPromotionRevenue r) (customerAcquisitionCost r) (customerLifetimeValue r) v
      (revenueForecast r)
| RevenueForecast =>
    mkRow (quarter r) (topChannelValue r) (monthlyRecurringRevenue r)
      (newPromotionRevenue r) (customerAcquisitionCost r) (customerLifetimeValue r)
      (inventoryTurnover r) v
end.

(** [df[c]] *)
Definition column (c : Column) (df : DataFrame) : pd.Series := cell c <$> df.

(** The frame [df] after [df[c] *= k]. *)
Definition scale_column (c : Column) (k : Q) (df : DataFrame) : DataFrame :=
  (λ r, set_cell c (cell c r * k) r) <$> df.

(** The derived column agrees with the inputs, row by row, as in the frames
    that [generate_sample_data] builds. *)
Definition consistent (df : DataFrame) : Prop :=
  Forall (λ r, revenueForecast r
               == topChannelValue r + monthlyRecurringRevenue r * 3
                  + newPromotionRevenue r) df.

(** Frames are objects: a variable holds a reference into the store, and
    [df[c] *= k] updates the frame it refers to in place. *)
Abbreviation ref := nat (only parsing).
Abbreviation store := (list DataFrame) (only parsing).

(** Code working on frames threads the store; [None] is a run that stops
    on a dangling reference or an unbound name (no run below does, from a
    valid reference). *)
Definition St (A : Type) : Type := store -> option (A * store).

#[global] Instance St_ret : MRet St := λ A x s, Some (x, s).

#[global] Instance St_bind : MBind St :=
  λ A B f m s, match m s with Some (x, s') => f x s' | None => None end.

(** reading the frame behind a reference *)
Definition deref (r : ref) : St DataFrame :=
  λ s, (λ df, (df, s)) <$> s !! r.

(** [r.copy()]: a new frame with the same contents *)
Definition copy (r : ref) : St ref :=
  λ s, (λ df, (length s, s ++ [df])) <$> s !! r.

(** [r[c] *= k] *)
Definition imul (r : ref) (c : Column) (k : Q) : St unit :=
  λ s, (λ df, (tt, <[r := scale_column c k df]> s)) <$> s !! r.

(** [generate_sample_data(quarters)].  The quarter labels come from
    [datetime.now()]; [quarter_label i] stands for the label of the quarter
    [90*i] days from now.  (A frame always has the eight columns here; for
    [quarters = 0] pandas builds a frame without columns, which the
    dashboards, with 6 and 5 quarters, never do.) *)
Definition generate_sample_data (quarter_label : nat -> string) (quarters : nat)
  : np.Rand DataFrame :=
  mapM (M := np.Rand) (λ i : nat,
    top ← np.uniform 800000000 1000000000;
    mrr ← np.uniform 200000000 300000000;
    promo ← np.uniform 50000000 100000000;
    cac ← np.uniform 1000 2000;
    clv ← np.uniform 10000 20000;
    turnover ← np.uniform 4 6;
    mret (mkRow (quarter_label i) top mrr promo cac clv turnover
                (top + mrr * 3 + promo)))
  (seq 0 quarters).

End RevenueFrame.

(** ** forecast_pkg/revenue_dashboard.py *)

Module RevenueDashboard.
Import RevenueFrame.

Definition parameters : list Column :=
  [TopChannelValue; MonthlyRecurringRevenue; NewPromotionRevenue;
   CustomerAcquisitionCost; CustomerLifetimeValue; InventoryTurnover].

Definition variations : list Q := [-20; -10; 0; 10; 20].

(** [(md['topChannelValue'] + md['monthlyRecurringRevenue'] * 3
      + md['newPromotionRevenue']).sum()] *)
Definition revenue_sum (md : DataFrame) : Q :=
  pd.sum (pd.add (pd.add (column TopChannelValue md)
                         (pd.mul (column MonthlyRecurringRevenue md) 3))
                 (column NewPromotionRevenue md)).

(** [(modified_revenue - base_revenue) / base_revenue * 100], on the
    float64 scalars that the two [.sum()] return. *)
Definition percent_change (modified_revenue base_revenue : Q) : np.float64 :=
  np.mul (np.truediv (np.sub (np.Fin modified_revenue) (np.Fin base_revenue))
                     (np.Fin base_revenue))
         (np.Fin 100).

(** No branch of the [if]/[elif] chain binds [modified_revenue] for a name
    outside [parameters]; the loop never reaches this. *)
Definition unbound : St Q := λ _, None.

Definition perform_sensitivity_analysis (base_data : ref)
  : St (list (string * list np.float64)) :=
  base ← deref base_data;
  let base_revenue := pd.sum (column RevenueForecast base) in
  mapM (M := St) (λ param,
    param_results ← mapM (M := St) (λ variation,
      modified_data ← copy base_data;
      modified_revenue ←
        match param with
        | TopChannelValue | MonthlyRecurringRevenue | NewPromotionRevenue =>
            imul modified_data param (1 + variation / 100);;
            md ← deref modified_data;
            mret (revenue_sum md)
        | CustomerAcquisitionCost =>
            let impact := 1 - variation / 100 in
            imul modified_data NewPromotionRevenue impact;;
            md ← deref modified_data;
            mret (revenue_sum md)
        | CustomerLifetimeValue =>
            let impact := 1 + variation / 100 in
            imul modified_data MonthlyRecurringRevenue impact;;
            md ← deref modified_data;
            mret (revenue_sum md)
        | InventoryTurnover =>
            let impact := 1 + variation / 200 in
            imul modified_data TopChannelValue impact;;
            md ← deref modified_data;
            mret (revenue_sum md)
        | RevenueForecast => unbound
        end;
      mret (percent_change modified_revenue base_revenue))
    variations;
    mret (label param, param_results))
  parameters.

(** [data['revenueForecast'].sum()], as [revenue_forecast_dashboard]
    evaluates it after the run. *)
Definition base_forecast (data : ref) : St Q :=
  frame ← deref data;
  mret (pd.sum (column RevenueForecast frame)).

(** The rest of the module names what a run computes;
    [perform_sensitivity_analysis_run] below relates it to the code. *)

(** What the branch taken for [param] does to the copy: the column it
    rescales and the factor it applies at level [variation]. *)
Definition target (param : Column) : Column :=
match param with
| CustomerAcquisitionCost => NewPromotionRevenue
| CustomerLifetimeValue => MonthlyRecurringRevenue
| InventoryTurnover => TopChannelValue
| _ => param
end.

Definition factor (param : Column) (variation : Q) : Q :=
match param with
| CustomerAcquisitionCost => 1 - variation / 100
| InventoryTurnover => 1 + variation / 200
| _ => 1 + variation / 100
end.

(** The frame behind [modified_data] at the end of iteration
    ([param], [variation]). *)
Definition modified_frame (base : DataFrame) (param : Column) (variation : Q)
  : DataFrame :=
  scale_column (target param) (factor param variation) base.

(** The table that a run on the frame [base] returns, and the frames it
    leaves in the store (one copy per iteration, in loop order). *)
Definition impact_column (base : DataFrame) (param : Column) : list np.float64 :=
  (λ variation,
     percent_change (revenue_sum (modified_frame base param variation))
                    (pd.sum (column RevenueForecast base))) <$> variations.

Definition impact_table (base : DataFrame) : list (string * list np.float64) :=
  (λ param, (label param, impact_column base param)) <$> parameters.

Definition copies (base : DataFrame) : list DataFrame :=
  concat ((λ param, modified_frame base param <$> variations) <$> parameters).

(** The weight of a column in the revenue of a row. *)
Definition weight (c : Column) : Q :=
match c with
| TopChannelValue => 1
| MonthlyRecurringRevenue => 3
| NewPromotionRevenue => 1
| _ => 0
end.

End RevenueDashboard.

(** ** code-v3/revenue-forecast-dashboard-streamlit-1.3.py *)

Module RevenueV3.
Import RevenueFrame.

Definition parameters : list Column :=
  [TopChannelValue; MonthlyRecurringRevenue; NewPromotionRevenue;
   CustomerAcquisitionCost; CustomerLifetimeValue; InventoryTurnover].

Definition variations : list Q := [-20; -10; 0; 10; 20].

(** One row of the result frame. *)
Record Result : Type := mkResult {
  parameter : string;
  variation : Q;
  revenue : Q
}.

Definition total_revenue_of (md : DataFrame) : Q :=
  pd.sum (pd.add (pd.add (column TopChannelValue md)
                         (pd.mul (column MonthlyRecurringRevenue md) 3))
                 (column NewPromotionRevenue md)).

Definition sensitivity_analysis (base_data : ref) : St (list Result) :=
  rows ← mapM (M := St) (λ param,
    mapM (M := St) (λ variation,
      modified_data ← copy base_data;
      imul modified_data param (1 + variation / 100);;
      md ← deref modified_data;
      let total_revenue := total_revenue_of md in
      mret (mkResult (label param) variation total_revenue))
    variations)
  parameters;
  mret (concat rows).

(** The rows that a run on the frame [base] returns, and the frames it
    leaves in the store ([v3_sensitivity_analysis_run] below). *)
Definition result_rows (base : DataFrame) : list Result :=
  concat ((λ param,
    (λ variation,
       mkResult (label param) variation
         (total_revenue_of (scale_column param (1 + variation / 100) base)))
    <$> variations) <$> parameters).

Definition copies (base : DataFrame) : list DataFrame :=
  concat ((λ param,
    (λ variation, scale_column param (1 + variation / 100) base)
    <$> variations) <$> parameters).

End RevenueV3.

(** ** forecast_pkg/cashflow_dashboard.py

    The records are Python dicts: a missing key raises [KeyError].  The
    numbers in them are built-in numbers or numpy scalars
    ([generate_realistic_sample_data] puts both kinds into a record: the day
    counts are built-in ints, salesRevenue is a numpy float64 through
    [np.sin]); the level [variation_percentage] is a built-in number. *)

Module CashflowDashboard.
Import py.

(** One period: a dict with the label under ['quarter'] and numbers under
    the other keys. *)
Record PeriodRecord : Type := mkRecord {
  quarter : string;
  fields : gmap string number
}.

(** [q[key]] *)
Definition getitem (key : string) (q : PeriodRecord) : result number :=
match fields q !! key with
| Some v => Ok v
| None => Raise (KeyError key)
end.

(** [{**q, key: v}] *)
Definition with_item (key : string) (v : number) (q : PeriodRecord) : PeriodRecord :=
  mkRecord (quarter q) (<[key := v]> (fields q)).

Definition calculate_cashflow (data : list PeriodRecord) (variation_percentage : Q)
  : result (list (string * number)) :=
  mapM (M := result) (λ quarter_,
    let days_in_quarter := Builtin 91 in
    let variation_factor := Builtin (1 + variation_percentage / 100) in
    salesRevenue ← getitem "salesRevenue" quarter_;
    accountsReceivableDays ← getitem "accountsReceivableDays" quarter_;
    receivable_turns ← truediv days_in_quarter accountsReceivableDays;
    customerPrepayments ← getitem "customerPrepayments" quarter_;
    let cash_inflow :=
      (salesRevenue * variation_factor * receivable_turns
       + customerPrepayments * variation_factor)%num in
    rawMaterialCosts ← getitem "rawMaterialCosts" quarter_;
    laborCosts ← getitem "laborCosts" quarter_;
    accountsPayableDays ← getitem "accountsPayableDays" quarter_;
    payable_turns ← truediv days_in_quarter accountsPayableDays;
    capex ← getitem "capex" quarter_;
    operatingExpenses ← getitem "operatingExpenses" quarter_;
    debtRepayments ← getitem "debtRepayments" quarter_;
    taxPayments ← getitem "taxPayments" quarter_;
    dividendPayments ← getitem "dividendPayments" quarter_;
    let cash_outflow :=
      ((rawMaterialCosts + laborCosts) * variation_factor * payable_turns
       + capex * variation_factor
       + operatingExpenses * variation_factor
       + debtRepayments
       + taxPayments * variation_factor
       + dividendPayments)%num in
    let net_cashflow := (cash_inflow - cash_outflow)%num in
    mret (quarter quarter_, net_cashflow))
  data.

Definition parameters : list string :=
  ["salesRevenue"; "accountsReceivableDays"; "rawMaterialCosts"; "laborCosts";
   "accountsPayableDays"; "capex"; "inventoryTurnover"; "operatingExpenses";
   "debtRepayments"; "taxPayments"; "seasonalFactor"; "customerPrepayments";
   "supplierCreditDays"; "dividendPayments"; "fxRate"]%string.

(** One entry of the result: [{'increased': _, 'decreased': _}]. *)
Record Impact : Type := mkImpact {
  increased : number;
  decreased : number
}.

(** [[{**quarter, param: quarter[param] * factor} for quarter in base_data]] *)
Definition perturbed (param : string) (factor : Q) (base_data : list PeriodRecord)
  : result (list PeriodRecord) :=
  mapM (M := result) (λ quarter_,
    v ← getitem param quarter_;
    mret (with_item param (v * Builtin factor)%num quarter_))
  base_data.

(** The body of the loop of [sensitivity_analysis]: the entry
    [results[param]], with its key. *)
Definition sensitivity_of (base_data : list PeriodRecord) (variation_percentage : Q)
    (param : string) : result (string * Impact) :=
  increased_data ← perturbed param (1 + variation_percentage / 100) base_data;
  decreased_data ← perturbed param (1 - variation_percentage / 100) base_data;
  base_cashflow ← calculate_cashflow base_data 0;
  increased_cashflow ← calculate_cashflow increased_data 0;
  decreased_cashflow ← calculate_cashflow decreased_data 0;
  let total_base_net_cashflow := sum (snd <$> base_cashflow) in
  let total_increased_net_cashflow := sum (snd <$> increased_cashflow) in
  let total_decreased_net_cashflow := sum (snd <$> decreased_cashflow) in
  inc ← truediv (total_increased_net_cashflow - total_base_net_cashflow)
                total_base_net_cashflow;
  dec ← truediv (total_decreased_net_cashflow - total_base_net_cashflow)
                total_base_net_cashflow;
  mret (param, mkImpact (inc * Builtin 100) (dec * Builtin 100)).

Definition sensitivity_analysis (base_data : list PeriodRecord) (variation_percentage : Q)
  : result (list (string * Impact)) :=
  mapM (M := result) (sensitivity_of base_data variation_percentage) parameters.

(** The aggregate of a series: its total net cashflow, as the loop body
    computes it ([calculate_cashflow] at variation 0, then [sum]). *)
Definition total_net_cashflow (data : list PeriodRecord) : result number :=
  cashflow ← calculate_cashflow data 0;
  mret (sum (snd <$> cashflow)).

(** The rest of the module names the notions the properties below are
    stated with. *)

(** The keys that [calculate_cashflow] reads. *)
Definition reads : list string :=
  ["salesRevenue"; "accountsReceivableDays"; "customerPrepayments";
   "rawMaterialCosts"; "laborCosts"; "accountsPayableDays"; "capex";
   "operatingExpenses"; "debtRepayments"; "taxPayments";
   "dividendPayments"]%string.

(** The number under [key] is finite. *)
Definition finite_at (q : PeriodRecord) (key : string) : Prop :=
  exists x v, fields q !! key = Some x /\ represents x v.

(** The number under [key], if finite, is not zero. *)
Definition nonzero_at (q : PeriodRecord) (key : string) : Prop :=
  forall x v, fields q !! key = Some x -> represents x v -> ~ v == 0.

(** A record on which [calculate_cashflow] computes a finite net cashflow:
    the flows and day counts it reads are finite numbers, and the two day
    counts it divides by are not zero. *)
Definition ready (q : PeriodRecord) : Prop :=
  Forall (finite_at q) reads
  /\ nonzero_at q "accountsReceivableDays"
  /\ nonzero_at q "accountsPayableDays".

(** A record with the dashboard's schema: every parameter is a key. *)
Definition has_parameters (q : PeriodRecord) : Prop :=
  Forall (λ param, is_Some (fields q !! param)) parameters.

Definition well_formed (q : PeriodRecord) : Prop :=
  has_parameters q /\ ready q.

(** A record in which every number is a built-in number. *)
Definition builtin_record (q : PeriodRecord) : Prop :=
  forall key x, fields q !! key = Some x -> is_builtin x.

(** [entry] is the entry of [param]: its two Impact Results are the
    percentage changes of the aggregate from the baseline [base] to the
    series perturbed at the levels [+v] and [-v]. *)
Definition impact_formula (base : list PeriodRecord) (v : Q) (param : string)
    (entry : string * Impact) : Prop :=
  exists a0 q0 inc_data a_inc q_inc dec_data a_dec q_dec,
    total_net_cashflow base = Ok a0 /\ represents a0 q0
    /\ perturbed param (1 + v / 100) base = Ok inc_data
    /\ total_net_cashflow inc_data = Ok a_inc /\ represents a_inc q_inc
    /\ perturbed param (1 - v / 100) base = Ok dec_data
    /\ total_net_cashflow dec_data = Ok a_dec /\ represents a_dec q_dec
    /\ fst entry = param
    /\ represents (increased (snd entry)) ((q_inc - q0) / q0 * 100)
    /\ represents (decreased (snd entry)) ((q_dec - q0) / q0 * 100).

(** [q'] is [q] with the number under [param] multiplied by [factor]. *)
Definition scaled (param : string) (factor : Q) (q q' : PeriodRecord) : Prop :=
  exists x, fields q !! param = Some x
            /\ q' = with_item param (x * Builtin factor)%num q.

(** Two records with the same label and the same numbers under the keys
    read are the same to [calculate_cashflow]. *)
Definition same_inputs (q q' : PeriodRecord) : Prop :=
  quarter q = quarter q'
  /\ Forall (λ key, fields q !! key = fields q' !! key) reads.

End CashflowDashboard.

(** ** forecast_pkg/expense_dashboard.py *)

Module ExpenseDashboard.

Definition parameters : list string :=
  ["payrollCosts"; "COGS"; "operatingCost"; "overheadCost"; "inventoryValue";
   "RDExpenses"; "marketingSalesExpenses"]%string.

Definition variations : list Q := [-20; -10; 0; 10; 20].

(** the built-in [min] and [max] of two numbers *)
Definition min (a b : Q) : Q := if Qle_bool a b then a else b.
Definition max (a b : Q) : Q := if Qle_bool b a then a else b.

(** The result frame: one column per parameter, one row per entry of
    [variations] (the index). *)
Definition perform_expense_sensitivity_analysis : np.Rand (list (string * list Q)) :=
  mapM (M := np.Rand) (λ param,
    column ← mapM (M := np.Rand) (λ variation,
      r1 ← np.random;
      let base_effect := variation * (0.5 + r1) in
      r2 ← np.random;
      let random_factor := (r2 - 0.5) * 20 in
      let effect := base_effect + random_factor in
      let effect := max (-50) (min 50 effect) in
      mret effect)
    variations;
    mret (param, column))
  parameters.

(** Two result frames with the same labels and the same numbers. *)
Definition table_eq (t t' : list (string * list Q)) : Prop :=
  Forall2 (λ c c', fst c = fst c' /\ Forall2 Qeq (snd c) (snd c')) t t'.

End ExpenseDashboard.

(** ** forecast_pkg/balance_sheet_dashboard.py *)

Module BalanceSheetDashboard.

Definition parameters : list string :=
  ["cash"; "accountsReceivable"; "inventory"; "ppe"; "accountsPayable";
   "shortTermDebt"; "longTermDebt"; "retainedEarnings"; "capex";
   "depreciationAmortization"]%string.

Record Impact : Type := mkImpact {
  increased : Q;
  decreased : Q
}.

(** [a < b] on numbers *)
Definition lt (a b : Q) : bool := negb (Qle_bool b a).

Definition sensitivity_analysis : np.Rand (list (string * Impact)) :=
  mapM (M := np.Rand) (λ param,
    r1 ← np.random;
    r2 ← np.random;
    let increased_impact := (r1 * 15 + 5) * (if lt r2 0.5 then 1 else -1) in
    r3 ← np.random;
    r4 ← np.random;
    let decreased_impact := (r3 * 15 + 5) * (if lt r4 0.5 then 1 else -1) in
    mret (param, mkImpact increased_impact decreased_impact))
  parameters.

End BalanceSheetDashboard.

(** ** The two-period scenario

    Two periods with revenue 100 and cost 40 each, as cashflow records:
    the revenue is [salesRevenue], collected within the quarter (91
    receivable days), the cost is [rawMaterialCosts], paid within the
    quarter (91 payable days); the other flows are zero. *)

Module Scenario.
Import py CashflowDashboard.

(** One period, with built-in numbers ([numpy_flows = false]) or with the
    two flows as numpy scalars, as in the generated sample data. *)
Definition period (numpy_flows : bool) (label : string) (revenue cost : Q)
  : PeriodRecord :=
  let flow (q : Q) := if numpy_flows then Numpy (np.Fin q) else Builtin q in
  mkRecord label (list_to_map
    [("salesRevenue", flow revenue); ("accountsReceivableDays", Builtin 91);
     ("rawMaterialCosts", flow cost); ("laborCosts", Builtin 0);
     ("accountsPayableDays", Builtin 91); ("capex", Builtin 0);
     ("inventoryTurnover", Builtin 6); ("operatingExpenses", Builtin 0);
     ("debtRepayments", Builtin 0); ("taxPayments", Builtin 0);
     ("seasonalFactor", Builtin 1); ("customerPrepayments", Builtin 0);
     ("supplierCreditDays", Builtin 45); ("dividendPayments", Builtin 0);
     ("fxRate", Builtin 1)]%string).

Definition baseline : list PeriodRecord :=
  [period false "Q1" 100 40; period false "Q2" 100 40].

(** The same periods with cost equal to revenue: the aggregate is 0. *)
Definition break_even (numpy_flows : bool) : list PeriodRecord :=
  [period numpy_flows "Q1" 100 100; period numpy_flows "Q2" 100 100].

(** A generator whose [n]-th sample is [1 / (n + 2)]. *)
Definition generator : np.RandomState :=
  np.mkRandomState (λ n, 1 # Pos.of_succ_nat (S n)) 0.

(** A generator with the same first 70 samples, and zeros after them. *)
Definition short_generator : np.RandomState :=
  np.mkRandomState
    (λ n, if (n <? 70)%nat then 1 # Pos.of_succ_nat (S n) else 0) 0.

(** A one-quarter revenue frame, consistent, with revenue 200. *)
Definition frame : RevenueFrame.DataFrame :=
  [RevenueFrame.mkRow "Q1" 100 20 40 5 6 7 200].

(** A consistent one-quarter revenue frame with revenue 0. *)
Definition zero_frame : RevenueFrame.DataFrame :=
  [RevenueFrame.mkRow "Q1" 100 0 (-100) 5 6 7 0].

(** Two quarters as [generate_sample_data] draws them from [generator]. *)
Definition generated_frame : RevenueFrame.DataFrame :=
  fst (RevenueFrame.generate_sample_data (λ _, "Q"%string) 2 generator).

End Scenario.

(** ** forecast_pkg/cashflow_dashboard.py: the values in a record

    The value of a number, for statements about the totals of a record. *)

Module CashflowValues.
Import py CashflowDashboard.

(** The value of a finite number (0 for an infinity or nan). *)
Definition value (a : number) : Q :=
match as_float64 a with
| np.Fin x => x
| _ => 0
end.

(** The value under [key] in a record (0 without the key). *)
Definition value_at (q : PeriodRecord) (key : string) : Q :=
match fields q !! key with
| Some a => value a
| None => 0
end.

End CashflowValues.

(** ** forecast_pkg/cashflow_dashboard.py: the records on which
       [calculate_cashflow] returns *)

Module CashflowForecast.
Import py CashflowDashboard.

(** A record on which the body of [calculate_cashflow] raises nothing: it
    has the keys read, and no day count is a built-in zero. *)
Definition divides (q : PeriodRecord) (key : string) : Prop :=
  forall d, fields q !! key = Some (Builtin d) -> ~ d == 0.

Definition computable (q : PeriodRecord) : Prop :=
  Forall (λ key, is_Some (fields q !! key)) reads
  /\ divides q "accountsReceivableDays"
  /\ divides q "accountsPayableDays".

End CashflowForecast.

(** ** forecast_pkg/expense_dashboard.py: the sample data *)

Module ExpenseForecast.

(** One row of the frame: one quarter. *)
Record Row : Type := mkRow {
  quarter : string;
  baseForecast : Q;
  minForecast : Q;
  maxForecast : Q
}.

(** [generate_expense_sample_data(quarters)].  The labels come from
    [pd.Timestamp.now()]; [quarter_label i] stands for the label of the
    quarter [i]. *)
Definition generate_expense_sample_data (quarter_label : nat -> string)
    (quarters : nat) : np.Rand (list Row) :=
  let baseline_expense := 4000000000 / 4 in
  mapM (M := np.Rand) (λ i : nat,
    r1 ← np.random;
    let baseForecast := baseline_expense * (0.9 + r1 * 0.2) in
    r2 ← np.random;
    let minForecast := baseForecast * (0.8 + r2 * 0.1) in
    r3 ← np.random;
    let maxForecast := baseForecast * (1.1 + r3 * 0.1) in
    mret (mkRow (quarter_label i) baseForecast minForecast maxForecast))
  (seq 0 quarters).

End ExpenseForecast.

(** ** forecast_pkg/balance_sheet_dashboard.py: the balance sheet totals

    The records are dicts of the same kind as the cashflow records. *)

Module BalanceSheetForecast.
Import py.

(** One entry of the result. *)
Record BalanceSheet : Type := mkBalanceSheet {
  quarter : string;
  totalAssets : number;
  totalLiabilities : number;
  totalEquity : number;
  balanceSheetTotal : number
}.

Definition calculate_balance_sheet (data : list CashflowDashboard.PeriodRecord)
    (variation_percentage : Q) : result (list BalanceSheet) :=
  let variation_factor := Builtin (1 + variation_percentage / 100) in
  mapM (M := result) (λ quarter_,
    cash ← CashflowDashboard.getitem "cash" quarter_;
    accountsReceivable ← CashflowDashboard.getitem "accountsReceivable" quarter_;
    inventory ← CashflowDashboard.getitem "inventory" quarter_;
    ppe ← CashflowDashboard.getitem "ppe" quarter_;
    let total_assets :=
      ((cash + accountsReceivable + inventory + ppe) * variation_factor)%num in
    accountsPayable ← CashflowDashboard.getitem "accountsPayable" quarter_;
    shortTermDebt ← CashflowDashboard.getitem "shortTermDebt" quarter_;
    longTermDebt ← CashflowDashboard.getitem "longTermDebt" quarter_;
    let total_liabilities :=
      ((accountsPayable + shortTermDebt + longTermDebt) * variation_factor)%num in
    retainedEarnings ← CashflowDashboard.getitem "retainedEarnings" quarter_;
    let total_equity := (retainedEarnings * variation_factor)%num in
    mret (mkBalanceSheet (CashflowDashboard.quarter quarter_)
            total_assets total_liabilities total_equity total_assets))
  data.

(** The keys that [calculate_balance_sheet] reads. *)
Definition reads : list string :=
  ["cash"; "accountsReceivable"; "inventory"; "ppe"; "accountsPayable";
   "shortTermDebt"; "longTermDebt"; "retainedEarnings"]%string.

End BalanceSheetForecast.

(** ** The expense forecast frame of
       code-v3/expense-forecast-dashboard-streamlit-v1.6.py

    [generate_sample_data] builds a frame with a label column [quarter], six
    cost columns and the derived column [totalExpenses]. *)

Module ExpenseFrame.

(** The numeric columns, by their labels. *)
Inductive Column : Type :=
| PayrollCosts
| Cogs
| OperatingCost
| OverheadCost
| RdExpenses
| MarketingSalesExpenses
| TotalExpenses.

#[global] Instance ExpenseColumn_eq_dec : EqDecision Column.
Proof. solve_decision. Defined.

Definition label (c : Column) : string :=
match c with
| PayrollCosts => "payrollCosts"
| Cogs => "COGS"
| OperatingCost => "operatingCost"
| OverheadCost => "overheadCost"
| RdExpenses => "RDExpenses"
| MarketingSalesExpenses => "marketingSalesExpenses"
| TotalExpenses => "totalExpenses"
end.

(** One row of the frame: one quarter. *)
Record Row : Type := mkRow {
  quarter : string;
  payrollCosts : Q;
  COGS : Q;
  operatingCost : Q;
  overheadCost : Q;
  RDExpenses : Q;
  marketingSalesExpenses : Q;
  totalExpenses : Q
}.

Definition DataFrame : Type := list Row.

Definition cell (c : Column) (r : Row) : Q :=
match c with
| PayrollCosts => payrollCosts r
| Cogs => COGS r
| OperatingCost => operatingCost r
| OverheadCost => overheadCost r
| RdExpenses => RDExpenses r
| MarketingSalesExpenses => marketingSalesExpenses r
| TotalExpenses => totalExpenses r
end.

Definition set_cell (c : Column) (v : Q) (r : Row) : Row :=
match c with
| PayrollCosts =>
    mkRow (quarter r) v (COGS r) (operatingCost r) (overheadCost r)
      (RDExpenses r) (marketingSalesExpenses r) (totalExpenses r)
| Cogs =>
    mkRow (quarter r) (payrollCosts r) v (operatingCost r) (overheadCost r)
      (RDExpenses r) (marketingSalesExpenses r) (totalExpenses r)
| OperatingCost =>
    mkRow (quarter r) (payrollCosts r) (COGS r) v (overheadCost r)
      (RDExpenses r) (marketingSalesExpenses r) (totalExpenses r)
| OverheadCost =>
    mkRow (quarter r) (payrollCosts r) (COGS r) (operatingCost r) v
      (RDExpenses r) (marketingSalesExpenses r) (totalExpenses r)
| RdExpenses =>
    mkRow (quarter r) (payrollCosts r) (COGS r) (operatingCost r)
      (overheadCost r) v (marketingSalesExpenses r) (totalExpenses r)
| MarketingSalesExpenses =>
    mkRow (quarter r) (payrollCosts r) (COGS r) (operatingCost r)
      (overheadCost r) (RDExpenses r) v (totalExpenses r)
| TotalExpenses =>
    mkRow (quarter r) (payrollCosts r) (COGS r) (operatingCost r)
      (overheadCost r) (RDExpenses r) (marketingSalesExpenses r) v
end.

(** [df[c]] *)
Definition column (c : Column) (df : DataFrame) : pd.Series := cell c <$> df.

(** The frame [df] after [df[c] *= k]. *)
Definition scale_column (c : Column) (k : Q) (df : DataFrame) : DataFrame :=
  (λ r, set_cell c (cell c r * k) r) <$> df.

(** The frame [df] after [df[c] = values], for a series computed from
    [df] row by row. *)
Definition assign_column (c : Column) (values : Row -> Q) (df : DataFrame)
  : DataFrame :=
  (λ r, set_cell c (values r) r) <$> df.

(** The derived column agrees with the cost columns, row by row, as in the
    frames that [generate_sample_data] builds. *)
Definition consistent (df : DataFrame) : Prop :=
  Forall (λ r, totalExpenses r
               == payrollCosts r + COGS r + operatingCost r + overheadCost r
                  + RDExpenses r + marketingSalesExpenses r) df.

(** Frames are objects: a variable holds a reference into the store. *)
Definition Frames (A : Type) : Type :=
  list DataFrame -> option (A * list DataFrame).

#[global] Instance Frames_ret : MRet Frames := λ A x s, Some (x, s).

#[global] Instance Frames_bind : MBind Frames :=
  λ A B f m s, match m s with Some (x, s') => f x s' | None => None end.

(** reading the frame behind a reference *)
Definition deref (r : nat) : Frames DataFrame :=
  λ s, (λ df, (df, s)) <$> s !! r.

(** [r.copy()] *)
Definition copy (r : nat) : Frames nat :=
  λ s, (λ df, (length s, s ++ [df])) <$> s !! r.

(** [r[c] *= k] *)
Definition imul (r : nat) (c : Column) (k : Q) : Frames unit :=
  λ s, (λ df, (tt, <[r := scale_column c k df]> s)) <$> s !! r.

(** [r[c] = r[cs].sum(axis=1)] *)
Definition setitem_sum (r : nat) (c : Column) (cs : list Column) : Frames unit :=
  λ s, (λ df, (tt, <[r := assign_column c
                              (λ row, pd.sum ((λ c', cell c' row) <$> cs)) df]> s))
       <$> s !! r.

(** [generate_sample_data(quarters)]; [quarter_label i] stands for the
    label of the quarter [90*i] days from [datetime.now()].  The total is
    the built-in [sum] of the six costs, which starts from 0. *)
Definition generate_sample_data (quarter_label : nat -> string) (quarters : nat)
  : np.Rand DataFrame :=
  mapM (M := np.Rand) (λ i : nat,
    payroll ← np.uniform 800000000 1000000000;
    cogs ← np.uniform 1600000000 2000000000;
    operating ← np.uniform 400000000 500000000;
    overhead ← np.uniform 200000000 250000000;
    rd ← np.uniform 200000000 250000000;
    marketing ← np.uniform 300000000 375000000;
    mret (mkRow (quarter_label i) payroll cogs operating overhead rd marketing
                (0 + payroll + cogs + operating + overhead + rd + marketing)))
  (seq 0 quarters).

End ExpenseFrame.

(** ** code-v3/expense-forecast-dashboard-streamlit-v1.6.py *)

Module ExpenseV3.
Import ExpenseFrame.

Definition parameters : list Column :=
  [PayrollCosts; Cogs; OperatingCost; OverheadCost; RdExpenses;
   MarketingSalesExpenses].

Definition variations : list Q := [-20; -10; 0; 10; 20].

(** The dict [sensitivity_factors]. *)
Definition sensitivity_factors (param : Column) : option Q :=
match param with
| PayrollCosts => Some 0.8
| Cogs => Some 1.2
| OperatingCost => Some 0.6
| OverheadCost => Some 0.4
| RdExpenses => Some 0.3
| MarketingSalesExpenses => Some 0.5
| TotalExpenses => None
end.

(** One row of the result frame. *)
Record Result : Type := mkResult {
  parameter : string;
  variation : Q;
  percentChange : np.float64
}.

(** [(parameter_contribution / base_expenses) * 100 * factor], on the
    float64 scalars that the two [.sum()] return. *)
Definition percent_change (total_expenses base_expenses factor : Q) : np.float64 :=
  let parameter_contribution :=
    np.sub (np.Fin total_expenses) (np.Fin base_expenses) in
  np.mul (np.mul (np.truediv parameter_contribution (np.Fin base_expenses))
                 (np.Fin 100))
         (np.Fin factor).

(** [sensitivity_factors[param]] has an entry for every name of
    [parameters]; the loop never reaches this. *)
Definition missing_factor : Frames Result := λ _, None.

Definition sensitivity_analysis (base_data : nat) : Frames (list Result) :=
  base ← deref base_data;
  let base_expenses := pd.sum (column TotalExpenses base) in
  results ← mapM (M := Frames) (λ param,
    mapM (M := Frames) (λ variation,
      modified_data ← copy base_data;
      imul modified_data param (1 + variation / 100);;
      setitem_sum modified_data TotalExpenses parameters;;
      md ← deref modified_data;
      let total_expenses := pd.sum (column TotalExpenses md) in
      match sensitivity_factors param with
      | Some factor =>
          mret (M := Frames)
               (mkResult (label param) variation
                  (percent_change total_expenses base_expenses factor))
      | None => missing_factor
      end)
    variations)
  parameters;
  mret (concat results).

(** The rest of the module names what a run computes. *)

(** The frame behind [modified_data] at the end of iteration
    ([param], [variation]). *)
Definition modified_frame (base : DataFrame) (param : Column) (variation : Q)
  : DataFrame :=
  assign_column TotalExpenses
    (λ row, pd.sum ((λ c, cell c row) <$> parameters))
    (scale_column param (1 + variation / 100) base).

(** The rows that a run on the frame [base] returns, and the frames it
    leaves in the store (one copy per iteration, in loop order). *)
Definition result_rows (base : DataFrame) : list Result :=
  concat ((λ param,
    (λ variation,
       mkResult (label param) variation
         (percent_change
            (pd.sum (column TotalExpenses (modified_frame base param variation)))
            (pd.sum (column TotalExpenses base))
            (default 0 (sensitivity_factors param))))
    <$> variations) <$> parameters).

Definition copies (base : DataFrame) : list DataFrame :=
  concat ((λ param, modified_frame base param <$> variations) <$> parameters).

End ExpenseV3.

(** ** The forecast summary of the v3 revenue script *)

Module ForecastSummary.

(** [s.min()] and [s.max()] of a series of finite numbers; [None] stands
    for the nan that pandas returns for an empty series. *)
Definition min (a : pd.Series) : option Q :=
  foldr (λ x acc, Some match acc with
                       | Some m => if Qle_bool x m then x else m
                       | None => x
                       end) None a.

Definition max (a : pd.Series) : option Q :=
  foldr (λ x acc, Some match acc with
                       | Some m => if Qle_bool m x then x else m
                       | None => x
                       end) None a.

(** The three metrics of the summary of
    revenue-forecast-dashboard-streamlit-1.3.py, as the script computes
    them: [sensitivity_results = sensitivity_analysis(data)], then
    [base_forecast = data['revenueForecast'].sum()], and for the metrics
    [sensitivity_results['revenue'].min()] and
    [sensitivity_results['revenue'].max()]. *)
Definition revenue_summary (data : nat)
  : RevenueFrame.St (Q * option Q * option Q) :=
  sensitivity_results ← RevenueV3.sensitivity_analysis data;
  frame ← RevenueFrame.deref data;
  let base_forecast :=
    pd.sum (RevenueFrame.column RevenueFrame.RevenueForecast frame) in
  mret (base_forecast,
        min (RevenueV3.revenue <$> sensitivity_results),
        max (RevenueV3.revenue <$> sensitivity_results)).

End ForecastSummary.

(** ** More inputs *)

Module Inputs.

(** A one-quarter revenue frame whose stored revenueForecast (250) is not
    the revenue of its inputs (200). *)
Definition stale_frame : RevenueFrame.DataFrame :=
  [RevenueFrame.mkRow "Q1" 100 20 40 5 6 7 250].

(** A period without the key fxRate. *)
Definition without_fxRate : CashflowDashboard.PeriodRecord :=
  CashflowDashboard.mkRecord "Q3"
    (delete "fxRate"%string
       (CashflowDashboard.fields (Scenario.period false "Q3" 100 40))).

(** A period whose accountsReceivableDays is the built-in 0. *)
Definition no_receivable_days : CashflowDashboard.PeriodRecord :=
  CashflowDashboard.with_item "accountsReceivableDays" (py.Builtin 0)
    (Scenario.period false "Q1" 100 40).

(** A quarter whose assets (100) are not its liabilities and equity
    (30 + 50). *)
Definition unbalanced : CashflowDashboard.PeriodRecord :=
  CashflowDashboard.mkRecord "Q1" (list_to_map
    [("cash", py.Builtin 10); ("accountsReceivable", py.Builtin 20);
     ("inventory", py.Builtin 30); ("ppe", py.Builtin 40);
     ("accountsPayable", py.Builtin 5); ("shortTermDebt", py.Builtin 10);
     ("longTermDebt", py.Builtin 15); ("retainedEarnings", py.Builtin 50);
     ("capex", py.Builtin 7);
     ("depreciationAmortization", py.Builtin 3)]%string).

End Inputs.

(** * Properties *)

(** Splitting a conjunction of facts about concrete inputs and evaluating
    each of them. *)
Ltac evaluate_all :=
  repeat match goal with |- _ /\ _ => split end;
  try (vm_compute; reflexivity).

(** The cell of a table indexed by 6 parameters and 5 levels: one case per
    pair of indices. *)
Ltac each_iteration i j Hi Hj :=
  do 6 (destruct i as [|i];
        [injection Hi as <-;
         do 5 (destruct j as [|j]; [injection Hj as <-; reflexivity|]);
         discriminate|]);
  discriminate.

(** ** float64 scalars *)

Section Float64.
Import np.

Lemma is_zero_true (q : Q) : is_zero q = true <-> q == 0.
Proof.
  unfold is_zero. rewrite Qeq_alt.
  destruct (q ?= 0); intuition discriminate.
Qed.

Lemma is_zero_false (q : Q) : is_zero q = false <-> ~ q == 0.
Proof.
  rewrite <- is_zero_true. destruct (is_zero q); intuition discriminate.
Qed.

Lemma is_neg_true (q : Q) : is_neg q = true <-> q < 0.
Proof.
  unfold is_neg. rewrite Qlt_alt.
  destruct (q ?= 0); intuition discriminate.
Qed.

End Float64.

(** ** The random generator *)

Section Generator.
Import np.

Lemma agree_le (k k' : nat) (g g' : RandomState) :
  (k <= k')%nat -> agree k' g g' -> agree k g g'.
Proof. intros Hk H n Hn. apply H. lia. Qed.

Lemma agree_advanced (k k' : nat) (g g' g1 g1' : RandomState) :
  agree (k + k') g g' -> advanced k g g1 -> advanced k g' g1' ->
  agree k' g1 g1'.
Proof.
  intros H [Hs Hc] [Hs' Hc'] n Hn.
  rewrite Hs, Hc, Hs', Hc', <- !Nat.add_assoc. apply H. lia.
Qed.

Lemma draws_ret {A : Type} (x : A) : draws 0 (mret x).
Proof.
  split.
  - intros g. split; simpl; [reflexivity | lia].
  - reflexivity.
Qed.

Lemma draws_random : draws 1 random.
Proof.
  split.
  - intros g. split; simpl; [reflexivity | lia].
  - intros g g' H. simpl. specialize (H 0%nat ltac:(lia)).
    by rewrite !Nat.add_0_r in H.
Qed.

Lemma draws_bind {A B : Type} (k k' : nat) (m : Rand A) (f : A -> Rand B) :
  draws k m -> (forall x, draws k' (f x)) -> draws (k + k') (m ≫= f).
Proof.
  intros [Hadv Hfst] Hf. split.
  - intros g. unfold mbind, Rand_bind.
    specialize (Hadv g). destruct (m g) as [x g1]. simpl in Hadv.
    destruct (Hf x) as [Hadv' _]. specialize (Hadv' g1).
    destruct Hadv as [Hs Hc], Hadv' as [Hs' Hc'].
    split; [congruence | lia].
  - intros g g' H. unfold mbind, Rand_bind.
    pose proof (Hadv g) as Ha. pose proof (Hadv g') as Ha'.
    pose proof (Hfst g g' (agree_le k (k + k') g g' ltac:(lia) H)) as Hx.
    destruct (m g) as [x g1], (m g') as [x' g1']. simpl in *. subst x'.
    destruct (Hf x) as [_ Hfst']. apply Hfst'. by eapply agree_advanced.
Qed.

Lemma draws_mapM {A B : Type} (k : nat) (f : A -> Rand B) (l : list A) :
  (forall x, draws k (f x)) -> draws (length l * k) (mapM f l).
Proof.
  intros Hf. induction l as [|x l IH]; simpl.
  - apply draws_ret.
  - apply draws_bind; [apply Hf|]. intros y.
    replace (length l * k)%nat with (length l * k + 0)%nat by lia.
    apply draws_bind; [exact IH|]. intros ys. apply draws_ret.
Qed.

End Generator.

(** ** Series and frames *)

Section Frames.
Import RevenueFrame.

Lemma cell_set_same (c : Column) (v : Q) (r : Row) : cell c (set_cell c v r) = v.
Proof. destruct c; reflexivity. Qed.

Lemma cell_set_other (c c' : Column) (v : Q) (r : Row) :
  c ≠ c' -> cell c' (set_cell c v r) = cell c' r.
Proof. destruct c, c'; intros H; try reflexivity; contradiction. Qed.

Lemma quarter_set_cell (c : Column) (v : Q) (r : Row) :
  quarter (set_cell c v r) = quarter r.
Proof. destruct c; reflexivity. Qed.

Lemma length_scale_column (c : Column) (k : Q) (df : DataFrame) :
  length (scale_column c k df) = length df.
Proof. unfold scale_column. apply length_fmap. Qed.

Lemma column_scale_same (c : Column) (k : Q) (df : DataFrame) :
  column c (scale_column c k df) = pd.mul (column c df) k.
Proof.
  unfold column, scale_column, pd.mul. rewrite <- !list_fmap_compose.
  apply list_fmap_ext. intros _ r _. simpl. apply cell_set_same.
Qed.

Lemma column_scale_other (c c' : Column) (k : Q) (df : DataFrame) :
  c ≠ c' -> column c' (scale_column c k df) = column c' df.
Proof.
  intros H. unfold column, scale_column. rewrite <- list_fmap_compose.
  apply list_fmap_ext. intros _ r _. simpl. by apply cell_set_other.
Qed.

Lemma quarter_scale_column (c : Column) (k : Q) (df : DataFrame) :
  quarter <$> scale_column c k df = quarter <$> df.
Proof.
  unfold scale_column. rewrite <- list_fmap_compose.
  apply list_fmap_ext. intros _ r _. simpl. apply quarter_set_cell.
Qed.

Lemma sum_mul (a : pd.Series) (k : Q) : pd.sum (pd.mul a k) == pd.sum a * k.
Proof.
  induction a as [|x a IH]; simpl.
  - ring.
  - fold (pd.mul a k). fold (pd.sum (pd.mul a k)). fold (pd.sum a).
    rewrite IH. ring.
Qed.

(** The sum of the row revenues is the weighted sum of the column totals. *)
Lemma revenue_sum_columns (md : DataFrame) :
  RevenueDashboard.revenue_sum md
  == pd.sum (column TopChannelValue md)
     + pd.sum (column MonthlyRecurringRevenue md) * 3
     + pd.sum (column NewPromotionRevenue md).
Proof.
  unfold RevenueDashboard.revenue_sum.
  induction md as [|r md IH]; simpl.
  - ring.
  - unfold pd.sum, pd.add, pd.mul, column in *. simpl in *.
    rewrite IH. ring.
Qed.

Lemma sum_revenueForecast (df : DataFrame) :
  consistent df ->
  pd.sum (column RevenueForecast df) == RevenueDashboard.revenue_sum df.
Proof.
  unfold RevenueDashboard.revenue_sum.
  induction 1 as [|r df Hr _ IH]; simpl.
  - reflexivity.
  - unfold pd.sum, pd.add, pd.mul, column in *. simpl in *.
    rewrite IH, Hr. reflexivity.
Qed.

(** Rescaling one column moves the revenue by that column's weighted total. *)
Lemma revenue_sum_scale_column (c : Column) (k : Q) (df : DataFrame) :
  RevenueDashboard.revenue_sum (scale_column c k df)
  == RevenueDashboard.revenue_sum df
     + RevenueDashboard.weight c * (k - 1) * pd.sum (column c df).
Proof.
  rewrite !revenue_sum_columns.
  destruct c; simpl;
    repeat (rewrite column_scale_same, sum_mul);
    repeat (rewrite column_scale_other by discriminate);
    ring.
Qed.

End Frames.

(** ** The store of frames *)

Section Store.
Import RevenueFrame.

Lemma copy_run (s : store) (r : ref) (df : DataFrame) :
  s !! r = Some df -> copy r s = Some (length s, s ++ [df]).
Proof. intros H. unfold copy. rewrite H. reflexivity. Qed.

Lemma imul_last (s : store) (df : DataFrame) (c : Column) (k : Q) :
  imul (length s) c k (s ++ [df]) = Some (tt, s ++ [scale_column c k df]).
Proof.
  unfold imul. rewrite list_lookup_middle by reflexivity. simpl.
  rewrite <- (Nat.add_0_r (length s)) at 1. rewrite insert_app_r. reflexivity.
Qed.

Lemma deref_last (s : store) (df : DataFrame) :
  deref (length s) (s ++ [df]) = Some (df, s ++ [df]).
Proof. unfold deref. rewrite list_lookup_middle by reflexivity. reflexivity. Qed.

Lemma St_bind_run {A B : Type} (m : St A) (f : A -> St B) (s s' : store) (x : A) :
  m s = Some (x, s') -> (m ≫= f) s = f x s'.
Proof. intros H. unfold mbind, St_bind. rewrite H. reflexivity. Qed.

(** A loop whose body, in every store that satisfies the invariant, returns
    [g x] and appends the frames [h x]. *)
Lemma St_mapM_run {A B : Type} (I : store -> Prop) (f : A -> St B)
    (g : A -> B) (h : A -> list DataFrame) (l : list A) (s : store) :
  (forall s t, I s -> I (s ++ t)) ->
  (forall x s, x ∈ l -> I s -> f x s = Some (g x, s ++ h x)) ->
  I s ->
  mapM f l s = Some (g <$> l, s ++ concat (h <$> l)).
Proof.
  intros Happ. revert s. induction l as [|x l IH]; intros s Hf Hs; simpl.
  - rewrite app_nil_r. reflexivity.
  - rewrite (St_bind_run _ _ s (s ++ h x) (g x)) by (apply Hf; [left | done]).
    rewrite (St_bind_run _ _ _ ((s ++ h x) ++ concat (h <$> l)) (g <$> l)).
    + rewrite <- app_assoc. reflexivity.
    + apply IH; [|by apply Happ]. intros y t Hy. apply Hf. by right.
Qed.

End Store.

(** ** forecast_pkg/revenue_dashboard.py: what a run computes *)

Section RevenueRun.
Import RevenueFrame RevenueDashboard.

(** A run from a store in which [base_data] refers to the frame [df] returns
    [impact_table df] and appends the thirty modified copies to the store. *)
Lemma perform_sensitivity_analysis_run (s : store) (base_data : ref) (df : DataFrame) :
  s !! base_data = Some df ->
  perform_sensitivity_analysis base_data s
  = Some (impact_table df, s ++ copies df).
Proof.
  intros Hs. unfold perform_sensitivity_analysis.
  rewrite (St_bind_run _ _ s s df) by (unfold deref; rewrite Hs; reflexivity).
  unfold impact_table, copies.
  apply (St_mapM_run (λ s, s !! base_data = Some df)); [| |exact Hs].
  { intros s0 t H0. by apply lookup_app_l_Some. }
  intros param s0 Hparam H0.
  erewrite St_bind_run; [reflexivity|].
  unfold impact_column.
  replace (modified_frame df param <$> variations)
    with (concat ((λ v, [modified_frame df param v]) <$> variations))
    by reflexivity.
  apply (St_mapM_run (λ s, s !! base_data = Some df)); [| |exact H0].
  { intros s1 t H1. by apply lookup_app_l_Some. }
  intros variation s1 _ H1.
  rewrite (St_bind_run _ _ _ _ _ (copy_run _ _ _ H1)).
  unfold modified_frame.
  assert (Hbranch : forall c k,
    (imul (length s1) c k;; md ← deref (length s1); mret (revenue_sum md))
      (s1 ++ [df])
    = Some (revenue_sum (scale_column c k df), s1 ++ [scale_column c k df])).
  { intros c k.
    rewrite (St_bind_run _ _ _ _ _ (imul_last s1 df c k)).
    rewrite (St_bind_run _ _ _ _ _ (deref_last s1 _)). reflexivity. }
  apply list_elem_of_In in Hparam.
  destruct param; simpl in Hparam;
    try (rewrite (St_bind_run _ _ _ _ _ (Hbranch _ _)); reflexivity).
  exfalso. intuition discriminate.
Qed.

End RevenueRun.

(** ** Exceptions *)

Section Exceptions.
Import py.

Lemma result_bind_Ok {A B : Type} (m : result A) (f : A -> result B) (x : A) :
  m = Ok x -> m ≫= f = f x.
Proof. intros ->. reflexivity. Qed.

Lemma result_bind_Raise {A B : Type} (m : result A) (f : A -> result B) (e : exn) :
  m = Raise e -> m ≫= f = Raise e.
Proof. intros ->. reflexivity. Qed.

Lemma result_bind_inv {A B : Type} (m : result A) (f : A -> result B) (y : B) :
  m ≫= f = Ok y -> exists x, m = Ok x /\ f x = Ok y.
Proof. destruct m as [x|e]; [eauto | discriminate]. Qed.

Lemma result_mapM_cons {A B : Type} (f : A -> result B) (x : A) (l : list A) :
  mapM f (x :: l) = y ← f x; k ← mapM f l; mret (y :: k).
Proof. reflexivity. Qed.

Lemma result_mapM_Ok {A B : Type} (f : A -> result B) (l : list A) (k : list B) :
  mapM f l = Ok k <-> Forall2 (λ x y, f x = Ok y) l k.
Proof.
  split.
  - revert k. induction l as [|x l IH]; intros k H; simpl in H.
    + injection H as <-. constructor.
    + apply result_bind_inv in H as (y & Hy & H).
      apply result_bind_inv in H as (k' & Hk' & H).
      injection H as <-. constructor; auto.
  - induction 1 as [|x y l k Hxy _ IH]; [reflexivity|].
    rewrite result_mapM_cons, (result_bind_Ok _ _ _ Hxy), (result_bind_Ok _ _ _ IH).
    reflexivity.
Qed.

(** A loop whose body returns on every element returns, with the results
    related to the elements as the body relates them. *)
Lemma result_mapM_Forall2 {A B : Type} (f : A -> result B) (R : A -> B -> Prop)
    (l : list A) :
  Forall (λ x, exists y, f x = Ok y /\ R x y) l ->
  exists k, mapM f l = Ok k /\ Forall2 R l k.
Proof.
  induction 1 as [|x l (y & Hy & HR) _ (k & Hk & HF)].
  - exists []. split; [reflexivity | constructor].
  - exists (y :: k). split; [|by constructor].
    rewrite result_mapM_cons, (result_bind_Ok _ _ _ Hy), (result_bind_Ok _ _ _ Hk).
    reflexivity.
Qed.

End Exceptions.

(** ** Numbers at run time *)

Section Numbers.
Import py.

Lemma represents_Builtin (q : Q) : represents (Builtin q) q.
Proof. unfold represents. simpl. reflexivity. Qed.

Lemma represents_proper (a : number) (q q' : Q) :
  q == q' -> represents a q -> represents a q'.
Proof.
  unfold represents. destruct (as_float64 a); [|tauto..].
  intros H1 H2. by rewrite H2.
Qed.

Lemma represents_functional (a : number) (q q' : Q) :
  represents a q -> represents a q' -> q == q'.
Proof.
  unfold represents. destruct (as_float64 a); [|tauto..].
  intros H1 H2. by rewrite <- H1.
Qed.

Lemma represents_add (a b : number) (qa qb : Q) :
  represents a qa -> represents b qb -> represents (a + b) (qa + qb).
Proof.
  unfold represents.
  destruct a as [x|[x|s|]], b as [y|[y|t|]]; simpl; try tauto;
    intros Ha Hb; by rewrite Ha, Hb.
Qed.

Lemma represents_sub (a b : number) (qa qb : Q) :
  represents a qa -> represents b qb -> represents (a - b) (qa - qb).
Proof.
  unfold represents.
  destruct a as [x|[x|s|]], b as [y|[y|t|]]; simpl; try tauto;
    intros Ha Hb; by rewrite Ha, Hb.
Qed.

Lemma represents_mul (a b : number) (qa qb : Q) :
  represents a qa -> represents b qb -> represents (a * b) (qa * qb).
Proof.
  unfold represents.
  destruct a as [x|[x|s|]], b as [y|[y|t|]]; simpl; try tauto;
    intros Ha Hb; by rewrite Ha, Hb.
Qed.

(** A division of finite numbers by a nonzero one returns, whatever the
    kinds. *)
Lemma truediv_represents (a b : number) (qa qb : Q) :
  represents a qa -> represents b qb -> ~ qb == 0 ->
  exists c, truediv a b = Ok c /\ represents c (qa / qb).
Proof.
  unfold represents.
  destruct a as [x|[x|s|]], b as [y|[y|t|]]; simpl; try tauto;
    intros Ha Hb Hnz;
    (assert (np.is_zero y = false) as Hy
       by (apply is_zero_false; by rewrite Hb));
    rewrite Hy; eexists; (split; [reflexivity|]); simpl; by rewrite Ha, Hb.
Qed.

(** Two built-in numbers: a zero divisor raises. *)
Lemma truediv_builtin_zero (x y : Q) :
  y == 0 -> truediv (Builtin x) (Builtin y) = Raise ZeroDivisionError.
Proof. intros H. simpl. apply is_zero_true in H. by rewrite H. Qed.

(** A numpy scalar among the operands: the percentage change against a
    zero aggregate is [nan] or an infinity, and nothing is raised. *)
Lemma percentage_of_numpy_zero (a a0 : number) (q : Q) :
  represents a q -> represents a0 0 -> ~ is_builtin a0 ->
  exists r, truediv (a - a0) a0 = Ok r
            /\ np.is_finite (as_float64 (r * Builtin 100)) = false.
Proof.
  unfold represents.
  destruct a0 as [z|[z| |]]; simpl; try tauto. intros Ha Hz _.
  apply is_zero_true in Hz.
  destruct a as [x|[x|s|]]; simpl in *; try tauto;
    rewrite Hz; eexists; (split; [reflexivity|]);
    destruct (np.is_zero (x - z)); reflexivity.
Qed.

Lemma is_builtin_inv (a : number) : is_builtin a -> exists q, a = Builtin q.
Proof. destruct a; [eauto | contradiction]. Qed.

Lemma sum_represents_from (l : list number) (a : number) :
  (exists q, represents a q) ->
  Forall (λ x, exists q, represents x q) l ->
  exists q, represents (foldl add a l) q.
Proof.
  intros Ha Hl. revert a Ha. induction Hl as [|x l [qx Hx] _ IH]; intros a [qa Ha].
  - by exists qa.
  - simpl. apply IH. exists (qa + qx). by apply represents_add.
Qed.

Lemma sum_represents (l : list number) :
  Forall (λ x, exists q, represents x q) l -> exists q, represents (sum l) q.
Proof.
  apply sum_represents_from. exists 0. apply represents_Builtin.
Qed.

Lemma sum_builtin_from (l : list number) (a : number) :
  is_builtin a -> Forall is_builtin l -> is_builtin (foldl add a l).
Proof.
  intros Ha Hl. revert a Ha. induction Hl as [|x l Hx _ IH]; intros a Ha.
  - exact Ha.
  - simpl. apply IH. destruct a, x; try contradiction. exact I.
Qed.

Lemma sum_builtin (l : list number) : Forall is_builtin l -> is_builtin (sum l).
Proof. by apply sum_builtin_from. Qed.

End Numbers.

(** ** forecast_pkg/cashflow_dashboard.py: [calculate_cashflow] *)

Section CalculateCashflow.
Import py CashflowDashboard.

Lemma getitem_Ok (key : string) (q : PeriodRecord) (x : number) :
  getitem key q = Ok x <-> fields q !! key = Some x.
Proof.
  unfold getitem. destruct (fields q !! key); split; congruence.
Qed.

Lemma calculate_cashflow_ext (data data' : list PeriodRecord) (v : Q) :
  Forall2 same_inputs data data' ->
  calculate_cashflow data v = calculate_cashflow data' v.
Proof.
  unfold calculate_cashflow.
  induction 1 as [|q q' data data' [Hq Hk] _ IH]; [reflexivity|].
  rewrite !result_mapM_cons, IH. unfold getitem. rewrite Hq.
  unfold reads in Hk. repeat (apply Forall_cons in Hk as [-> Hk]).
  reflexivity.
Qed.

(** On ready records every net cashflow is a finite number. *)
Lemma calculate_cashflow_ready (data : list PeriodRecord) (v : Q) :
  Forall ready data ->
  exists cashflow,
    calculate_cashflow data v = Ok cashflow
    /\ Forall (λ entry, exists q, represents (snd entry) q) cashflow.
Proof.
  intros H. unfold calculate_cashflow.
  match goal with |- exists cf, mapM ?f data = Ok cf /\ _ =>
    destruct (result_mapM_Forall2 f
                (λ (_ : PeriodRecord) (entry : string * number),
                   exists q, represents (snd entry) q) data)
      as (cf & Hcf & HF); [|exists cf; split; [exact Hcf|]]
  end.
  - eapply Forall_impl; [exact H|]. intros q (Hk & Har & Hap).
    unfold reads in Hk.
    repeat (apply Forall_cons in Hk as [(? & ? & ? & ?) Hk]).
    match goal with
    | E : fields q !! "accountsReceivableDays"%string = Some ?d,
      R : represents ?d ?n |- _ =>
        destruct (truediv_represents (Builtin 91) d 91 n (represents_Builtin 91)
                    R (Har d n E R)) as (rt & Hrt & Rrt)
    end.
    match goal with
    | E : fields q !! "accountsPayableDays"%string = Some ?d,
      R : represents ?d ?n |- _ =>
        destruct (truediv_represents (Builtin 91) d 91 n (represents_Builtin 91)
                    R (Hap d n E R)) as (pt & Hpt & Rpt)
    end.
    unfold getitem.
    repeat match goal with E : fields q !! _ = Some _ |- _ =>
      rewrite E; clear E end.
    cbn [mbind result_bind mret result_ret].
    rewrite Hrt. cbn [mbind result_bind mret result_ret].
    rewrite Hpt. cbn [mbind result_bind mret result_ret].
    eexists. split; [reflexivity|]. eexists. cbn [snd].
    repeat first [ eassumption | apply represents_Builtin
                 | eapply represents_sub | eapply represents_add
                 | eapply represents_mul ].
  - clear -HF. induction HF; constructor; auto.
Qed.

(** On records of built-in numbers, if [calculate_cashflow] returns, the
    records were ready and every net cashflow is a built-in number. *)
Lemma calculate_cashflow_builtin (data : list PeriodRecord) (v : Q)
    (cashflow : list (string * number)) :
  Forall builtin_record data ->
  calculate_cashflow data v = Ok cashflow ->
  Forall ready data /\ Forall (λ entry, is_builtin (snd entry)) cashflow.
Proof.
  intros Hb H. apply result_mapM_Ok in H.
  induction H as [|q y data cf Hq _ IH].
  { split; constructor. }
  apply Forall_cons in Hb as [Hbq Hb]. destruct (IH Hb) as [IH1 IH2]. clear IH.
  cut (ready q /\ is_builtin (snd y)).
  { intros [? ?]. split; by constructor. }
  clear IH1 IH2 Hb. unfold getitem in Hq.
  repeat match type of Hq with
  | context [fields q !! ?k] =>
      let E := fresh "E" in let B := fresh "B" in let x := fresh "x" in
      destruct (fields q !! k) as [x|] eqn:E;
        cbn [mbind result_bind mret result_ret] in Hq; [|discriminate];
      pose proof (Hbq _ _ E) as B; destruct x; [clear B|contradiction]
  | context [np.is_zero ?d] =>
      let Z := fresh "Z" in
      destruct (np.is_zero d) eqn:Z;
        cbn [mbind result_bind mret result_ret truediv] in Hq; [discriminate|];
      apply is_zero_false in Z
  | _ => progress cbn [truediv mbind result_bind mret result_ret] in Hq
  end.
  injection Hq as <-. split; [|exact I].
  split; [|split].
  - unfold reads.
    repeat (constructor; [eexists _, _; split;
                          [eassumption | apply represents_Builtin]|]).
    constructor.
  - intros x v' Hx Rx.
    match goal with
    | E : fields q !! "accountsReceivableDays"%string = Some (Builtin ?d) |- _ =>
        assert (x = Builtin d) as -> by congruence
    end.
    unfold represents in Rx. simpl in Rx. by rewrite <- Rx.
  - intros x v' Hx Rx.
    match goal with
    | E : fields q !! "accountsPayableDays"%string = Some (Builtin ?d) |- _ =>
        assert (x = Builtin d) as -> by congruence
    end.
    unfold represents in Rx. simpl in Rx. by rewrite <- Rx.
Qed.

Lemma total_net_cashflow_Ok (data : list PeriodRecord) (a : number) :
  total_net_cashflow data = Ok a
  <-> exists cashflow, calculate_cashflow data 0 = Ok cashflow
                       /\ a = sum (snd <$> cashflow).
Proof.
  unfold total_net_cashflow. split.
  - intros H. apply result_bind_inv in H as (cf & Hcf & [= <-]). eauto.
  - intros (cf & Hcf & ->). rewrite (result_bind_Ok _ _ _ Hcf). reflexivity.
Qed.

Lemma total_net_cashflow_ready (data : list PeriodRecord) :
  Forall ready data ->
  exists a q, total_net_cashflow data = Ok a /\ represents a q.
Proof.
  intros H. destruct (calculate_cashflow_ready data 0 H) as (cf & Hcf & Hfin).
  destruct (sum_represents (snd <$> cf)) as [q Hq].
  { apply Forall_fmap. exact Hfin. }
  exists (sum (snd <$> cf)), q. split; [|exact Hq].
  apply total_net_cashflow_Ok. eauto.
Qed.

Lemma total_net_cashflow_builtin (data : list PeriodRecord) (a : number) :
  Forall builtin_record data ->
  total_net_cashflow data = Ok a ->
  Forall ready data /\ is_builtin a.
Proof.
  intros Hb H. apply total_net_cashflow_Ok in H as (cf & Hcf & ->).
  destruct (calculate_cashflow_builtin data 0 cf Hb Hcf) as [Hr Hcfb].
  split; [exact Hr|]. apply sum_builtin. apply Forall_fmap. exact Hcfb.
Qed.

End CalculateCashflow.

(** ** forecast_pkg/cashflow_dashboard.py: perturbed series *)

Section CashflowPerturbed.
Import py CashflowDashboard.

Lemma perturbed_Ok (param : string) (factor : Q) (base data' : list PeriodRecord) :
  perturbed param factor base = Ok data' <-> Forall2 (scaled param factor) base data'.
Proof.
  unfold perturbed. rewrite result_mapM_Ok.
  split; intros HF; (eapply Forall2_impl; [exact HF|]); intros q q'.
  - intros H. apply result_bind_inv in H as (x & Hx & H).
    apply getitem_Ok in Hx. injection H as <-. by exists x.
  - intros (x & Hx & ->). apply getitem_Ok in Hx.
    rewrite (result_bind_Ok _ _ _ Hx). reflexivity.
Qed.

Lemma perturbed_total (param : string) (factor : Q) (base : list PeriodRecord) :
  Forall (λ q, is_Some (fields q !! param)) base ->
  exists data', perturbed param factor base = Ok data'.
Proof.
  intros H.
  destruct (result_mapM_Forall2
              (λ q, x ← getitem param q;
                    mret (with_item param (x * Builtin factor)%num q))
              (λ _ _, True) base) as (data' & Hd & _); [|by exists data'].
  eapply Forall_impl; [exact H|].
  intros q [x Hx]. apply getitem_Ok in Hx.
  rewrite (result_bind_Ok _ _ _ Hx). eauto.
Qed.

(** A record without the key stops the perturbation. *)
Lemma perturbed_KeyError (param : string) (factor : Q) (base : list PeriodRecord) :
  Exists (λ q, fields q !! param = None) base ->
  perturbed param factor base = Raise (KeyError param).
Proof.
  unfold perturbed. induction base as [|q base IH]; intros H.
  - inversion H.
  - rewrite result_mapM_cons.
    destruct (fields q !! param) as [x|] eqn:E.
    + assert (getitem param q = Ok x) as -> by (by apply getitem_Ok).
      apply Exists_cons in H as [H|H]; [congruence|].
      cbn [mbind result_bind mret result_ret].
      rewrite IH by exact H. reflexivity.
    + assert (getitem param q = Raise (KeyError param)) as ->
        by (unfold getitem; by rewrite E).
      reflexivity.
Qed.

(** Rescaling a key that [calculate_cashflow] does not read. *)
Lemma scaled_same_inputs (param : string) (factor : Q) (q q' : PeriodRecord) :
  param ∉ reads -> scaled param factor q q' -> same_inputs q q'.
Proof.
  intros Hp (x & _ & ->). split; [reflexivity|].
  apply Forall_forall. intros key Hkey. simpl.
  rewrite lookup_insert_ne; [reflexivity|]. intros ->. contradiction.
Qed.

Lemma scaled_finite_at (param key : string) (factor : Q) (q q' : PeriodRecord) :
  finite_at q key -> scaled param factor q q' -> finite_at q' key.
Proof.
  intros (y & n & Hy & Ry) (x & Hx & ->). unfold finite_at. simpl.
  destruct (decide (param = key)) as [->|Hne].
  - rewrite lookup_insert_eq. assert (y = x) as -> by congruence.
    eexists _, _. split; [reflexivity|].
    apply represents_mul; [exact Ry | apply represents_Builtin].
  - rewrite lookup_insert_ne by exact Hne. eauto.
Qed.

Lemma scaled_nonzero_at (param key : string) (factor : Q) (q q' : PeriodRecord) :
  ~ factor == 0 \/ param ≠ key ->
  finite_at q key -> nonzero_at q key ->
  scaled param factor q q' -> nonzero_at q' key.
Proof.
  intros Hf (y & n & Hy & Ry) Hnz (x & Hx & ->) z m. simpl.
  destruct (decide (param = key)) as [->|Hne].
  - rewrite lookup_insert_eq. intros [= <-] Rz.
    assert (y = x) as -> by congruence.
    destruct Hf as [Hf|Hf]; [|contradiction].
    pose proof (represents_mul _ _ _ _ Ry (represents_Builtin factor)) as Rm.
    rewrite (represents_functional _ _ _ Rz Rm).
    specialize (Hnz x n Hy Ry).
    intros H0. apply Qmult_integral in H0 as [H0|H0]; contradiction.
  - rewrite lookup_insert_ne by exact Hne. apply Hnz.
Qed.

Lemma ready_days (q : PeriodRecord) :
  ready q ->
  finite_at q "accountsReceivableDays" /\ finite_at q "accountsPayableDays".
Proof.
  intros (Hk & _ & _). unfold reads in Hk. rewrite !Forall_cons in Hk. tauto.
Qed.

(** Rescaling keeps a record ready, unless a day count is scaled to zero. *)
Lemma scaled_ready (param : string) (factor : Q) (q q' : PeriodRecord) :
  ~ factor == 0
  \/ (param ≠ "accountsReceivableDays"%string
      /\ param ≠ "accountsPayableDays"%string) ->
  ready q -> scaled param factor q q' -> ready q'.
Proof.
  intros Hf Hr Hs. destruct (ready_days q Hr) as [Far Fap].
  destruct Hr as (Hk & Har & Hap). split; [|split].
  - eapply Forall_impl; [exact Hk|]. intros key Hkey. by eapply scaled_finite_at.
  - eapply scaled_nonzero_at; [|done..]. tauto.
  - eapply scaled_nonzero_at; [|done..]. tauto.
Qed.

Lemma scaled_builtin (param : string) (factor : Q) (q q' : PeriodRecord) :
  builtin_record q -> scaled param factor q q' -> builtin_record q'.
Proof.
  intros Hb (x & Hx & ->) key y. simpl.
  destruct (decide (param = key)) as [->|Hne].
  - rewrite lookup_insert_eq. intros [= <-].
    destruct (is_builtin_inv x (Hb _ _ Hx)) as [n ->]. exact I.
  - rewrite lookup_insert_ne by exact Hne. apply Hb.
Qed.

(** The aggregate of a perturbed series is a finite number as long as no
    day count is scaled to zero. *)
Lemma perturbed_aggregate (base : list PeriodRecord) (param : string) (factor : Q) :
  ~ factor == 0
  \/ (param ≠ "accountsReceivableDays"%string
      /\ param ≠ "accountsPayableDays"%string) ->
  Forall ready base ->
  Forall (λ q, is_Some (fields q !! param)) base ->
  exists data' a n,
    perturbed param factor base = Ok data'
    /\ Forall ready data'
    /\ total_net_cashflow data' = Ok a
    /\ represents a n.
Proof.
  intros Hf Hr Hp.
  destruct (perturbed_total param factor base Hp) as [data' Hd].
  assert (Forall ready data') as Hr'.
  { apply perturbed_Ok in Hd. clear Hp.
    induction Hd as [|q q' base data' Hq _ IH]; [constructor|].
    apply Forall_cons in Hr as [Hrq Hr].
    constructor; [by eapply scaled_ready | by apply IH]. }
  destruct (total_net_cashflow_ready data' Hr') as (a & n & Ha & Hn).
  by exists data', a, n.
Qed.

Lemma perturbed_builtin (base data' : list PeriodRecord) (param : string)
    (factor : Q) :
  Forall builtin_record base ->
  perturbed param factor base = Ok data' ->
  Forall builtin_record data'.
Proof.
  intros Hb Hd. apply perturbed_Ok in Hd.
  induction Hd as [|q q' base data' Hq _ IH]; [constructor|].
  apply Forall_cons in Hb as [Hbq Hb].
  constructor; [by eapply scaled_builtin | by apply IH].
Qed.

(** Rescaling a key that is not read leaves the cashflow as it is. *)
Lemma perturbed_unread (param : string) (factor w : Q)
    (base data' : list PeriodRecord) :
  param ∉ reads ->
  perturbed param factor base = Ok data' ->
  calculate_cashflow data' w = calculate_cashflow base w.
Proof.
  intros Hp Hd. symmetry. apply calculate_cashflow_ext.
  apply perturbed_Ok in Hd. eapply Forall2_impl; [exact Hd|].
  intros q q'. by apply scaled_same_inputs.
Qed.

End CashflowPerturbed.

(** ** forecast_pkg/cashflow_dashboard.py: [sensitivity_analysis] *)

Section CashflowSensitivity.
Import py CashflowDashboard.

Lemma factor_up_nonzero (v : Q) : ~ v == -100 -> ~ 1 + v / 100 == 0.
Proof.
  intros H H0. apply H.
  assert (v == (1 + v / 100) * 100 - 100) as -> by field.
  rewrite H0. reflexivity.
Qed.

Lemma factor_down_nonzero (v : Q) : ~ v == 100 -> ~ 1 - v / 100 == 0.
Proof.
  intros H H0. apply H.
  assert (v == 100 - (1 - v / 100) * 100) as -> by field.
  rewrite H0. reflexivity.
Qed.

(** The loop body up to the two divisions. *)
Lemma sensitivity_of_totals (base inc_data dec_data : list PeriodRecord)
    (v : Q) (param : string) (a0 a_inc a_dec : number) :
  perturbed param (1 + v / 100) base = Ok inc_data ->
  perturbed param (1 - v / 100) base = Ok dec_data ->
  total_net_cashflow base = Ok a0 ->
  total_net_cashflow inc_data = Ok a_inc ->
  total_net_cashflow dec_data = Ok a_dec ->
  sensitivity_of base v param
  = (inc ← truediv (a_inc - a0) a0;
     dec ← truediv (a_dec - a0) a0;
     mret (param, mkImpact (inc * Builtin 100) (dec * Builtin 100))).
Proof.
  intros Hi Hd H0 Hai Had.
  apply total_net_cashflow_Ok in H0 as (cf0 & H0 & ->).
  apply total_net_cashflow_Ok in Hai as (cfi & Hai & ->).
  apply total_net_cashflow_Ok in Had as (cfd & Had & ->).
  unfold sensitivity_of.
  rewrite (result_bind_Ok _ _ _ Hi), (result_bind_Ok _ _ _ Hd).
  rewrite (result_bind_Ok _ _ _ H0), (result_bind_Ok _ _ _ Hai).
  rewrite (result_bind_Ok _ _ _ Had). reflexivity.
Qed.

Lemma percentage_represents (a a0 : number) (n n0 : Q) :
  represents a n -> represents a0 n0 -> ~ n0 == 0 ->
  exists r, truediv (a - a0) a0 = Ok r
            /\ represents (r * Builtin 100) ((n - n0) / n0 * 100).
Proof.
  intros Ha H0 Hnz.
  destruct (truediv_represents (a - a0) a0 (n - n0) n0) as (r & Hr & Rr);
    [by apply represents_sub | done | done |].
  exists r. split; [exact Hr|].
  apply represents_mul; [exact Rr | apply represents_Builtin].
Qed.

(** On a well-formed baseline both perturbed series of a parameter have a
    finite aggregate, and the loop body comes down to the two divisions. *)
Lemma sensitivity_of_well_formed (base : list PeriodRecord) (v : Q)
    (param : string) (a0 : number) :
  Forall well_formed base ->
  ~ v == 100 -> ~ v == -100 ->
  param ∈ parameters ->
  total_net_cashflow base = Ok a0 ->
  exists inc_data a_inc q_inc dec_data a_dec q_dec,
    perturbed param (1 + v / 100) base = Ok inc_data
    /\ total_net_cashflow inc_data = Ok a_inc /\ represents a_inc q_inc
    /\ perturbed param (1 - v / 100) base = Ok dec_data
    /\ total_net_cashflow dec_data = Ok a_dec /\ represents a_dec q_dec
    /\ sensitivity_of base v param
       = (inc ← truediv (a_inc - a0) a0;
          dec ← truediv (a_dec - a0) a0;
          mret (param, mkImpact (inc * Builtin 100) (dec * Builtin 100))).
Proof.
  intros Hwf Hv1 Hv2 Hparam H0.
  assert (Forall ready base) as Hr.
  { eapply Forall_impl; [exact Hwf|]. by intros q [_ ?]. }
  assert (Forall (λ q, is_Some (fields q !! param)) base) as Hp.
  { eapply Forall_impl; [exact Hwf|]. intros q [Hq _].
    unfold has_parameters in Hq. rewrite Forall_forall in Hq. by apply Hq. }
  destruct (perturbed_aggregate base param (1 + v / 100)
              (or_introl (factor_up_nonzero v Hv2)) Hr Hp)
    as (inc_data & a_inc & q_inc & Hi & _ & Hai & Ri).
  destruct (perturbed_aggregate base param (1 - v / 100)
              (or_introl (factor_down_nonzero v Hv1)) Hr Hp)
    as (dec_data & a_dec & q_dec & Hd & _ & Had & Rd).
  exists inc_data, a_inc, q_inc, dec_data, a_dec, q_dec.
  repeat (split; [done|]). by eapply sensitivity_of_totals.
Qed.

(** On a well-formed baseline with a nonzero aggregate the run returns,
    and every entry follows the impact formula. *)
Lemma sensitivity_analysis_entries (base : list PeriodRecord) (v : Q)
    (a0 : number) (q0 : Q) :
  Forall well_formed base ->
  ~ v == 100 -> ~ v == -100 ->
  total_net_cashflow base = Ok a0 -> represents a0 q0 -> ~ q0 == 0 ->
  exists tbl, sensitivity_analysis base v = Ok tbl
              /\ Forall2 (impact_formula base v) parameters tbl.
Proof.
  intros Hwf Hv1 Hv2 H0 R0 Hnz. unfold sensitivity_analysis.
  apply result_mapM_Forall2. apply Forall_forall. intros param Hparam.
  destruct (sensitivity_of_well_formed base v param a0 Hwf Hv1 Hv2 Hparam H0)
    as (inc_data & a_inc & q_inc & dec_data & a_dec & q_dec
        & Hi & Hai & Ri & Hd & Had & Rd & ->).
  destruct (percentage_represents a_inc a0 q_inc q0 Ri R0 Hnz) as (ri & Hri & Rri).
  destruct (percentage_represents a_dec a0 q_dec q0 Rd R0 Hnz) as (rd & Hrd & Rrd).
  rewrite (result_bind_Ok _ _ _ Hri), (result_bind_Ok _ _ _ Hrd).
  eexists. split; [reflexivity|].
  exists a0, q0, inc_data, a_inc, q_inc, dec_data, a_dec, q_dec. simpl.
  repeat split; done.
Qed.

(** A zero aggregate that is a numpy scalar: the run returns, and no entry
    is a finite number. *)
Lemma sensitivity_analysis_numpy_zero (base : list PeriodRecord) (v : Q)
    (a0 : number) :
  Forall well_formed base ->
  ~ v == 100 -> ~ v == -100 ->
  total_net_cashflow base = Ok a0 -> represents a0 0 -> ~ is_builtin a0 ->
  exists tbl,
    sensitivity_analysis base v = Ok tbl
    /\ Forall2 (λ param entry,
         fst entry = param
         /\ np.is_finite (as_float64 (increased (snd entry))) = false
         /\ np.is_finite (as_float64 (decreased (snd entry))) = false)
       parameters tbl.
Proof.
  intros Hwf Hv1 Hv2 H0 R0 Hnp. unfold sensitivity_analysis.
  apply result_mapM_Forall2. apply Forall_forall. intros param Hparam.
  destruct (sensitivity_of_well_formed base v param a0 Hwf Hv1 Hv2 Hparam H0)
    as (inc_data & a_inc & q_inc & dec_data & a_dec & q_dec
        & Hi & Hai & Ri & Hd & Had & Rd & ->).
  destruct (percentage_of_numpy_zero a_inc a0 q_inc Ri R0 Hnp) as (ri & Hri & Fri).
  destruct (percentage_of_numpy_zero a_dec a0 q_dec Rd R0 Hnp) as (rd & Hrd & Frd).
  rewrite (result_bind_Ok _ _ _ Hri), (result_bind_Ok _ _ _ Hrd).
  eexists. split; [reflexivity|]. simpl. by repeat split.
Qed.

(** A zero aggregate on records of built-in numbers: the first division of
    the first parameter raises. *)
Lemma sensitivity_analysis_builtin_zero (base : list PeriodRecord) (v : Q)
    (a0 : number) :
  Forall builtin_record base ->
  total_net_cashflow base = Ok a0 -> represents a0 0 ->
  sensitivity_analysis base v = Raise ZeroDivisionError.
Proof.
  intros Hb H0 R0.
  destruct (total_net_cashflow_builtin base a0 Hb H0) as [Hr Hb0].
  assert (Forall (λ q, is_Some (fields q !! "salesRevenue"%string)) base) as Hp.
  { eapply Forall_impl; [exact Hr|]. intros q (Hk & _ & _).
    unfold reads in Hk. apply Forall_cons in Hk as [(x & n & Hx & _) _]. eauto. }
  destruct (perturbed_aggregate base "salesRevenue" (1 + v / 100))
    as (inc_data & a_inc & q_inc & Hi & _ & Hai & _);
    [right; split; discriminate | done | done |].
  destruct (perturbed_aggregate base "salesRevenue" (1 - v / 100))
    as (dec_data & a_dec & q_dec & Hd & _ & Had & _);
    [right; split; discriminate | done | done |].
  destruct (total_net_cashflow_builtin inc_data a_inc
              (perturbed_builtin _ _ _ _ Hb Hi) Hai) as [_ Hbi].
  apply is_builtin_inv in Hb0 as [z ->]. apply is_builtin_inv in Hbi as [zi ->].
  unfold sensitivity_analysis, parameters. rewrite result_mapM_cons.
  rewrite (sensitivity_of_totals _ _ _ _ _ _ _ _ Hi Hd H0 Hai Had).
  unfold represents in R0. simpl in R0.
  cbn [sub]. by rewrite (truediv_builtin_zero _ _ R0).
Qed.

End CashflowSensitivity.

(** ** The frames that [generate_sample_data] builds *)

Section Generated.
Import np RevenueFrame.

Lemma Rand_mapM_Forall {A B : Type} (f : A -> Rand B) (P : B -> Prop)
    (l : list A) (g : RandomState) :
  (forall x g, P (fst (f x g))) -> Forall P (fst (mapM f l g)).
Proof.
  intros Hf. revert g. induction l as [|x l IH]; intros g; simpl.
  - constructor.
  - unfold mbind, Rand_bind. specialize (Hf x g).
    destruct (f x g) as [y g1]. specialize (IH g1).
    destruct (mapM f l g1) as [ys g2]. simpl in *. by constructor.
Qed.

Lemma generate_sample_data_consistent (quarter_label : nat -> string)
    (quarters : nat) (g : RandomState) :
  consistent (fst (generate_sample_data quarter_label quarters g)).
Proof.
  unfold consistent, generate_sample_data.
  apply (Rand_mapM_Forall _ (λ r, revenueForecast r
                                  == topChannelValue r
                                     + monthlyRecurringRevenue r * 3
                                     + newPromotionRevenue r)).
  intros i g0. simpl. reflexivity.
Qed.

End Generated.

(** ** The entries of the two tables *)

Section Entries.
Import RevenueFrame.

Lemma percent_change_nonzero (m b : Q) :
  ~ b == 0 ->
  RevenueDashboard.percent_change m b = np.Fin ((m - b) / b * 100).
Proof.
  intros H. unfold RevenueDashboard.percent_change. simpl.
  apply is_zero_false in H. rewrite H. reflexivity.
Qed.

Lemma percent_change_zero (m b : Q) :
  b == 0 ->
  RevenueDashboard.percent_change m b
  = if np.is_zero (m - b) then np.NaN else np.Inf (np.is_neg (m - b)).
Proof.
  intros H. unfold RevenueDashboard.percent_change. simpl.
  apply is_zero_true in H. rewrite H.
  destruct (np.is_zero (m - b)); [reflexivity|].
  simpl. by rewrite xorb_false_r.
Qed.

Lemma copies_lookup (df : DataFrame) (i j : nat) (p : Column) (v : Q) :
  RevenueDashboard.parameters !! i = Some p ->
  RevenueDashboard.variations !! j = Some v ->
  RevenueDashboard.copies df !! (5 * i + j)%nat
  = Some (RevenueDashboard.modified_frame df p v).
Proof.
  intros Hi Hj. each_iteration i j Hi Hj.
Qed.

Lemma impact_table_lookup (df : DataFrame) (i : nat) (p : Column) :
  RevenueDashboard.parameters !! i = Some p ->
  RevenueDashboard.impact_table df !! i
  = Some (label p, RevenueDashboard.impact_column df p).
Proof.
  intros Hi. unfold RevenueDashboard.impact_table.
  rewrite list_lookup_fmap, Hi. reflexivity.
Qed.

Lemma impact_column_lookup (df : DataFrame) (p : Column) (j : nat) (v : Q) :
  RevenueDashboard.variations !! j = Some v ->
  RevenueDashboard.impact_column df p !! j
  = Some (RevenueDashboard.percent_change
            (RevenueDashboard.revenue_sum (RevenueDashboard.modified_frame df p v))
            (pd.sum (column RevenueForecast df))).
Proof.
  intros Hj. unfold RevenueDashboard.impact_column.
  rewrite list_lookup_fmap, Hj. reflexivity.
Qed.

(** The iteration ([i], [j]) of a run: the frame it leaves at the reference
    [length s + 5 * i + j] and the table cell it fills. *)
Lemma revenue_iteration (s : store) (base_data : ref) (df : DataFrame) :
  s !! base_data = Some df ->
  exists tbl s',
    RevenueDashboard.perform_sensitivity_analysis base_data s = Some (tbl, s')
    /\ (forall r df', s !! r = Some df' -> s' !! r = Some df')
    /\ forall i j p v,
        RevenueDashboard.parameters !! i = Some p ->
        RevenueDashboard.variations !! j = Some v ->
        s' !! (length s + 5 * i + j)%nat
          = Some (RevenueDashboard.modified_frame df p v)
        /\ exists col,
            tbl !! i = Some (label p, col)
            /\ col !! j
               = Some (RevenueDashboard.percent_change
                         (RevenueDashboard.revenue_sum
                            (RevenueDashboard.modified_frame df p v))
                         (pd.sum (column RevenueForecast df))).
Proof.
  intros Hs. eexists _, _. split; [by apply perform_sensitivity_analysis_run|].
  split.
  - intros r df' Hr. by apply lookup_app_l_Some.
  - intros i j p v Hi Hj. split.
    + rewrite <- Nat.add_assoc, lookup_app_r by lia.
      replace (length s + (5 * i + j) - length s)%nat with (5 * i + j)%nat by lia.
      by apply copies_lookup.
    + eexists. split; [by apply impact_table_lookup|].
      by apply impact_column_lookup.
Qed.

End Entries.

(** ** The two dashboards that draw their tables *)

Section Drawn.
Import np.

Lemma perform_expense_sensitivity_analysis_draws :
  draws 70 ExpenseDashboard.perform_expense_sensitivity_analysis.
Proof.
  unfold ExpenseDashboard.perform_expense_sensitivity_analysis.
  apply (draws_mapM 10). intros param.
  apply (draws_bind 10 0); [|intros col; apply draws_ret].
  apply (draws_mapM 2). intros variation.
  apply (draws_bind 1 1); [apply draws_random|]. intros r1.
  apply (draws_bind 1 0); [apply draws_random|]. intros r2.
  apply draws_ret.
Qed.

Lemma balance_sheet_sensitivity_analysis_draws :
  draws 40 BalanceSheetDashboard.sensitivity_analysis.
Proof.
  unfold BalanceSheetDashboard.sensitivity_analysis.
  apply (draws_mapM 4). intros param.
  apply (draws_bind 1 3); [apply draws_random|]. intros r1.
  apply (draws_bind 1 2); [apply draws_random|]. intros r2.
  apply (draws_bind 1 1); [apply draws_random|]. intros r3.
  apply (draws_bind 1 0); [apply draws_random|]. intros r4.
  apply draws_ret.
Qed.

End Drawn.

(** ** code-v3/revenue-forecast-dashboard-streamlit-1.3.py: what a run computes *)

Section RevenueV3Run.
Import RevenueFrame RevenueV3.

Lemma v3_sensitivity_analysis_run (s : store) (base_data : ref) (df : DataFrame) :
  s !! base_data = Some df ->
  sensitivity_analysis base_data s = Some (result_rows df, s ++ copies df).
Proof.
  intros Hs. unfold sensitivity_analysis, result_rows, copies.
  erewrite St_bind_run; [reflexivity|].
  apply (St_mapM_run (λ s, s !! base_data = Some df)); [| |exact Hs].
  { intros s0 t H0. by apply lookup_app_l_Some. }
  intros param s0 _ H0.
  replace ((λ variation, scale_column param (1 + variation / 100) df) <$> variations)
    with (concat ((λ v, [scale_column param (1 + v / 100) df]) <$> variations))
    by reflexivity.
  apply (St_mapM_run (λ s, s !! base_data = Some df)); [| |exact H0].
  { intros s1 t H1. by apply lookup_app_l_Some. }
  intros variation s1 _ H1.
  rewrite (St_bind_run _ _ _ _ _ (copy_run _ _ _ H1)).
  rewrite (St_bind_run _ _ _ _ _ (imul_last s1 df _ _)).
  rewrite (St_bind_run _ _ _ _ _ (deref_last s1 _)). reflexivity.
Qed.

End RevenueV3Run.

(** ** Level 0 *)

Section LevelZero.
Import RevenueFrame.

Lemma factor_zero (p : Column) : RevenueDashboard.factor p 0 == 1.
Proof. destruct p; reflexivity. Qed.

(** The identity perturbation reproduces the revenue. *)
Lemma revenue_sum_level_zero (df : DataFrame) (p : Column) :
  RevenueDashboard.revenue_sum (RevenueDashboard.modified_frame df p 0)
  == RevenueDashboard.revenue_sum df.
Proof.
  unfold RevenueDashboard.modified_frame.
  rewrite revenue_sum_scale_column, factor_zero. ring.
Qed.

(** [max(-50, min(50, e))] leaves a number of [-50, 50] alone. *)
Lemma clamp_inside (e : Q) :
  -50 <= e <= 50 -> ExpenseDashboard.max (-50) (ExpenseDashboard.min 50 e) == e.
Proof.
  intros [Hlo Hhi]. unfold ExpenseDashboard.min.
  destruct (Qle_bool 50 e) eqn:E1.
  - apply Qle_bool_iff in E1. assert (e == 50) as He by lra.
    unfold ExpenseDashboard.max.
    destruct (Qle_bool 50 (-50)) eqn:E2; cbv iota; [|lra].
    apply Qle_bool_iff in E2. lra.
  - unfold ExpenseDashboard.max.
    destruct (Qle_bool e (-50)) eqn:E2; cbv iota; [|reflexivity].
    apply Qle_bool_iff in E2. lra.
Qed.

(** The row of level 0 in the expense table: the cell of parameter [i] is
    the clamped random term of the sample [10 * i + 5] of the run. *)
Lemma expense_level_zero (g : np.RandomState) (i : nat) (param : string) :
  ExpenseDashboard.parameters !! i = Some param ->
  exists col x r1,
    fst (ExpenseDashboard.perform_expense_sensitivity_analysis g) !! i
      = Some (param, col)
    /\ col !! 2%nat = Some x
    /\ x = ExpenseDashboard.max (-50) (ExpenseDashboard.min 50
            (0 * (0.5 + r1)
             + (np.samples g (np.consumed g + (10 * i + 5))%nat - 0.5) * 20)).
Proof.
  destruct g as [u c]. intros H.
  cbv [ExpenseDashboard.perform_expense_sensitivity_analysis mapM mbind mret
       np.Rand_bind np.Rand_ret np.random ExpenseDashboard.parameters
       ExpenseDashboard.variations np.samples np.consumed fst snd] in *.
  rewrite (Nat.add_comm c).
  do 7 (destruct i as [|i];
        [injection H as <-; eexists _, _, _; split; [reflexivity|];
         split; reflexivity|]).
  discriminate.
Qed.

End LevelZero.

(** ** The scenario inputs *)

Section ScenarioFacts.
Import py CashflowDashboard.

Lemma period_well_formed (numpy_flows : bool) (label : string) (revenue cost : Q) :
  well_formed (Scenario.period numpy_flows label revenue cost).
Proof.
  split; [|split; [|split]].
  - unfold has_parameters, parameters.
    repeat (constructor; [eexists; vm_compute; reflexivity|]). constructor.
  - unfold reads.
    repeat (constructor;
            [destruct numpy_flows; eexists _, _;
             (split; [vm_compute; reflexivity | unfold represents; simpl; reflexivity])|]).
    constructor.
  - intros x n Hx Rx. vm_compute in Hx. injection Hx as <-.
    unfold represents in Rx. simpl in Rx. rewrite <- Rx. discriminate.
  - intros x n Hx Rx. vm_compute in Hx. injection Hx as <-.
    unfold represents in Rx. simpl in Rx. rewrite <- Rx. discriminate.
Qed.

Lemma baseline_well_formed : Forall well_formed Scenario.baseline.
Proof. repeat (constructor; [apply period_well_formed|]). constructor. Qed.

Lemma break_even_well_formed (numpy_flows : bool) :
  Forall well_formed (Scenario.break_even numpy_flows).
Proof. repeat (constructor; [apply period_well_formed|]). constructor. Qed.

Lemma period_builtin (label : string) (revenue cost : Q) :
  builtin_record (Scenario.period false label revenue cost).
Proof.
  intros key x Hx. unfold Scenario.period, fields in Hx.
  apply elem_of_list_to_map_2 in Hx. apply list_elem_of_In in Hx. simpl in Hx.
  repeat (destruct Hx as [[= <- <-]|Hx]; [exact I|]). contradiction.
Qed.

Lemma break_even_builtin : Forall builtin_record (Scenario.break_even false).
Proof. repeat (constructor; [apply period_builtin|]). constructor. Qed.

End ScenarioFacts.

(** * The properties of the sensitivity model *)

Section SensitivityModel.
Import RevenueFrame.

(** C1, as stated, fails on the revenue dashboard, which reads the baseline
    aggregate from the stored revenueForecast column and recomputes the
    perturbed aggregate from the three revenue columns.  On the one-quarter
    frame whose stored forecast (250) is not the revenue of its inputs
    (100 + 20 * 3 + 40 = 200), the series built for topChannelValue at
    level 0 has the numbers of the baseline in every column, so
    [(aggregate(perturbed) - aggregate(baseline)) / aggregate(baseline) * 100]
    is 0, for the recomputed revenue as for the stored forecast; the Impact
    Result is -20. *)
Lemma stale_forecast_breaks_formula :
  exists tbl s' md col x,
    RevenueDashboard.perform_sensitivity_analysis 0%nat [Inputs.stale_frame]
      = Some (tbl, s')
    /\ RevenueDashboard.parameters !! 0%nat = Some TopChannelValue
    /\ RevenueDashboard.variations !! 2%nat = Some 0
    /\ s' !! (1 + 5 * 0 + 2)%nat = Some md
    /\ (forall c, Forall2 Qeq (column c md) (column c Inputs.stale_frame))
    /\ ~ RevenueDashboard.revenue_sum Inputs.stale_frame == 0
    /\ ~ pd.sum (column RevenueForecast Inputs.stale_frame) == 0
    /\ (RevenueDashboard.revenue_sum md
        - RevenueDashboard.revenue_sum Inputs.stale_frame)
       / RevenueDashboard.revenue_sum Inputs.stale_frame * 100 == 0
    /\ (pd.sum (column RevenueForecast md)
        - pd.sum (column RevenueForecast Inputs.stale_frame))
       / pd.sum (column RevenueForecast Inputs.stale_frame) * 100 == 0
    /\ tbl !! 0%nat = Some ("topChannelValue"%string, col)
    /\ col !! 2%nat = Some x
    /\ np.feq x (np.Fin (-20)).
Proof.
  eexists _, _, _, _, _.
  split; [vm_compute; reflexivity|].
  split; [reflexivity|]. split; [reflexivity|].
  split; [vm_compute; reflexivity|].
  split.
  { intros c. destruct c; repeat constructor; vm_compute; reflexivity. }
  split; [vm_compute; discriminate|].
  split; [vm_compute; discriminate|].
  split; [vm_compute; reflexivity|].
  split; [vm_compute; reflexivity|].
  split; [vm_compute; reflexivity|].
  split; [vm_compute; reflexivity|].
  vm_compute. reflexivity.
Qed.

(** C1, amended.  The Impact Result is the percentage change of the
    aggregate from the baseline to the perturbed series.

    Revenue dashboard: on a frame whose revenueForecast column agrees with
    its inputs (as in every generated frame) and whose revenue is not zero,
    the iteration for parameter [i] and level [j] leaves the perturbed
    series [md] in the store: the baseline with the column that the
    parameter stands for multiplied by its factor, every other column
    unchanged; the cell of the table is
    [(revenue_sum md - revenue_sum df) / revenue_sum df * 100].
    Cashflow dashboard: on a well-formed baseline with a nonzero total net
    cashflow, at a level [v] other than 100 and -100, the run returns a
    table whose entries follow the same formula for the levels [+v] and
    [-v].
    Scenario: for two periods of revenue 100 and cost 40 the aggregate is
    120; level +10 on the revenue gives an aggregate of 140 and an impact of
    16.666..., level +10 on the cost gives an aggregate of 112 and an impact
    of -6.666..., each within a thousandth (the quotients 50/3 and -20/3
    have no finite decimal or binary expansion). *)
Theorem impact_result_formula
    (s : store) (base_data : ref) (df : DataFrame)
    (base : list CashflowDashboard.PeriodRecord) (v : Q)
    (a0 : py.number) (q0 : Q) :
  s !! base_data = Some df ->
  consistent df ->
  ~ RevenueDashboard.revenue_sum df == 0 ->
  Forall CashflowDashboard.well_formed base ->
  ~ v == 100 -> ~ v == -100 ->
  CashflowDashboard.total_net_cashflow base = py.Ok a0 ->
  py.represents a0 q0 ->
  ~ q0 == 0 ->
  (exists tbl s',
      RevenueDashboard.perform_sensitivity_analysis base_data s = Some (tbl, s')
      /\ forall i j param variation,
          RevenueDashboard.parameters !! i = Some param ->
          RevenueDashboard.variations !! j = Some variation ->
          exists md col x,
            s' !! (length s + 5 * i + j)%nat = Some md
            /\ column (RevenueDashboard.target param) md
               = pd.mul (column (RevenueDashboard.target param) df)
                        (RevenueDashboard.factor param variation)
            /\ (forall c, c ≠ RevenueDashboard.target param ->
                          column c md = column c df)
            /\ quarter <$> md = quarter <$> df
            /\ tbl !! i = Some (label param, col)
            /\ col !! j = Some x
            /\ np.feq x (np.Fin ((RevenueDashboard.revenue_sum md
                                  - RevenueDashboard.revenue_sum df)
                                 / RevenueDashboard.revenue_sum df * 100)))
  /\ (exists tbl,
        CashflowDashboard.sensitivity_analysis base v = py.Ok tbl
        /\ Forall2 (CashflowDashboard.impact_formula base v)
                   CashflowDashboard.parameters tbl)
  /\ (exists a tbl revenue_up a_revenue_up cost_up a_cost_up e_revenue e_cost
             q_revenue_up q_cost_up q_revenue q_cost,
        CashflowDashboard.total_net_cashflow Scenario.baseline = py.Ok a
        /\ py.represents a 120
        /\ CashflowDashboard.perturbed "salesRevenue" (1 + 10 / 100) Scenario.baseline
           = py.Ok revenue_up
        /\ CashflowDashboard.total_net_cashflow revenue_up = py.Ok a_revenue_up
        /\ py.represents a_revenue_up q_revenue_up
        /\ 139.999 <= q_revenue_up <= 140.001
        /\ CashflowDashboard.perturbed "rawMaterialCosts" (1 + 10 / 100) Scenario.baseline
           = py.Ok cost_up
        /\ CashflowDashboard.total_net_cashflow cost_up = py.Ok a_cost_up
        /\ py.represents a_cost_up q_cost_up
        /\ 111.999 <= q_cost_up <= 112.001
        /\ CashflowDashboard.sensitivity_analysis Scenario.baseline 10 = py.Ok tbl
        /\ tbl !! 0%nat = Some ("salesRevenue"%string, e_revenue)
        /\ py.represents (CashflowDashboard.increased e_revenue) q_revenue
        /\ 16.666 <= q_revenue <= 16.667
        /\ tbl !! 2%nat = Some ("rawMaterialCosts"%string, e_cost)
        /\ py.represents (CashflowDashboard.increased e_cost) q_cost
        /\ -6.667 <= q_cost <= -6.666).
Proof.
  intros Hs Hc Hnz Hwf Hv1 Hv2 H0 R0 Hq0. split; [|split].
  - destruct (revenue_iteration s base_data df Hs) as (tbl & s' & Hrun & _ & Hit).
    exists tbl, s'. split; [exact Hrun|].
    intros i j param variation Hi Hj.
    destruct (Hit i j param variation Hi Hj) as (Hmd & col & Hcol & Hx).
    eexists _, col, _. split; [exact Hmd|].
    unfold RevenueDashboard.modified_frame.
    split; [apply column_scale_same|].
    split; [intros c Hne; by apply column_scale_other|].
    split; [apply quarter_scale_column|].
    split; [exact Hcol|]. split; [exact Hx|].
    rewrite percent_change_nonzero by (by rewrite sum_revenueForecast).
    simpl. rewrite (sum_revenueForecast df Hc). reflexivity.
  - by apply sensitivity_analysis_entries with a0 q0.
  - do 8 eexists. exists 140, 112, (50 / 3), (- (20 / 3)).
    repeat match goal with |- _ /\ _ => split end;
      first [ vm_compute; reflexivity | vm_compute; discriminate ].
Qed.

(** C1 (amended) at a frame that [generate_sample_data] draws and at the
    two-period scenario. *)
Lemma impact_result_formula_witness :
  exists tbl,
    CashflowDashboard.sensitivity_analysis Scenario.baseline 10 = py.Ok tbl
    /\ Forall2 (CashflowDashboard.impact_formula Scenario.baseline 10)
               CashflowDashboard.parameters tbl.
Proof.
  edestruct (impact_result_formula [Scenario.generated_frame] 0%nat
               Scenario.generated_frame Scenario.baseline 10) as (_ & H & _).
  - reflexivity.
  - apply generate_sample_data_consistent.
  - vm_compute. discriminate.
  - apply baseline_well_formed.
  - vm_compute. discriminate.
  - vm_compute. discriminate.
  - vm_compute. reflexivity.
  - apply represents_Builtin.
  - vm_compute. discriminate.
  - exact H.
Defined.

(** C2, as stated, fails: the expense dashboard's analysis has no input,
    and two consecutive runs return different tables (already in the first
    cell: level -20 of payrollCosts). *)
Lemma expense_reruns_differ :
  ~ (forall g : np.RandomState,
       let run1 := ExpenseDashboard.perform_expense_sensitivity_analysis g in
       let run2 := ExpenseDashboard.perform_expense_sensitivity_analysis (snd run1) in
       ExpenseDashboard.table_eq (fst run1) (fst run2)).
Proof.
  intros H. specialize (H Scenario.generator). vm_compute in H.
  inversion H as [|c c' t t' [_ Hcol] _]; subst.
  inversion Hcol as [|x x' l l' Hx _]; subst.
  vm_compute in Hx. discriminate.
Qed.

(** C2, amended.  The tables of the expense and balance-sheet dashboards are
    determined by the state of the random generator: two generators that
    agree on their next 70 samples give the same two tables, and a run
    consumes exactly 70, respectively 40, samples.  The table of the revenue
    dashboard is determined by the frame that [base_data] refers to,
    whatever else the store holds. *)
Theorem tables_determined_by_inputs
    (g g' : np.RandomState) (s s' : store) (r r' : ref) (df : DataFrame) :
  np.agree 70 g g' ->
  s !! r = Some df ->
  s' !! r' = Some df ->
  fst (ExpenseDashboard.perform_expense_sensitivity_analysis g)
    = fst (ExpenseDashboard.perform_expense_sensitivity_analysis g')
  /\ np.advanced 70 g (snd (ExpenseDashboard.perform_expense_sensitivity_analysis g))
  /\ fst (BalanceSheetDashboard.sensitivity_analysis g)
     = fst (BalanceSheetDashboard.sensitivity_analysis g')
  /\ np.advanced 40 g (snd (BalanceSheetDashboard.sensitivity_analysis g))
  /\ exists tbl,
       fst <$> RevenueDashboard.perform_sensitivity_analysis r s = Some tbl
       /\ fst <$> RevenueDashboard.perform_sensitivity_analysis r' s' = Some tbl.
Proof.
  intros Hg Hs Hs'.
  destruct perform_expense_sensitivity_analysis_draws as [He1 He2].
  destruct balance_sheet_sensitivity_analysis_draws as [Hb1 Hb2].
  split; [|split; [|split; [|split]]].
  - by apply He2.
  - apply He1.
  - apply Hb2. by apply (agree_le 40 70); [lia|].
  - apply Hb1.
  - exists (RevenueDashboard.impact_table df).
    rewrite (perform_sensitivity_analysis_run s r df Hs).
    rewrite (perform_sensitivity_analysis_run s' r' df Hs'). by split.
Qed.

(** C2 (amended) at two generators that differ after their 70th sample,
    and at the one-quarter frame, once alone in the store and once behind
    another frame. *)
Lemma tables_determined_by_inputs_witness :
  fst (ExpenseDashboard.perform_expense_sensitivity_analysis Scenario.generator)
    = fst (ExpenseDashboard.perform_expense_sensitivity_analysis
             Scenario.short_generator)
  /\ exists tbl,
       fst <$> RevenueDashboard.perform_sensitivity_analysis 0%nat [Scenario.frame]
         = Some tbl
       /\ fst <$> RevenueDashboard.perform_sensitivity_analysis 1%nat
                    [Scenario.zero_frame; Scenario.frame]
          = Some tbl.
Proof.
  destruct (tables_determined_by_inputs Scenario.generator Scenario.short_generator
              [Scenario.frame] [Scenario.zero_frame; Scenario.frame]
              0%nat 1%nat Scenario.frame) as (H1 & _ & _ & _ & H2).
  - intros n Hn. simpl. destruct (Nat.ltb_spec n 70); [reflexivity | lia].
  - reflexivity.
  - reflexivity.
  - split; [exact H1 | exact H2].
Defined.

(** C3, as stated, fails on the revenue dashboard: on a consistent frame
    with revenue 0 the run returns a table, with [-inf], [nan] and [inf] in
    it, and no error. *)
Lemma revenue_zero_aggregate_returns :
  pd.sum (column RevenueForecast Scenario.zero_frame) == 0
  /\ exists tbl s',
       RevenueDashboard.perform_sensitivity_analysis 0%nat [Scenario.zero_frame]
         = Some (tbl, s')
       /\ tbl !! 0%nat
          = Some ("topChannelValue"%string,
                  [np.Inf true; np.Inf true; np.NaN; np.Inf false; np.Inf false]).
Proof.
  split; [vm_compute; reflexivity|].
  eexists _, _. split; vm_compute; reflexivity.
Qed.

(** C3, amended.  When the baseline aggregate is 0, the revenue dashboard
    does not fail: every cell of its table is [nan] (perturbed revenue also
    0) or an infinity (signed as the perturbed revenue, the zero aggregate
    counting as [+0.0]).  The cashflow dashboard raises
    [ZeroDivisionError] when its records hold built-in numbers only; when
    the aggregate is a numpy scalar (as with the generated sample data,
    whose salesRevenue is one), the run returns, at a level other than 100
    and -100, a table in which no entry is a finite number. *)
Theorem zero_baseline_aggregate
    (s : store) (base_data : ref) (df : DataFrame)
    (base_builtin base_numpy : list CashflowDashboard.PeriodRecord) (v : Q)
    (a_builtin a_numpy : py.number) :
  s !! base_data = Some df ->
  pd.sum (column RevenueForecast df) == 0 ->
  Forall CashflowDashboard.builtin_record base_builtin ->
  CashflowDashboard.total_net_cashflow base_builtin = py.Ok a_builtin ->
  py.represents a_builtin 0 ->
  Forall CashflowDashboard.well_formed base_numpy ->
  ~ v == 100 -> ~ v == -100 ->
  CashflowDashboard.total_net_cashflow base_numpy = py.Ok a_numpy ->
  py.represents a_numpy 0 ->
  ~ py.is_builtin a_numpy ->
  (exists tbl s',
      RevenueDashboard.perform_sensitivity_analysis base_data s = Some (tbl, s')
      /\ forall i j param variation,
          RevenueDashboard.parameters !! i = Some param ->
          RevenueDashboard.variations !! j = Some variation ->
          exists md col x,
            s' !! (length s + 5 * i + j)%nat = Some md
            /\ tbl !! i = Some (label param, col)
            /\ col !! j = Some x
            /\ np.is_finite x = false
            /\ (RevenueDashboard.revenue_sum md == 0 -> x = np.NaN)
            /\ (RevenueDashboard.revenue_sum md < 0 -> x = np.Inf true)
            /\ (0 < RevenueDashboard.revenue_sum md -> x = np.Inf false))
  /\ CashflowDashboard.sensitivity_analysis base_builtin v
     = py.Raise py.ZeroDivisionError
  /\ (exists tbl,
        CashflowDashboard.sensitivity_analysis base_numpy v = py.Ok tbl
        /\ Forall2 (λ param entry,
             fst entry = param
             /\ np.is_finite
                  (py.as_float64 (CashflowDashboard.increased (snd entry))) = false
             /\ np.is_finite
                  (py.as_float64 (CashflowDashboard.decreased (snd entry))) = false)
           CashflowDashboard.parameters tbl).
Proof.
  intros Hs Hz Hb H0b R0b Hwf Hv1 Hv2 H0n R0n Hnp. split; [|split].
  - destruct (revenue_iteration s base_data df Hs) as (tbl & s' & Hrun & _ & Hit).
    exists tbl, s'. split; [exact Hrun|].
    intros i j param variation Hi Hj.
    destruct (Hit i j param variation Hi Hj) as (Hmd & col & Hcol & Hx).
    eexists _, col, _. split; [exact Hmd|]. split; [exact Hcol|].
    split; [exact Hx|].
    rewrite (percent_change_zero _ _ Hz).
    set (m := RevenueDashboard.revenue_sum _).
    set (b := pd.sum _) in *.
    destruct (np.is_zero (m - b)) eqn:E.
    + apply is_zero_true in E. repeat split; try done; intros Hm; lra.
    + apply is_zero_false in E. split; [done|].
      destruct (np.is_neg (m - b)) eqn:En.
      * apply is_neg_true in En. repeat split; try done; intros Hm; lra.
      * assert (~ m - b < 0) by (rewrite <- is_neg_true; congruence).
        repeat split; try done; intros Hm; lra.
  - by eapply sensitivity_analysis_builtin_zero.
  - by eapply sensitivity_analysis_numpy_zero.
Qed.

(** C3 (amended) at the zero-revenue frame and the break-even scenario,
    with built-in numbers and with numpy flows. *)
Lemma zero_baseline_aggregate_witness :
  CashflowDashboard.sensitivity_analysis (Scenario.break_even false) 10
    = py.Raise py.ZeroDivisionError
  /\ exists tbl,
       CashflowDashboard.sensitivity_analysis (Scenario.break_even true) 10
         = py.Ok tbl.
Proof.
  edestruct (zero_baseline_aggregate [Scenario.zero_frame] 0%nat Scenario.zero_frame
               (Scenario.break_even false) (Scenario.break_even true) 10)
    as (_ & H1 & tbl & H2 & _).
  - reflexivity.
  - vm_compute. reflexivity.
  - apply break_even_builtin.
  - vm_compute. reflexivity.
  - vm_compute. reflexivity.
  - apply break_even_well_formed.
  - vm_compute. discriminate.
  - vm_compute. discriminate.
  - vm_compute. reflexivity.
  - vm_compute. reflexivity.
  - simpl. tauto.
  - split; [exact H1 | by exists tbl].
Defined.

(** C4, as stated, fails on the revenue dashboard: the series built for
    customerAcquisitionCost at level +10 (parameter 3, level 3) has another
    newPromotionRevenue than the baseline, 36 instead of 40. *)
Lemma customerAcquisitionCost_changes_newPromotionRevenue :
  exists tbl s' md x,
    RevenueDashboard.perform_sensitivity_analysis 0%nat [Scenario.frame]
      = Some (tbl, s')
    /\ RevenueDashboard.parameters !! 3%nat = Some CustomerAcquisitionCost
    /\ RevenueDashboard.variations !! 3%nat = Some 10
    /\ s' !! (1 + 5 * 3 + 3)%nat = Some md
    /\ column NewPromotionRevenue Scenario.frame = [40]
    /\ column NewPromotionRevenue md = [x]
    /\ x == 36
    /\ ~ x == 40.
Proof.
  eexists _, _, _, _.
  evaluate_all.
  vm_compute. discriminate.
Qed.

(** C4, amended.  Cashflow dashboard: the series perturbed for parameter
    [A] has the periods of the baseline, in order and with their labels, and
    the baseline's value under every other key.  Revenue dashboard: the series
    built for parameter [A] has the rows of the baseline, in order and with
    their labels, and the baseline's values in every column other than the
    one column [target A] that the branch of [A] rescales ([A] itself for
    the three revenue columns, newPromotionRevenue for
    customerAcquisitionCost, monthlyRecurringRevenue for
    customerLifetimeValue, topChannelValue for inventoryTurnover). *)
Theorem one_at_a_time_isolation
    (s : store) (base_data : ref) (df : DataFrame)
    (base : list CashflowDashboard.PeriodRecord) (A : string) (factor : Q) :
  s !! base_data = Some df ->
  Forall (λ q, is_Some (CashflowDashboard.fields q !! A)) base ->
  (exists data',
      CashflowDashboard.perturbed A factor base = py.Ok data'
      /\ Forall2 (λ q q',
           CashflowDashboard.quarter q' = CashflowDashboard.quarter q
           /\ forall B, B ≠ A ->
                CashflowDashboard.fields q' !! B = CashflowDashboard.fields q !! B)
         base data')
  /\ (exists tbl s',
        RevenueDashboard.perform_sensitivity_analysis base_data s = Some (tbl, s')
        /\ forall i j param variation,
            RevenueDashboard.parameters !! i = Some param ->
            RevenueDashboard.variations !! j = Some variation ->
            exists md,
              s' !! (length s + 5 * i + j)%nat = Some md
              /\ quarter <$> md = quarter <$> df
              /\ forall B, B ≠ RevenueDashboard.target param ->
                   column B md = column B df).
Proof.
  intros Hs Hp. split.
  - destruct (perturbed_total A factor base Hp) as [data' Hd].
    exists data'. split; [exact Hd|].
    apply perturbed_Ok in Hd. eapply Forall2_impl; [exact Hd|].
    intros q q' (x & _ & ->). split; [reflexivity|].
    intros B HB. simpl. by rewrite lookup_insert_ne.
  - destruct (revenue_iteration s base_data df Hs) as (tbl & s' & Hrun & _ & Hit).
    exists tbl, s'. split; [exact Hrun|].
    intros i j param variation Hi Hj.
    destruct (Hit i j param variation Hi Hj) as (Hmd & _).
    eexists. split; [exact Hmd|]. unfold RevenueDashboard.modified_frame. split.
    + apply quarter_scale_column.
    + intros B HB. apply column_scale_other. congruence.
Qed.

(** C4 (amended) at the one-quarter frame and the two-period scenario, for
    the key salesRevenue and the factor 11/10. *)
Lemma one_at_a_time_isolation_witness :
  exists data',
    CashflowDashboard.perturbed "salesRevenue" (11 / 10) Scenario.baseline
      = py.Ok data'
    /\ Forall2 (λ q q',
         CashflowDashboard.quarter q' = CashflowDashboard.quarter q
         /\ forall B, B ≠ "salesRevenue"%string ->
              CashflowDashboard.fields q' !! B = CashflowDashboard.fields q !! B)
       Scenario.baseline data'.
Proof.
  destruct (one_at_a_time_isolation [Scenario.frame] 0%nat Scenario.frame
              Scenario.baseline "salesRevenue" (11 / 10)) as (H & _).
  - reflexivity.
  - repeat (constructor; [eexists; vm_compute; reflexivity|]). constructor.
  - exact H.
Defined.

(** C5.  A run of the revenue dashboard never mutates the baseline: every
    frame that was in the store before the run, the baseline among them, is
    the same after it, so [data['revenueForecast'].sum()] evaluates to the
    same number before and after; and each perturbed series is a new frame,
    behind a reference that did not exist before the run.  (The cashflow
    dashboard builds its perturbed series as new lists of new dicts and
    contains no assignment to its argument.) *)
Theorem baseline_never_mutated (s : store) (base_data : ref) (df : DataFrame) :
  s !! base_data = Some df ->
  exists tbl s',
    RevenueDashboard.perform_sensitivity_analysis base_data s = Some (tbl, s')
    /\ (forall r df', s !! r = Some df' -> s' !! r = Some df')
    /\ fst <$> RevenueDashboard.base_forecast base_data s
       = Some (pd.sum (column RevenueForecast df))
    /\ fst <$> RevenueDashboard.base_forecast base_data s'
       = fst <$> RevenueDashboard.base_forecast base_data s
    /\ forall i j param variation,
        RevenueDashboard.parameters !! i = Some param ->
        RevenueDashboard.variations !! j = Some variation ->
        s !! (length s + 5 * i + j)%nat = None
        /\ s' !! (length s + 5 * i + j)%nat
           = Some (RevenueDashboard.modified_frame df param variation).
Proof.
  intros Hs.
  destruct (revenue_iteration s base_data df Hs) as (tbl & s' & Hrun & Hkeep & Hit).
  exists tbl, s'. split; [exact Hrun|]. split; [exact Hkeep|].
  unfold RevenueDashboard.base_forecast, mbind, St_bind, deref.
  rewrite (Hkeep _ _ Hs), Hs. simpl. split; [reflexivity|]. split; [reflexivity|].
  intros i j param variation Hi Hj. split.
  - apply lookup_ge_None. lia.
  - by destruct (Hit i j param variation Hi Hj) as (Hmd & _).
Qed.

(** C5 at the one-quarter frame. *)
Lemma baseline_never_mutated_witness :
  exists tbl s',
    RevenueDashboard.perform_sensitivity_analysis 0%nat [Scenario.frame]
      = Some (tbl, s')
    /\ s' !! 0%nat = Some Scenario.frame.
Proof.
  destruct (baseline_never_mutated [Scenario.frame] 0%nat Scenario.frame)
    as (tbl & s' & Hrun & Hkeep & _).
  - reflexivity.
  - exists tbl, s'. split; [exact Hrun|]. apply Hkeep. reflexivity.
Defined.

(** C6, as stated, fails on the expense dashboard: its row of level 0 holds
    a random term, not 0 (here -50/7 for payrollCosts). *)
Lemma expense_level_zero_not_zero :
  exists col x,
    fst (ExpenseDashboard.perform_expense_sensitivity_analysis Scenario.generator)
      !! 0%nat = Some ("payrollCosts"%string, col)
    /\ ExpenseDashboard.variations !! 2%nat = Some 0
    /\ col !! 2%nat = Some x
    /\ x == - (50 / 7)
    /\ ~ x == 0.
Proof.
  eexists _, _.
  evaluate_all.
  vm_compute. discriminate.
Qed.

(** C6, amended.  Level 0 is the third of the five levels of both
    dashboards.  Revenue dashboard: on a consistent frame with nonzero
    revenue, the Impact Result at level 0 is 0 for every parameter.  Expense
    dashboard: the cell at level 0 of parameter [i] is the random term
    [(r - 0.5) * 20], with [r] the sample [10 * i + 5] of the run; it lies in
    [-10, 10) and is 0 only for [r = 0.5]. *)
Theorem level_zero_impact
    (s : store) (base_data : ref) (df : DataFrame) (g : np.RandomState) :
  s !! base_data = Some df ->
  consistent df ->
  ~ RevenueDashboard.revenue_sum df == 0 ->
  (forall n, 0 <= np.samples g n < 1) ->
  RevenueDashboard.variations !! 2%nat = Some 0
  /\ ExpenseDashboard.variations !! 2%nat = Some 0
  /\ (exists tbl s',
        RevenueDashboard.perform_sensitivity_analysis base_data s = Some (tbl, s')
        /\ forall i param,
            RevenueDashboard.parameters !! i = Some param ->
            exists col x,
              tbl !! i = Some (label param, col)
              /\ col !! 2%nat = Some x
              /\ np.feq x (np.Fin 0))
  /\ (forall i param,
        ExpenseDashboard.parameters !! i = Some param ->
        exists col x,
          fst (ExpenseDashboard.perform_expense_sensitivity_analysis g) !! i
            = Some (param, col)
          /\ col !! 2%nat = Some x
          /\ x == (np.samples g (np.consumed g + (10 * i + 5))%nat - 0.5) * 20
          /\ -10 <= x < 10).
Proof.
  intros Hs Hc Hnz Hg. split; [reflexivity|]. split; [reflexivity|]. split.
  - destruct (revenue_iteration s base_data df Hs) as (tbl & s' & Hrun & _ & Hit).
    exists tbl, s'. split; [exact Hrun|]. intros i param Hi.
    destruct (Hit i 2%nat param 0 Hi eq_refl) as (_ & col & Hcol & Hx).
    eexists col, _. split; [exact Hcol|]. split; [exact Hx|].
    rewrite percent_change_nonzero by (by rewrite sum_revenueForecast).
    simpl. rewrite (sum_revenueForecast df Hc), revenue_sum_level_zero.
    by field.
  - intros i param Hi.
    destruct (expense_level_zero g i param Hi) as (col & x & r1 & Hcol & Hx & ->).
    eexists col, _. split; [exact Hcol|]. split; [exact Hx|].
    specialize (Hg (np.consumed g + (10 * i + 5))%nat).
    set (r := np.samples g _) in *.
    rewrite clamp_inside by (split; lra). split; lra.
Qed.

(** C6 (amended) at the one-quarter frame and the sample generator. *)
Lemma level_zero_impact_witness :
  exists tbl s',
    RevenueDashboard.perform_sensitivity_analysis 0%nat [Scenario.frame]
      = Some (tbl, s')
    /\ forall i param,
        RevenueDashboard.parameters !! i = Some param ->
        exists col x,
          tbl !! i = Some (label param, col)
          /\ col !! 2%nat = Some x
          /\ np.feq x (np.Fin 0).
Proof.
  destruct (level_zero_impact [Scenario.frame] 0%nat Scenario.frame
              Scenario.generator) as (_ & _ & H & _).
  - reflexivity.
  - constructor; [vm_compute; reflexivity | constructor].
  - vm_compute. discriminate.
  - intros n. unfold Qle, Qlt. simpl. lia.
  - exact H.
Defined.

(** C8.  In revenue_dashboard.py two parameters are not perturbed directly.
    At every level [L] of the configured set, the series built for
    customerAcquisitionCost (parameter 3) is the baseline with
    newPromotionRevenue multiplied by [1 - L / 100] in every period, and the
    series built for inventoryTurnover (parameter 5) is the baseline with
    topChannelValue multiplied by [1 + L / 200]; no other column changes, and
    the cell of the table is the same [percent_change] of the revenue of
    that series against the baseline revenue. *)
Theorem indirect_perturbation_transforms
    (s : store) (base_data : ref) (df : DataFrame) (j : nat) (L : Q) :
  s !! base_data = Some df ->
  RevenueDashboard.variations !! j = Some L ->
  exists tbl s' md_cac col_cac md_turnover col_turnover,
    RevenueDashboard.perform_sensitivity_analysis base_data s = Some (tbl, s')
    /\ RevenueDashboard.parameters !! 3%nat = Some CustomerAcquisitionCost
    /\ s' !! (length s + 5 * 3 + j)%nat = Some md_cac
    /\ column NewPromotionRevenue md_cac
       = pd.mul (column NewPromotionRevenue df) (1 - L / 100)
    /\ (forall c, c ≠ NewPromotionRevenue -> column c md_cac = column c df)
    /\ tbl !! 3%nat = Some ("customerAcquisitionCost"%string, col_cac)
    /\ col_cac !! j
       = Some (RevenueDashboard.percent_change
                 (RevenueDashboard.revenue_sum md_cac)
                 (pd.sum (column RevenueForecast df)))
    /\ RevenueDashboard.parameters !! 5%nat = Some InventoryTurnover
    /\ s' !! (length s + 5 * 5 + j)%nat = Some md_turnover
    /\ column TopChannelValue md_turnover
       = pd.mul (column TopChannelValue df) (1 + L / 200)
    /\ (forall c, c ≠ TopChannelValue -> column c md_turnover = column c df)
    /\ tbl !! 5%nat = Some ("inventoryTurnover"%string, col_turnover)
    /\ col_turnover !! j
       = Some (RevenueDashboard.percent_change
                 (RevenueDashboard.revenue_sum md_turnover)
                 (pd.sum (column RevenueForecast df))).
Proof.
  intros Hs Hj.
  destruct (revenue_iteration s base_data df Hs) as (tbl & s' & Hrun & _ & Hit).
  destruct (Hit 3%nat j CustomerAcquisitionCost L eq_refl Hj)
    as (Hmd1 & col1 & Hcol1 & Hx1).
  destruct (Hit 5%nat j InventoryTurnover L eq_refl Hj)
    as (Hmd2 & col2 & Hcol2 & Hx2).
  exists tbl, s'. eexists _, col1, _, col2.
  split; [exact Hrun|]. split; [reflexivity|]. split; [exact Hmd1|].
  split; [apply column_scale_same|].
  split; [intros c Hne; by apply column_scale_other|].
  split; [exact Hcol1|]. split; [exact Hx1|].
  split; [reflexivity|]. split; [exact Hmd2|].
  split; [apply column_scale_same|].
  split; [intros c Hne; by apply column_scale_other|].
  split; [exact Hcol2|]. exact Hx2.
Qed.

(** C8 at the one-quarter frame, level +10: newPromotionRevenue goes from 40
    to 36 and topChannelValue from 100 to 105. *)
Lemma indirect_perturbation_transforms_witness :
  exists tbl s' md_cac md_turnover x y,
    RevenueDashboard.perform_sensitivity_analysis 0%nat [Scenario.frame]
      = Some (tbl, s')
    /\ s' !! (1 + 5 * 3 + 3)%nat = Some md_cac
    /\ column NewPromotionRevenue md_cac = [x] /\ x == 36
    /\ s' !! (1 + 5 * 5 + 3)%nat = Some md_turnover
    /\ column TopChannelValue md_turnover = [y] /\ y == 105.
Proof.
  destruct (indirect_perturbation_transforms [Scenario.frame] 0%nat
              Scenario.frame 3%nat 10)
    as (tbl & s' & md1 & col1 & md2 & col2 & Hrun & _ & Hmd1 & Hc1 & _ & _ & _
        & _ & Hmd2 & Hc2 & _).
  - reflexivity.
  - reflexivity.
  - exists tbl, s', md1, md2. eexists _, _.
    split; [exact Hrun|]. split; [exact Hmd1|].
    split; [rewrite Hc1; reflexivity|]. split; [vm_compute; reflexivity|].
    split; [exact Hmd2|].
    split; [rewrite Hc2; reflexivity|]. vm_compute; reflexivity.
Defined.

(** C10.  In the cashflow dashboard, on a well-formed baseline with a
    nonzero total net cashflow (at a level other than 100 and -100, where
    the run returns), the entries of inventoryTurnover, seasonalFactor,
    supplierCreditDays and fxRate are 0 for the increased and for the
    decreased variation: [calculate_cashflow] reads none of these keys, so
    it returns for the perturbed series what it returns for the baseline. *)
Theorem unread_parameters_have_zero_impact
    (base : list CashflowDashboard.PeriodRecord) (v : Q) (a0 : py.number)
    (q0 : Q) (param : string) :
  Forall CashflowDashboard.well_formed base ->
  ~ v == 100 -> ~ v == -100 ->
  CashflowDashboard.total_net_cashflow base = py.Ok a0 ->
  py.represents a0 q0 ->
  ~ q0 == 0 ->
  param ∈ ["inventoryTurnover"; "seasonalFactor"; "supplierCreditDays";
           "fxRate"]%string ->
  (param ∉ CashflowDashboard.reads)
  /\ (forall factor w data',
        CashflowDashboard.perturbed param factor base = py.Ok data' ->
        CashflowDashboard.calculate_cashflow data' w
        = CashflowDashboard.calculate_cashflow base w)
  /\ exists tbl entry,
       CashflowDashboard.sensitivity_analysis base v = py.Ok tbl
       /\ (param, entry) ∈ tbl
       /\ py.represents (CashflowDashboard.increased entry) 0
       /\ py.represents (CashflowDashboard.decreased entry) 0.
Proof.
  intros Hwf Hv1 Hv2 H0 R0 Hnz Hparam.
  assert (param ∉ CashflowDashboard.reads) as Hunread.
  { intros Hr. unfold CashflowDashboard.reads in Hr.
    repeat (apply elem_of_cons in Hparam as [->|Hparam];
            [repeat (apply elem_of_cons in Hr as [Hr|Hr]; [discriminate|]);
             by apply elem_of_nil in Hr|]).
    by apply elem_of_nil in Hparam. }
  split; [exact Hunread|]. split.
  { intros factor w data'. by apply perturbed_unread. }
  destruct (sensitivity_analysis_entries base v a0 q0 Hwf Hv1 Hv2 H0 R0 Hnz)
    as (tbl & Hrun & Hentries).
  assert (exists i, CashflowDashboard.parameters !! i = Some param) as [i Hi].
  { repeat (apply elem_of_cons in Hparam as [->|Hparam];
            [first [by exists 6%nat | by exists 10%nat
                   | by exists 12%nat | by exists 14%nat]|]).
    by apply elem_of_nil in Hparam. }
  destruct (Forall2_lookup_l _ _ _ _ _ Hentries Hi) as ([key entry] & Htbl & Hf).
  destruct Hf as (b0 & n0 & inc_data & a_inc & q_inc & dec_data & a_dec & q_dec
                  & Hb0 & Rb0 & Hinc & Hai & Ri & Hdec & Had & Rd
                  & Hkey & Hup & Hdown).
  simpl in Hkey, Hup, Hdown. subst key.
  exists tbl, entry. split; [exact Hrun|].
  split; [by eapply list_elem_of_lookup_2|].
  assert (b0 = a0) as -> by congruence.
  unfold CashflowDashboard.total_net_cashflow in Hai, Had, Hb0.
  rewrite (perturbed_unread _ _ _ _ _ Hunread Hinc) in Hai.
  rewrite (perturbed_unread _ _ _ _ _ Hunread Hdec) in Had.
  assert (a_inc = a0) as -> by congruence.
  assert (a_dec = a0) as -> by congruence.
  assert (~ n0 == 0) as Hn0.
  { by rewrite (represents_functional _ _ _ Rb0 R0). }
  split.
  - eapply represents_proper; [|exact Hup].
    rewrite (represents_functional _ _ _ Ri Rb0). by field.
  - eapply represents_proper; [|exact Hdown].
    rewrite (represents_functional _ _ _ Rd Rb0). by field.
Qed.

(** C10 at the two-period scenario, for fxRate at level 10. *)
Lemma unread_parameters_have_zero_impact_witness :
  exists tbl entry,
    CashflowDashboard.sensitivity_analysis Scenario.baseline 10 = py.Ok tbl
    /\ ("fxRate"%string, entry) ∈ tbl
    /\ py.represents (CashflowDashboard.increased entry) 0
    /\ py.represents (CashflowDashboard.decreased entry) 0.
Proof.
  edestruct (unread_parameters_have_zero_impact Scenario.baseline 10)
    with (param := "fxRate"%string) as (_ & _ & H).
  - apply baseline_well_formed.
  - vm_compute. discriminate.
  - vm_compute. discriminate.
  - vm_compute. reflexivity.
  - apply represents_Builtin.
  - vm_compute. discriminate.
  - do 3 right. left.
  - exact H.
Defined.

End SensitivityModel.

(** * Further properties of the dashboards *)

(** ** Loops that draw from the generator *)

Section GeneratorLoops.
Import np.

(** A loop whose body keeps an invariant of the generator relates every
    result to its element. *)
Lemma Rand_mapM_Forall2 {A B : Type} (f : A -> Rand B)
    (I : RandomState -> Prop) (R : A -> B -> Prop) (l : list A) (g : RandomState) :
  (forall x g, x ∈ l -> I g -> R x (fst (f x g)) /\ I (snd (f x g))) ->
  I g ->
  Forall2 R l (fst (mapM f l g)) /\ I (snd (mapM f l g)).
Proof.
  revert g. induction l as [|x l IH]; intros g Hf Hg; simpl.
  - split; [constructor | exact Hg].
  - unfold mbind, Rand_bind.
    destruct (Hf x g (list_elem_of_here x l) Hg) as [HR HI].
    destruct (f x g) as [y g1]. simpl in HR, HI.
    destruct (IH g1) as [HF HI'];
      [intros z g' Hz; apply Hf; by apply list_elem_of_further | exact HI |].
    destruct (mapM f l g1) as [ys g2]. simpl in *.
    split; [by constructor | exact HI'].
Qed.

Lemma Forall2_fmap_eq {A B C : Type} (f : B -> C) (h : A -> C)
    (l : list A) (k : list B) :
  Forall2 (λ x y, f y = h x) l k -> f <$> k = h <$> l.
Proof.
  induction 1 as [|x y l k Hxy _ IH]; [reflexivity|].
  rewrite !fmap_cons. by rewrite Hxy, IH.
Qed.

Lemma Forall2_Forall_right {A B : Type} (R : A -> B -> Prop) (P : B -> Prop)
    (l : list A) (k : list B) :
  Forall2 R l k -> (forall x y, R x y -> P y) -> Forall P k.
Proof. intros HF H. induction HF; constructor; eauto. Qed.

Lemma Forall2_common_left {A B C : Type} (R : A -> B -> Prop)
    (S : A -> C -> Prop) (T : B -> C -> Prop)
    (l : list A) (k : list B) (m : list C) :
  Forall2 R l k -> Forall2 S l m ->
  (forall x y z, R x y -> S x z -> T y z) ->
  Forall2 T k m.
Proof.
  intros HR. revert m. induction HR as [|x y l k Hxy _ IH]; intros m HS H.
  - apply Forall2_nil_inv_l in HS as ->. constructor.
  - apply Forall2_cons_inv_l in HS as (z & m' & Hxz & HS & ->).
    constructor; eauto.
Qed.

Lemma Rand_bind_run {A B : Type} (m : Rand A) (f : A -> Rand B) (g : RandomState) :
  (m ≫= f) g = f (fst (m g)) (snd (m g)).
Proof. unfold mbind, Rand_bind. by destruct (m g). Qed.

End GeneratorLoops.

(** ** forecast_pkg/revenue_dashboard.py: the generated frames *)

Section GeneratedFrames.
Import np RevenueFrame.

(** The revenue of a frame with at least one row, all of positive revenue,
    is positive. *)
Lemma revenue_sum_positive (df : DataFrame) :
  Forall (λ r, 0 < topChannelValue r + monthlyRecurringRevenue r * 3
                   + newPromotionRevenue r) df ->
  df ≠ [] ->
  0 < RevenueDashboard.revenue_sum df.
Proof.
  intros H Hne.
  assert (0 <= RevenueDashboard.revenue_sum df
          /\ (df ≠ [] -> 0 < RevenueDashboard.revenue_sum df)) as [_ Hpos];
    [|by apply Hpos].
  clear Hne. unfold RevenueDashboard.revenue_sum.
  induction H as [|r df Hr _ [IH _]]; simpl.
  - split; [apply Qle_refl | done].
  - unfold pd.sum, pd.add, pd.mul, column in *. simpl in *.
    split; [|intros _]; lra.
Qed.

Lemma impact_table_finite (df : DataFrame) :
  ~ pd.sum (column RevenueForecast df) == 0 ->
  Forall (λ entry, Forall (λ x, is_finite x = true) (snd entry))
         (RevenueDashboard.impact_table df).
Proof.
  intros Hnz. unfold RevenueDashboard.impact_table.
  apply Forall_fmap, Forall_forall. intros param _. simpl.
  unfold RevenueDashboard.impact_column.
  apply Forall_fmap, Forall_forall. intros v _. simpl.
  by rewrite percent_change_nonzero.
Qed.

Lemma generate_sample_data_labels (quarter_label : nat -> string) (quarters : nat)
    (g : RandomState) :
  Forall2 (λ i r, quarter r = quarter_label i)
    (seq 0 quarters) (fst (generate_sample_data quarter_label quarters g)).
Proof.
  unfold generate_sample_data. eapply proj1.
  by apply (Rand_mapM_Forall2 _ (λ _, True)).
Qed.

Lemma draws_uniform (low high : Q) : draws 1 (uniform low high).
Proof.
  apply (draws_bind 1 0); [apply draws_random|]. intros u. apply draws_ret.
Qed.

Lemma generate_sample_data_draws (quarter_label : nat -> string) (quarters : nat) :
  draws (quarters * 6) (generate_sample_data quarter_label quarters).
Proof.
  unfold generate_sample_data.
  replace (quarters * 6)%nat with (length (seq 0 quarters) * 6)%nat
    by (by rewrite length_seq).
  apply draws_mapM. intros i.
  apply (draws_bind 1 5); [apply draws_uniform|]. intros top.
  apply (draws_bind 1 4); [apply draws_uniform|]. intros mrr.
  apply (draws_bind 1 3); [apply draws_uniform|]. intros promo.
  apply (draws_bind 1 2); [apply draws_uniform|]. intros cac.
  apply (draws_bind 1 1); [apply draws_uniform|]. intros clv.
  apply (draws_bind 1 0); [apply draws_uniform|]. intros turnover.
  apply draws_ret.
Qed.

(** The rows that [generate_sample_data] draws from samples of [0, 1). *)
Lemma generate_sample_data_rows (quarter_label : nat -> string) (quarters : nat)
    (g : RandomState) :
  (forall n, 0 <= samples g n < 1) ->
  Forall2 (λ i r,
      quarter r = quarter_label i
      /\ 800000000 <= topChannelValue r <= 1000000000
      /\ 200000000 <= monthlyRecurringRevenue r <= 300000000
      /\ 50000000 <= newPromotionRevenue r <= 100000000
      /\ 1000 <= customerAcquisitionCost r <= 2000
      /\ 10000 <= customerLifetimeValue r <= 20000
      /\ 4 <= inventoryTurnover r <= 6
      /\ 1450000000 <= revenueForecast r <= 2000000000)
    (seq 0 quarters) (fst (generate_sample_data quarter_label quarters g)).
Proof.
  intros Hg. unfold generate_sample_data.
  eapply proj1.
  apply (Rand_mapM_Forall2 _ (λ g, forall n, 0 <= samples g n < 1)); [|exact Hg].
  clear g Hg. intros i [u c] _ Hg.
  cbv [mbind mret Rand_bind Rand_ret uniform random samples consumed fst snd] in *.
  split; [|exact Hg].
  pose proof (Hg c). pose proof (Hg (S c)). pose proof (Hg (S (S c))).
  pose proof (Hg (S (S (S c)))). pose proof (Hg (S (S (S (S c))))).
  pose proof (Hg (S (S (S (S (S c)))))).
  cbn [quarter topChannelValue monthlyRecurringRevenue newPromotionRevenue
       customerAcquisitionCost customerLifetimeValue inventoryTurnover
       revenueForecast].
  repeat split; lra.
Qed.

End GeneratedFrames.

Section RevenueTable.
Import RevenueFrame.

(** X1.  [generate_sample_data] returns one row per quarter, in order and
    with the labels of the quarters; in every row revenueForecast is
    topChannelValue + 3 * monthlyRecurringRevenue + newPromotionRevenue;
    and the call consumes six samples of the generator per quarter,
    whatever the samples are. *)
Theorem generated_frame_shape (quarter_label : nat -> string) (quarters : nat)
    (g : np.RandomState) :
  let run := generate_sample_data quarter_label quarters g in
  length (fst run) = quarters
  /\ quarter <$> fst run = quarter_label <$> seq 0 quarters
  /\ consistent (fst run)
  /\ np.advanced (quarters * 6) g (snd run).
Proof.
  cbv zeta. split; [|split; [|split]].
  - pose proof (generate_sample_data_labels quarter_label quarters g) as HF.
    apply Forall2_length in HF. rewrite length_seq in HF. symmetry. exact HF.
  - pose proof (generate_sample_data_labels quarter_label quarters g) as HF.
    by apply Forall2_fmap_eq.
  - apply generate_sample_data_consistent.
  - apply generate_sample_data_draws.
Qed.

(** X2.  With samples of [0, 1), every row that [generate_sample_data]
    draws has its six inputs within the limits of the [np.random.uniform]
    calls, and a revenueForecast between 1.45 and 2 billion.  (The upper
    limits are included: [low + (high - low) * u] can round to [high].) *)
Theorem generated_frame_ranges (quarter_label : nat -> string) (quarters : nat)
    (g : np.RandomState) :
  (forall n, 0 <= np.samples g n < 1) ->
  Forall (λ r,
      800000000 <= topChannelValue r <= 1000000000
      /\ 200000000 <= monthlyRecurringRevenue r <= 300000000
      /\ 50000000 <= newPromotionRevenue r <= 100000000
      /\ 1000 <= customerAcquisitionCost r <= 2000
      /\ 10000 <= customerLifetimeValue r <= 20000
      /\ 4 <= inventoryTurnover r <= 6
      /\ 1450000000 <= revenueForecast r <= 2000000000)
    (fst (generate_sample_data quarter_label quarters g)).
Proof.
  intros Hg.
  eapply Forall2_Forall_right;
    [exact (generate_sample_data_rows quarter_label quarters g Hg)|].
  intros i r [_ Hr]. exact Hr.
Qed.

(** X2 at the two quarters drawn from the sample generator. *)
Lemma generated_frame_ranges_witness :
  Forall (λ r,
      800000000 <= topChannelValue r <= 1000000000
      /\ 200000000 <= monthlyRecurringRevenue r <= 300000000
      /\ 50000000 <= newPromotionRevenue r <= 100000000
      /\ 1000 <= customerAcquisitionCost r <= 2000
      /\ 10000 <= customerLifetimeValue r <= 20000
      /\ 4 <= inventoryTurnover r <= 6
      /\ 1450000000 <= revenueForecast r <= 2000000000)
    Scenario.generated_frame.
Proof.
  apply (generated_frame_ranges (λ _, "Q"%string) 2 Scenario.generator).
  intros n. unfold Qle, Qlt. simpl. lia.
Defined.

(** X3.  A run of [perform_sensitivity_analysis] on a frame that
    [generate_sample_data] drew (samples of [0, 1), at least one quarter):
    the base revenue is positive, so no division by zero occurs and every
    cell of the table is a finite number. *)
Theorem generated_frame_impacts_finite (quarter_label : nat -> string)
    (quarters : nat) (g : np.RandomState) (s : store) (base_data : ref) :
  (forall n, 0 <= np.samples g n < 1) ->
  (0 < quarters)%nat ->
  s !! base_data = Some (fst (generate_sample_data quarter_label quarters g)) ->
  exists tbl s',
    RevenueDashboard.perform_sensitivity_analysis base_data s = Some (tbl, s')
    /\ 0 < pd.sum (column RevenueForecast
                     (fst (generate_sample_data quarter_label quarters g)))
    /\ Forall (λ entry, Forall (λ x, np.is_finite x = true) (snd entry)) tbl.
Proof.
  intros Hg Hq Hs.
  set (df := fst (generate_sample_data quarter_label quarters g)) in *.
  assert (0 < pd.sum (column RevenueForecast df)) as Hpos.
  { rewrite sum_revenueForecast by apply generate_sample_data_consistent.
    apply revenue_sum_positive.
    - eapply Forall2_Forall_right;
        [exact (generate_sample_data_rows quarter_label quarters g Hg)|].
      intros i r (_ & ? & ? & ? & _). lra.
    - intros Hnil.
      pose proof (generate_sample_data_labels quarter_label quarters g) as HF.
      fold df in HF. rewrite Hnil in HF. apply Forall2_length in HF.
      rewrite length_seq in HF. simpl in HF. lia. }
  eexists _, _. split; [by apply perform_sensitivity_analysis_run|].
  split; [exact Hpos|]. apply impact_table_finite. lra.
Qed.

(** X3 at the two quarters drawn from the sample generator. *)
Lemma generated_frame_impacts_finite_witness :
  exists tbl s',
    RevenueDashboard.perform_sensitivity_analysis 0%nat [Scenario.generated_frame]
      = Some (tbl, s')
    /\ 0 < pd.sum (column RevenueForecast Scenario.generated_frame)
    /\ Forall (λ entry, Forall (λ x, np.is_finite x = true) (snd entry)) tbl.
Proof.
  apply (generated_frame_impacts_finite (λ _, "Q"%string) 2 Scenario.generator
           [Scenario.generated_frame] 0%nat).
  - intros n. unfold Qle, Qlt. simpl. lia.
  - lia.
  - reflexivity.
Defined.

(** The cell of the table does not depend on how the two revenues are
    written as fractions. *)
Lemma percent_change_feq (m m' b : Q) :
  m == m' ->
  np.feq (RevenueDashboard.percent_change m b)
         (RevenueDashboard.percent_change m' b).
Proof.
  intros Hm. unfold RevenueDashboard.percent_change. simpl.
  destruct (np.is_zero b) eqn:Eb.
  - assert (np.is_zero (m - b) = np.is_zero (m' - b)) as <-.
    { destruct (np.is_zero (m - b)) eqn:E.
      - apply is_zero_true in E. symmetry. apply is_zero_true. lra.
      - apply is_zero_false in E. symmetry. apply is_zero_false. lra. }
    destruct (np.is_zero (m - b)); simpl; [exact I|].
    f_equal.
    destruct (np.is_neg (m - b)) eqn:E.
    + apply is_neg_true in E. symmetry. apply is_neg_true. lra.
    + destruct (np.is_neg (m' - b)) eqn:E'; [|reflexivity].
      apply is_neg_true in E'.
      assert (m - b < 0) as Hn by lra. apply is_neg_true in Hn. congruence.
  - simpl. by rewrite Hm.
Qed.

(** Two factors of the same value give the same revenue. *)
Lemma revenue_sum_scale_column_factor (c : Column) (k k' : Q) (df : DataFrame) :
  k == k' ->
  RevenueDashboard.revenue_sum (scale_column c k df)
  == RevenueDashboard.revenue_sum (scale_column c k' df).
Proof. intros Hk. rewrite !revenue_sum_scale_column, Hk. reflexivity. Qed.

(** X5.  The three parameters that are perturbed through a proxy column,
    on any frame.  The column of customerLifetimeValue in the table is the
    column of monthlyRecurringRevenue: both iterations multiply
    monthlyRecurringRevenue by [1 + L / 100].  The Impact Result of
    customerAcquisitionCost at a level is that of newPromotionRevenue at the
    opposite level ([1 - L / 100] is [1 + (-L) / 100]), so its column is the
    column of newPromotionRevenue in reverse.  The Impact Result of
    inventoryTurnover at a level is that of topChannelValue at half the
    level ([1 + L / 200]): its cells at -20, 0 and 20 are those of
    topChannelValue at -10, 0 and 10. *)
Theorem proxy_parameter_impacts (s : store) (base_data : ref) (df : DataFrame) :
  s !! base_data = Some df ->
  exists tbl s' col_top col_mrr col_promo col_cac col_clv col_turnover,
    RevenueDashboard.perform_sensitivity_analysis base_data s = Some (tbl, s')
    /\ tbl !! 0%nat = Some ("topChannelValue"%string, col_top)
    /\ tbl !! 1%nat = Some ("monthlyRecurringRevenue"%string, col_mrr)
    /\ tbl !! 2%nat = Some ("newPromotionRevenue"%string, col_promo)
    /\ tbl !! 3%nat = Some ("customerAcquisitionCost"%string, col_cac)
    /\ tbl !! 4%nat = Some ("customerLifetimeValue"%string, col_clv)
    /\ tbl !! 5%nat = Some ("inventoryTurnover"%string, col_turnover)
    /\ col_clv = col_mrr
    /\ Forall2 np.feq col_cac (reverse col_promo)
    /\ forall j j' L L',
         RevenueDashboard.variations !! j = Some L ->
         RevenueDashboard.variations !! j' = Some L' ->
         L == 2 * L' ->
         exists x x',
           col_turnover !! j = Some x /\ col_top !! j' = Some x' /\ np.feq x x'.
Proof.
  intros Hs. eexists _, _, _, _, _, _, _, _.
  split; [by apply perform_sensitivity_analysis_run|].
  do 6 (split; [reflexivity|]).
  split; [reflexivity|]. split.
  - unfold RevenueDashboard.impact_column, RevenueDashboard.variations.
    cbn [fmap list_fmap reverse rev_append].
    repeat (constructor;
            [apply percent_change_feq, revenue_sum_scale_column_factor;
             reflexivity|]).
    constructor.
  - intros j j' L L' Hj Hj' HL.
    rewrite (impact_column_lookup df InventoryTurnover j L Hj).
    rewrite (impact_column_lookup df TopChannelValue j' L' Hj').
    eexists _, _. split; [reflexivity|]. split; [reflexivity|].
    apply percent_change_feq, revenue_sum_scale_column_factor.
    simpl. rewrite HL. field.
Qed.

(** X5 at the one-quarter frame: inventoryTurnover at +20 against
    topChannelValue at +10. *)
Lemma proxy_parameter_impacts_witness :
  exists tbl s' col_top col_mrr col_promo col_cac col_clv col_turnover x x',
    RevenueDashboard.perform_sensitivity_analysis 0%nat [Scenario.frame]
      = Some (tbl, s')
    /\ tbl !! 0%nat = Some ("topChannelValue"%string, col_top)
    /\ tbl !! 1%nat = Some ("monthlyRecurringRevenue"%string, col_mrr)
    /\ tbl !! 2%nat = Some ("newPromotionRevenue"%string, col_promo)
    /\ tbl !! 3%nat = Some ("customerAcquisitionCost"%string, col_cac)
    /\ tbl !! 4%nat = Some ("customerLifetimeValue"%string, col_clv)
    /\ tbl !! 5%nat = Some ("inventoryTurnover"%string, col_turnover)
    /\ col_clv = col_mrr
    /\ Forall2 np.feq col_cac (reverse col_promo)
    /\ col_turnover !! 4%nat = Some x /\ col_top !! 3%nat = Some x'
    /\ np.feq x x'.
Proof.
  destruct (proxy_parameter_impacts [Scenario.frame] 0%nat Scenario.frame)
    as (tbl & s' & c1 & c2 & c3 & c4 & c5 & c6 & Hrun & H1 & H2 & H3 & H4 & H5
        & H6 & Hclv & Hcac & Hturn).
  - reflexivity.
  - destruct (Hturn 4%nat 3%nat 20 10) as (x & x' & Hx & Hx' & E);
      [reflexivity | reflexivity | reflexivity |].
    exists tbl, s', c1, c2, c3, c4, c5, c6, x, x'.
    split; [exact Hrun|]. split; [exact H1|]. split; [exact H2|].
    split; [exact H3|]. split; [exact H4|]. split; [exact H5|].
    split; [exact H6|]. split; [exact Hclv|]. split; [exact Hcac|].
    split; [exact Hx|]. split; [exact Hx' | exact E].
Defined.

(** X7.  The baseline of the percentage is the stored revenueForecast
    column, the perturbed revenue is recomputed from the input columns.  So
    on any frame whose stored total is not zero, consistent or not, the
    cell at level 0 is the percentage by which the recomputed revenue
    differs from the stored total, for every parameter; it is 0 exactly
    when the two agree. *)
Theorem level_zero_measures_stale_forecast
    (s : store) (base_data : ref) (df : DataFrame) (i : nat) (param : Column) :
  s !! base_data = Some df ->
  ~ pd.sum (column RevenueForecast df) == 0 ->
  RevenueDashboard.parameters !! i = Some param ->
  exists tbl s' col x,
    RevenueDashboard.perform_sensitivity_analysis base_data s = Some (tbl, s')
    /\ tbl !! i = Some (label param, col)
    /\ col !! 2%nat = Some (np.Fin x)
    /\ x == (RevenueDashboard.revenue_sum df - pd.sum (column RevenueForecast df))
            / pd.sum (column RevenueForecast df) * 100
    /\ (x == 0
        <-> RevenueDashboard.revenue_sum df == pd.sum (column RevenueForecast df)).
Proof.
  intros Hs Hb Hi.
  destruct (revenue_iteration s base_data df Hs) as (tbl & s' & Hrun & _ & Hit).
  destruct (Hit i 2%nat param 0 Hi eq_refl) as (_ & col & Hcol & Hx).
  rewrite percent_change_nonzero in Hx by exact Hb.
  exists tbl, s', col. eexists.
  repeat (split; [eassumption|]).
  rewrite revenue_sum_level_zero.
  set (rs := RevenueDashboard.revenue_sum df).
  set (b := pd.sum (column RevenueForecast df)) in *.
  split; [reflexivity|]. split.
  - intros H0. assert (rs == b + (rs - b) / b * 100 * b / 100) as -> by (by field).
    rewrite H0. by field.
  - intros ->. by field.
Qed.

(** X7 at a frame with revenue 200 and a stored forecast of 250: every
    cell of level 0 is -20. *)
Lemma level_zero_measures_stale_forecast_witness :
  exists tbl s' col x,
    RevenueDashboard.perform_sensitivity_analysis 0%nat [Inputs.stale_frame]
      = Some (tbl, s')
    /\ tbl !! 0%nat = Some ("topChannelValue"%string, col)
    /\ col !! 2%nat = Some (np.Fin x)
    /\ x == -20.
Proof.
  destruct (level_zero_measures_stale_forecast [Inputs.stale_frame] 0%nat
              Inputs.stale_frame 0%nat TopChannelValue)
    as (tbl & s' & col & x & Hrun & Hcol & Hx & Hv & _).
  - reflexivity.
  - vm_compute. discriminate.
  - reflexivity.
  - exists tbl, s', col, x. repeat (split; [assumption|]).
    rewrite Hv. vm_compute. reflexivity.
Defined.

End RevenueTable.

(** ** forecast_pkg/cashflow_dashboard.py: the values in a record *)

Section CashflowValueFacts.
Import py CashflowDashboard CashflowValues.

Lemma represents_value (a : number) (n : Q) : represents a n -> value a == n.
Proof. unfold represents, value. destruct (as_float64 a); tauto. Qed.

Lemma finite_at_value (q : PeriodRecord) (key : string) :
  finite_at q key ->
  exists x, fields q !! key = Some x /\ represents x (value_at q key).
Proof.
  intros (x & n & Hx & Rx). exists x. split; [exact Hx|].
  unfold value_at. rewrite Hx.
  eapply represents_proper; [|exact Rx]. symmetry. by apply represents_value.
Qed.

Lemma ready_finite_at (q : PeriodRecord) (key : string) :
  ready q -> key ∈ reads -> finite_at q key.
Proof. intros (Hk & _ & _) Hkey. rewrite Forall_forall in Hk. by apply Hk. Qed.

End CashflowValueFacts.

(** ** forecast_pkg/cashflow_dashboard.py: series of ready records *)

Section CashflowImpacts.
Import py CashflowDashboard CashflowValues.

Lemma scaled_series_ready (param : string) (k : Q) (base data' : list PeriodRecord) :
  ~ k == 0
  \/ (param ≠ "accountsReceivableDays"%string
      /\ param ≠ "accountsPayableDays"%string) ->
  Forall ready base ->
  Forall2 (scaled param k) base data' ->
  Forall ready data'.
Proof.
  intros Hk Hr HF.
  induction HF as [|q q' base data' Hq _ IH]; [constructor|].
  apply Forall_cons in Hr as [Hrq Hr].
  constructor; [by eapply scaled_ready | by apply IH].
Qed.

End CashflowImpacts.

(** ** forecast_pkg/cashflow_dashboard.py: outcomes and errors *)

Section CashflowErrors.
Import py CashflowDashboard CashflowValues CashflowForecast.

Lemma truediv_Ok (d r : number) :
  truediv (Builtin 91) d = Ok r -> forall z, d = Builtin z -> ~ z == 0.
Proof.
  destruct d as [y|x]; simpl; [|discriminate].
  destruct (np.is_zero y) eqn:E; [discriminate|].
  apply is_zero_false in E. intros _ z [= <-]. exact E.
Qed.

Lemma truediv_ZeroDivisionError (d : number) (e : exn) :
  truediv (Builtin 91) d = Raise e ->
  e = ZeroDivisionError /\ exists z, d = Builtin z /\ z == 0.
Proof.
  destruct d as [y|x]; simpl; [|discriminate].
  destruct (np.is_zero y) eqn:E; [|discriminate].
  apply is_zero_true in E. intros [= <-]. eauto.
Qed.

(** [calculate_cashflow] returns only on computable records. *)
Lemma calculate_cashflow_Ok_computable (data : list PeriodRecord) (v : Q) :
  (exists cashflow, calculate_cashflow data v = Ok cashflow) ->
  Forall computable data.
Proof.
  unfold calculate_cashflow.
  intros [cf H]. apply result_mapM_Ok in H.
  induction H as [|q y data cf Hq _ IH]; constructor; [|exact IH].
  clear IH. unfold getitem in Hq.
  repeat match type of Hq with
  | context [fields q !! ?k] =>
      let E := fresh "E" in let x := fresh "x" in
      destruct (fields q !! k) as [x|] eqn:E;
        cbn [mbind result_bind mret result_ret] in Hq; [|discriminate]
  | context [truediv (Builtin 91) ?d] =>
      let T := fresh "T" in let r := fresh "r" in
      destruct (truediv (Builtin 91) d) as [r|] eqn:T;
        cbn [mbind result_bind mret result_ret] in Hq; [|discriminate];
      pose proof (truediv_Ok d r T)
  end.
  split; [|split].
  - unfold reads. repeat (constructor; [by eexists|]). constructor.
  - intros z Hz. match goal with H : forall z, ?d = Builtin z -> _ |- _ =>
      apply H; congruence end.
  - intros z Hz.
    match goal with
    | E : fields q !! "accountsPayableDays"%string = Some ?d,
      H : forall z, ?d = Builtin z -> _ |- _ => apply H; congruence
    end.
Qed.

(** X12.  What the outcome of [calculate_cashflow] tells about its input.
    When it returns, every record has the eleven keys that it reads and
    neither day count is a built-in zero, and the result has the labels of
    the periods, in order.  When it raises ZeroDivisionError, some record
    holds a built-in zero as accountsReceivableDays or as
    accountsPayableDays. *)
Theorem calculate_cashflow_outcomes (data : list PeriodRecord) (v : Q) :
  (forall cashflow,
      calculate_cashflow data v = Ok cashflow ->
      Forall computable data
      /\ fst <$> cashflow = CashflowDashboard.quarter <$> data)
  /\ (calculate_cashflow data v = Raise ZeroDivisionError ->
      Exists (λ q, exists z,
                z == 0
                /\ (fields q !! "accountsReceivableDays" = Some (Builtin z)
                    \/ fields q !! "accountsPayableDays" = Some (Builtin z)))
             data).
Proof.
  split.
  - intros cf H. split; [apply (calculate_cashflow_Ok_computable data v); eauto|].
    unfold calculate_cashflow in H. apply result_mapM_Ok in H.
    apply Forall2_fmap_eq. eapply Forall2_impl; [exact H|].
    intros q y Hq. cbv beta in Hq.
    repeat (apply result_bind_inv in Hq as (? & _ & Hq)).
    by injection Hq as <-.
  - unfold calculate_cashflow. induction data as [|q data IH]; [discriminate|].
    rewrite result_mapM_cons.
    match goal with |- (?m ≫= _) = _ -> _ => destruct m as [y|e'] eqn:Hq end.
    + cbn [mbind result_bind]. intros H.
      match type of H with (?m ≫= _) = _ =>
        destruct m as [k|e''] eqn:Hk; [discriminate|] end.
      injection H as ->. right. by apply IH.
    + cbn [mbind result_bind]. intros [= ->]. left. clear IH.
      unfold getitem in Hq.
      repeat match type of Hq with
      | context [fields q !! ?k] =>
          let E := fresh "E" in let x := fresh "x" in
          destruct (fields q !! k) as [x|] eqn:E;
            cbn [mbind result_bind mret result_ret] in Hq; [|discriminate]
      | context [truediv (Builtin 91) ?d] =>
          let T := fresh "T" in let r := fresh "r" in
          destruct (truediv (Builtin 91) d) as [r|] eqn:T;
            cbn [mbind result_bind mret result_ret] in Hq;
            [|apply truediv_ZeroDivisionError in T as (_ & z & -> & Hz);
              exists z; split; [exact Hz|]; eauto]
      end.
      discriminate.
Qed.

(** X12 at the two-period scenario, which returns, and at a period with no
    receivable days, which raises ZeroDivisionError. *)
Lemma calculate_cashflow_outcomes_witness :
  (exists cashflow,
     calculate_cashflow Scenario.baseline 10 = Ok cashflow
     /\ Forall computable Scenario.baseline
     /\ fst <$> cashflow = ["Q1"; "Q2"]%string)
  /\ calculate_cashflow [Inputs.no_receivable_days] 10 = Raise ZeroDivisionError
  /\ Exists (λ q, exists z,
               z == 0
               /\ (fields q !! "accountsReceivableDays" = Some (Builtin z)
                   \/ fields q !! "accountsPayableDays" = Some (Builtin z)))
       [Inputs.no_receivable_days].
Proof.
  split.
  - assert (exists cf, calculate_cashflow Scenario.baseline 10 = Ok cf)
      as [cf Hrun] by (eexists; vm_compute; reflexivity).
    destruct (calculate_cashflow_outcomes Scenario.baseline 10) as [H _].
    destruct (H cf Hrun) as [Hc Hl].
    exists cf. split; [exact Hrun|]. split; [exact Hc|]. rewrite Hl. reflexivity.
  - assert (calculate_cashflow [Inputs.no_receivable_days] 10
            = Raise ZeroDivisionError) as Hrun by (vm_compute; reflexivity).
    split; [exact Hrun|].
    destruct (calculate_cashflow_outcomes [Inputs.no_receivable_days] 10)
      as [_ H].
    exact (H Hrun).
Defined.

Lemma sensitivity_of_inv (base : list PeriodRecord) (v : Q) (param : string)
    (entry : string * Impact) :
  sensitivity_of base v param = Ok entry ->
  fst entry = param
  /\ Forall (λ q, is_Some (fields q !! param)) base
  /\ exists cashflow, calculate_cashflow base 0 = Ok cashflow.
Proof.
  unfold sensitivity_of. intros H.
  apply result_bind_inv in H as (inc_data & Hinc & H).
  apply result_bind_inv in H as (dec_data & Hdec & H).
  apply result_bind_inv in H as (cf0 & H0 & H).
  apply result_bind_inv in H as (cfi & Hi & H).
  apply result_bind_inv in H as (cfd & Hd & H).
  apply result_bind_inv in H as (inc & Hup & H).
  apply result_bind_inv in H as (dec & Hdown & H).
  injection H as <-. split; [reflexivity|]. split; [|eauto].
  apply perturbed_Ok in Hinc. clear -Hinc.
  induction Hinc as [|q q' base data' (x & Hx & _) _ IH]; constructor; eauto.
Qed.

(** X13.  [sensitivity_analysis] returns a table only for a baseline in
    which every record has all fifteen parameters as keys, the four that
    [calculate_cashflow] never reads included, and on which
    [calculate_cashflow] returns; the table then has one entry per
    parameter, in the order of the parameter list. *)
Theorem sensitivity_analysis_needs_every_key (base : list PeriodRecord) (v : Q)
    (tbl : list (string * Impact)) :
  sensitivity_analysis base v = Ok tbl ->
  Forall has_parameters base
  /\ Forall computable base
  /\ fst <$> tbl = parameters.
Proof.
  unfold sensitivity_analysis. intros H. apply result_mapM_Ok in H.
  split; [|split].
  - apply Forall_forall. intros q Hq. unfold has_parameters.
    apply Forall_forall. intros param Hparam.
    apply list_elem_of_lookup_1 in Hparam as [i Hi].
    destruct (Forall2_lookup_l _ _ _ _ _ H Hi) as (entry & _ & He).
    apply sensitivity_of_inv in He as (_ & Hp & _).
    rewrite Forall_forall in Hp. by apply Hp.
  - assert (parameters !! 0%nat = Some "salesRevenue"%string) as Hi by reflexivity.
    destruct (Forall2_lookup_l _ _ _ _ _ H Hi) as (entry & _ & He).
    apply sensitivity_of_inv in He as (_ & _ & Hcf).
    by apply calculate_cashflow_Ok_computable in Hcf.
  - transitivity ((λ p : string, p) <$> parameters); [|apply list_fmap_id].
    apply Forall2_fmap_eq. eapply Forall2_impl; [exact H|].
    intros param entry He. by apply sensitivity_of_inv in He as (? & _).
Qed.

(** X13 at the two-period scenario. *)
Lemma sensitivity_analysis_needs_every_key_witness :
  Forall has_parameters Scenario.baseline
  /\ Forall computable Scenario.baseline
  /\ exists tbl, sensitivity_analysis Scenario.baseline 10 = Ok tbl
                 /\ fst <$> tbl = parameters.
Proof.
  assert (exists tbl, sensitivity_analysis Scenario.baseline 10 = Ok tbl)
    as [tbl Hrun] by (eexists; vm_compute; reflexivity).
  destruct (sensitivity_analysis_needs_every_key Scenario.baseline 10 tbl Hrun)
    as (H1 & H2 & H3).
  split; [exact H1|]. split; [exact H2|].
  exists tbl. split; [exact Hrun | exact H3].
Defined.

Lemma result_mapM_app_Raise {A B : Type} (f : A -> result B) (pre post : list A)
    (x : A) (e : exn) :
  Forall (λ y, exists z, f y = Ok z) pre ->
  f x = Raise e ->
  mapM f (pre ++ x :: post) = Raise e.
Proof.
  intros Hpre Hx. induction Hpre as [|y pre [z Hz] _ IH]; simpl app.
  - rewrite result_mapM_cons, Hx. reflexivity.
  - rewrite result_mapM_cons, (result_bind_Ok _ _ _ Hz), IH. reflexivity.
Qed.

(** The loop body returns on ready records that have the parameter, when
    the aggregate is not zero and no day count is scaled to zero. *)
Lemma sensitivity_of_returns (base : list PeriodRecord) (v : Q) (param : string)
    (a0 : number) (q0 : Q) :
  Forall ready base ->
  Forall (λ q, is_Some (fields q !! param)) base ->
  (~ v == 100 /\ ~ v == -100)
  \/ (param ≠ "accountsReceivableDays"%string
      /\ param ≠ "accountsPayableDays"%string) ->
  total_net_cashflow base = Ok a0 -> represents a0 q0 -> ~ q0 == 0 ->
  exists entry, sensitivity_of base v param = Ok entry.
Proof.
  intros Hr Hp Hv H0 R0 Hnz.
  destruct (perturbed_aggregate base param (1 + v / 100))
    as (inc_data & a_inc & q_inc & Hi & _ & Hai & Ri); [|done..|].
  { destruct Hv as [[_ Hv]|Hv]; [left; by apply factor_up_nonzero | by right]. }
  destruct (perturbed_aggregate base param (1 - v / 100))
    as (dec_data & a_dec & q_dec & Hd & _ & Had & Rd); [|done..|].
  { destruct Hv as [[Hv _]|Hv]; [left; by apply factor_down_nonzero | by right]. }
  rewrite (sensitivity_of_totals _ _ _ _ _ _ _ _ Hi Hd H0 Hai Had).
  destruct (percentage_represents a_inc a0 q_inc q0 Ri R0 Hnz) as (ri & Hri & _).
  destruct (percentage_represents a_dec a0 q_dec q0 Rd R0 Hnz) as (rd & Hrd & _).
  rewrite (result_bind_Ok _ _ _ Hri), (result_bind_Ok _ _ _ Hrd). eauto.
Qed.

(** X15.  The first parameter that some record lacks stops the run with
    KeyError for that parameter, also when [calculate_cashflow] never reads
    it: on ready records with a nonzero total net cashflow, if every record
    has the parameters listed before [param] and some record lacks
    [param], the run raises [KeyError param]. *)
Theorem missing_parameter_raises_KeyError (base : list PeriodRecord) (v : Q)
    (a0 : number) (q0 : Q) (pre post : list string) (param : string) :
  parameters = pre ++ param :: post ->
  Forall ready base ->
  Forall (λ q, Forall (λ p, is_Some (fields q !! p)) pre) base ->
  Exists (λ q, fields q !! param = None) base ->
  ~ v == 100 -> ~ v == -100 ->
  total_net_cashflow base = Ok a0 -> represents a0 q0 -> ~ q0 == 0 ->
  sensitivity_analysis base v = Raise (KeyError param).
Proof.
  intros Hparams Hr Hpre Hmiss Hv1 Hv2 H0 R0 Hnz.
  unfold sensitivity_analysis. rewrite Hparams.
  apply result_mapM_app_Raise.
  - apply Forall_forall. intros p Hp.
    apply (sensitivity_of_returns base v p a0 q0); try done; [|by left].
    eapply Forall_impl; [exact Hpre|]. intros q Hq.
    rewrite Forall_forall in Hq. by apply Hq.
  - unfold sensitivity_of.
    rewrite (perturbed_KeyError param (1 + v / 100) base Hmiss). reflexivity.
Qed.

(** X15 when the second of two periods has no fxRate. *)
Lemma missing_parameter_raises_KeyError_witness :
  sensitivity_analysis
    [Scenario.period false "Q1" 100 40; Inputs.without_fxRate] 10
  = Raise (KeyError "fxRate").
Proof.
  eapply (missing_parameter_raises_KeyError _ 10 _ _
            ["salesRevenue"; "accountsReceivableDays"; "rawMaterialCosts";
             "laborCosts"; "accountsPayableDays"; "capex"; "inventoryTurnover";
             "operatingExpenses"; "debtRepayments"; "taxPayments";
             "seasonalFactor"; "customerPrepayments"; "supplierCreditDays";
             "dividendPayments"]%string [] "fxRate"%string).
  - reflexivity.
  - constructor; [apply period_well_formed|]. constructor; [|constructor].
    split; [|split].
    + unfold reads.
      repeat (constructor;
              [eexists _, _;
               (split; [vm_compute; reflexivity | apply represents_Builtin])|]).
      constructor.
    + intros x n Hx Rx. vm_compute in Hx. injection Hx as <-.
      unfold represents in Rx. simpl in Rx. rewrite <- Rx. discriminate.
    + intros x n Hx Rx. vm_compute in Hx. injection Hx as <-.
      unfold represents in Rx. simpl in Rx. rewrite <- Rx. discriminate.
  - repeat (constructor;
            [repeat (constructor; [eexists; vm_compute; reflexivity|]);
             constructor|]).
    constructor.
  - right. left. vm_compute. reflexivity.
  - vm_compute. discriminate.
  - vm_compute. discriminate.
  - vm_compute. reflexivity.
  - apply represents_Builtin.
  - vm_compute. discriminate.
Defined.

(** A series whose first record has a built-in zero under
    accountsReceivableDays. *)
Lemma zero_receivable_days_raise (q : PeriodRecord) (rest : list PeriodRecord)
    (w : Q) (s : number) (d : Q) :
  fields q !! "salesRevenue"%string = Some s ->
  fields q !! "accountsReceivableDays"%string = Some (Builtin d) ->
  d == 0 ->
  calculate_cashflow (q :: rest) w = Raise ZeroDivisionError.
Proof.
  intros Hs Hd Hz. unfold calculate_cashflow.
  rewrite result_mapM_cons. unfold getitem. rewrite Hs, Hd.
  cbn [mbind result_bind mret result_ret].
  rewrite (truediv_builtin_zero _ _ Hz). reflexivity.
Qed.

Lemma scaled_zero_days_raise (q : PeriodRecord) (rest data' : list PeriodRecord)
    (k w : Q) :
  Forall2 (scaled "accountsReceivableDays" k) (q :: rest) data' ->
  k == 0 -> builtin_record q -> ready q ->
  calculate_cashflow data' w = Raise ZeroDivisionError.
Proof.
  intros HF Hk Hb Hr.
  apply Forall2_cons_inv_l in HF as (q' & rest' & (x & Hx & ->) & _ & ->).
  destruct (is_builtin_inv x (Hb _ _ Hx)) as [d ->].
  destruct (ready_finite_at q "salesRevenue" Hr) as (s & n & Hs & _).
  { unfold reads. apply list_elem_of_here. }
  apply (zero_receivable_days_raise _ _ _ s (d * k)).
  - simpl. by rewrite lookup_insert_ne.
  - simpl. by rewrite lookup_insert_eq.
  - rewrite Hk. ring.
Qed.

(** X16.  At the level 100 (or -100) the decreased (increased) series of
    accountsReceivableDays has the day count 0.  On a non-empty well-formed
    baseline of built-in numbers the run therefore raises
    ZeroDivisionError, whatever the flows are. *)
Theorem full_level_divides_by_zero (base : list PeriodRecord) (v : Q) :
  base ≠ [] ->
  Forall builtin_record base ->
  Forall well_formed base ->
  v == 100 \/ v == -100 ->
  sensitivity_analysis base v = Raise ZeroDivisionError.
Proof.
  intros Hne Hb Hwf Hv.
  assert (Forall ready base) as Hr.
  { eapply Forall_impl; [exact Hwf|]. by intros q [_ ?]. }
  destruct (total_net_cashflow_ready base Hr) as (a0 & q0 & H0 & R0).
  destruct (Qeq_dec q0 0) as [Hz|Hnz].
  { apply (sensitivity_analysis_builtin_zero base v a0 Hb H0).
    by eapply represents_proper. }
  assert (forall param, param ∈ parameters ->
            Forall (λ q, is_Some (fields q !! param)) base) as Hp.
  { intros param Hparam. eapply Forall_impl; [exact Hwf|]. intros q [Hq _].
    unfold has_parameters in Hq. rewrite Forall_forall in Hq. by apply Hq. }
  unfold sensitivity_analysis.
  apply (result_mapM_app_Raise _ ["salesRevenue"%string]
           ["rawMaterialCosts"; "laborCosts"; "accountsPayableDays"; "capex";
            "inventoryTurnover"; "operatingExpenses"; "debtRepayments";
            "taxPayments"; "seasonalFactor"; "customerPrepayments";
            "supplierCreditDays"; "dividendPayments"; "fxRate"]%string
           "accountsReceivableDays"%string).
  - constructor; [|constructor].
    apply (sensitivity_of_returns base v _ a0 q0); try done.
    + apply Hp. apply list_elem_of_here.
    + right. split; discriminate.
  - assert ("accountsReceivableDays"%string ∈ parameters) as Hin
      by (apply list_elem_of_further, list_elem_of_here).
    destruct (perturbed_total "accountsReceivableDays" (1 + v / 100) base
                (Hp _ Hin)) as [inc_data Hi].
    destruct (perturbed_total "accountsReceivableDays" (1 - v / 100) base
                (Hp _ Hin)) as [dec_data Hd].
    destruct (calculate_cashflow_ready base 0 Hr) as (cf0 & Hcf0 & _).
    unfold sensitivity_of.
    rewrite (result_bind_Ok _ _ _ Hi), (result_bind_Ok _ _ _ Hd).
    rewrite (result_bind_Ok _ _ _ Hcf0).
    apply perturbed_Ok in Hi, Hd.
    destruct base as [|q rest]; [done|].
    apply Forall_cons in Hb as [Hbq _]. pose proof Hr as Hr'.
    apply Forall_cons in Hr' as [Hrq _].
    destruct Hv as [Hv|Hv].
    + assert (Forall ready inc_data) as Hri.
      { eapply scaled_series_ready; [|exact Hr|exact Hi].
        left. rewrite Hv. vm_compute. discriminate. }
      destruct (calculate_cashflow_ready inc_data 0 Hri) as (cfi & Hcfi & _).
      rewrite (result_bind_Ok _ _ _ Hcfi).
      rewrite (scaled_zero_days_raise q rest dec_data (1 - v / 100) 0 Hd);
        [reflexivity | by rewrite Hv | done..].
    + rewrite (scaled_zero_days_raise q rest inc_data (1 + v / 100) 0 Hi);
        [reflexivity | by rewrite Hv | done..].
Qed.

(** X16 at the two-period scenario. *)
Lemma full_level_divides_by_zero_witness :
  sensitivity_analysis Scenario.baseline 100 = Raise ZeroDivisionError.
Proof.
  apply (full_level_divides_by_zero Scenario.baseline 100).
  - discriminate.
  - repeat (constructor; [apply period_builtin|]). constructor.
  - apply baseline_well_formed.
  - left. reflexivity.
Defined.

End CashflowErrors.

(** ** forecast_pkg/expense_dashboard.py *)

Section ExpenseTable.
Import np.

(** [max(-50, min(50, e))] lies in [-50, 50]. *)
Lemma clamp_range (e : Q) :
  -50 <= ExpenseDashboard.max (-50) (ExpenseDashboard.min 50 e) <= 50.
Proof.
  unfold ExpenseDashboard.max, ExpenseDashboard.min.
  destruct (Qle_bool 50 e) eqn:E1.
  - destruct (Qle_bool 50 (-50)) eqn:E2; cbv iota; lra.
  - destruct (Qle_bool e (-50)) eqn:E2; cbv iota; [lra|].
    assert (~ 50 <= e) by (rewrite <- Qle_bool_iff; congruence).
    assert (~ e <= -50) by (rewrite <- Qle_bool_iff; congruence).
    lra.
Qed.

Lemma expense_column_range (g : RandomState) :
  Forall2 (λ _ effect, -50 <= effect <= 50) ExpenseDashboard.variations
    (fst (mapM (M := Rand) (λ variation : Q,
            r1 ← random;
            let base_effect := variation * (0.5 + r1) in
            r2 ← random;
            let random_factor := (r2 - 0.5) * 20 in
            let effect := base_effect + random_factor in
            let effect :=
              ExpenseDashboard.max (-50) (ExpenseDashboard.min 50 effect) in
            mret effect) ExpenseDashboard.variations g)).
Proof.
  eapply proj1. apply (Rand_mapM_Forall2 _ (λ _, True)); [|done].
  intros v g1 _ _. split; [|done]. simpl. apply clamp_range.
Qed.

(** X17.  Whatever the generator produces, the expense table has one
    column per parameter, in the order of the parameter list, one row per
    level, and every cell lies between -50 and 50. *)
Theorem expense_effects_within_limits (g : RandomState) :
  let table := fst (ExpenseDashboard.perform_expense_sensitivity_analysis g) in
  fst <$> table = ExpenseDashboard.parameters
  /\ Forall (λ column,
       length (snd column) = length ExpenseDashboard.variations
       /\ Forall (λ effect, -50 <= effect <= 50) (snd column)) table.
Proof.
  cbv zeta.
  assert (Forall2 (λ param column,
            fst column = param
            /\ length (snd column) = length ExpenseDashboard.variations
            /\ Forall (λ effect, -50 <= effect <= 50) (snd column))
          ExpenseDashboard.parameters
          (fst (ExpenseDashboard.perform_expense_sensitivity_analysis g))) as HF.
  { unfold ExpenseDashboard.perform_expense_sensitivity_analysis.
    eapply proj1. apply (Rand_mapM_Forall2 _ (λ _, True)); [|done].
    intros param g0 _ _. split; [|done].
    rewrite Rand_bind_run. cbn [mret Rand_ret fst snd].
    pose proof (expense_column_range g0) as Hcol.
    split; [reflexivity|]. split.
    - symmetry. exact (Forall2_length _ _ _ Hcol).
    - eapply Forall2_Forall_right; [exact Hcol|]. by intros. }
  split.
  - transitivity ((λ p : string, p) <$> ExpenseDashboard.parameters);
      [|apply list_fmap_id].
    apply Forall2_fmap_eq. eapply Forall2_impl; [exact HF|]. by intros p c [? _].
  - eapply Forall2_Forall_right; [exact HF|]. by intros p c [_ ?].
Qed.

(** X18.  With samples of [0, 1) the limit of 50 percent never applies.
    The iteration for parameter [i] and level [j] draws the samples
    [10 * i + 2 * j] and [10 * i + 2 * j + 1] of the run, [r1] and [r2];
    the cell is [variation * (0.5 + r1) + (r2 - 0.5) * 20], unclamped, and
    lies between -40 and 40. *)
Theorem expense_limit_never_applies (g : RandomState) (i j : nat)
    (param : string) (variation : Q) :
  (forall n, 0 <= samples g n < 1) ->
  ExpenseDashboard.parameters !! i = Some param ->
  ExpenseDashboard.variations !! j = Some variation ->
  exists column effect,
    fst (ExpenseDashboard.perform_expense_sensitivity_analysis g) !! i
      = Some (param, column)
    /\ column !! j = Some effect
    /\ effect
       == variation * (0.5 + samples g (consumed g + (10 * i + 2 * j))%nat)
          + (samples g (consumed g + (10 * i + 2 * j + 1))%nat - 0.5) * 20
    /\ -40 <= effect <= 40.
Proof.
  destruct g as [u c]. intros Hg Hi Hj.
  cbv [ExpenseDashboard.perform_expense_sensitivity_analysis mapM mbind mret
       Rand_bind Rand_ret random ExpenseDashboard.parameters
       ExpenseDashboard.variations samples consumed fst snd] in *.
  rewrite !(Nat.add_comm c).
  assert (forall v r1 r2, -20 <= v <= 20 -> 0 <= r1 < 1 -> 0 <= r2 < 1 ->
            ExpenseDashboard.max (-50)
              (ExpenseDashboard.min 50 (v * (0.5 + r1) + (r2 - 0.5) * 20))
            == v * (0.5 + r1) + (r2 - 0.5) * 20
            /\ -40 <= ExpenseDashboard.max (-50)
                        (ExpenseDashboard.min 50 (v * (0.5 + r1) + (r2 - 0.5) * 20))
               <= 40) as Hcell.
  { intros v r1 r2 Hv H1 H2.
    assert (-40 <= v * (0.5 + r1) + (r2 - 0.5) * 20 <= 40) as Hb by (split; nra).
    rewrite clamp_inside by (split; lra). split; [reflexivity | exact Hb]. }
  do 7 (destruct i as [|i];
        [injection Hi as <-;
         do 5 (destruct j as [|j];
               [injection Hj as <-; eexists _, _;
                split; [reflexivity|]; split; [reflexivity|];
                apply Hcell; [split; lra | apply Hg | apply Hg]|]);
         discriminate|]).
  discriminate.
Qed.

(** X18 at the sample generator: the cell of COGS (parameter 1) at the
    level +10 (level 3), drawn from the samples 16 and 17. *)
Lemma expense_limit_never_applies_witness :
  exists column effect,
    fst (ExpenseDashboard.perform_expense_sensitivity_analysis Scenario.generator)
      !! 1%nat = Some ("COGS"%string, column)
    /\ column !! 3%nat = Some effect
    /\ effect == 10 * (0.5 + samples Scenario.generator 16)
                 + (samples Scenario.generator 17 - 0.5) * 20
    /\ -40 <= effect <= 40.
Proof.
  apply (expense_limit_never_applies Scenario.generator 1%nat 3%nat "COGS" 10).
  - intros n. unfold Qle, Qlt. simpl. lia.
  - reflexivity.
  - reflexivity.
Defined.

(** X19.  With samples of [0, 1), every row that
    [generate_expense_sample_data] draws has a base forecast between 0.9
    and 1.1 billion, a minimum forecast between 80 and 90 percent of it and
    a maximum forecast of at least 110 percent and at most [1.1 + 0.1]
    times it (the limits of the three factors, included); so the minimum is
    below the base forecast and the maximum above it, and the three series
    never cross.  The frame has one row per quarter, in order. *)
Theorem expense_forecasts_are_ordered (quarter_label : nat -> string)
    (quarters : nat) (g : RandomState) :
  (forall n, 0 <= samples g n < 1) ->
  Forall2 (λ i r,
      ExpenseForecast.quarter r = quarter_label i
      /\ 900000000 <= ExpenseForecast.baseForecast r <= 1100000000
      /\ ExpenseForecast.baseForecast r * 0.8 <= ExpenseForecast.minForecast r
      /\ ExpenseForecast.minForecast r <= ExpenseForecast.baseForecast r * 0.9
      /\ ExpenseForecast.baseForecast r * 1.1 <= ExpenseForecast.maxForecast r
      /\ ExpenseForecast.maxForecast r
         <= ExpenseForecast.baseForecast r * (1.1 + 0.1)
      /\ ExpenseForecast.minForecast r < ExpenseForecast.baseForecast r
      /\ ExpenseForecast.baseForecast r < ExpenseForecast.maxForecast r)
    (seq 0 quarters)
    (fst (ExpenseForecast.generate_expense_sample_data quarter_label quarters g)).
Proof.
  intros Hg. unfold ExpenseForecast.generate_expense_sample_data.
  eapply proj1.
  apply (Rand_mapM_Forall2 _ (λ g, forall n, 0 <= samples g n < 1)); [|exact Hg].
  clear g Hg. intros i [u c] _ Hg. split; [|exact Hg].
  cbv [mbind mret Rand_bind Rand_ret random samples consumed fst snd] in *.
  cbn [ExpenseForecast.quarter ExpenseForecast.baseForecast
       ExpenseForecast.minForecast ExpenseForecast.maxForecast].
  pose proof (Hg c). pose proof (Hg (S c)). pose proof (Hg (S (S c))).
  set (b := 4000000000 / 4 * (0.9 + u c * 0.2)).
  assert (b == 1000000000 * (0.9 + u c * 0.2)) as Eb by (unfold b; field).
  assert (900000000 <= b <= 1100000000) as Hb by (rewrite Eb; split; lra).
  clearbody b.
  split; [reflexivity|]. split; [exact Hb|].
  repeat split; nra.
Qed.

(** X19 at six quarters drawn from the sample generator. *)
Lemma expense_forecasts_are_ordered_witness :
  Forall2 (λ i r,
      ExpenseForecast.quarter r = "Q"%string
      /\ 900000000 <= ExpenseForecast.baseForecast r <= 1100000000
      /\ ExpenseForecast.baseForecast r * 0.8 <= ExpenseForecast.minForecast r
      /\ ExpenseForecast.minForecast r <= ExpenseForecast.baseForecast r * 0.9
      /\ ExpenseForecast.baseForecast r * 1.1 <= ExpenseForecast.maxForecast r
      /\ ExpenseForecast.maxForecast r
         <= ExpenseForecast.baseForecast r * (1.1 + 0.1)
      /\ ExpenseForecast.minForecast r < ExpenseForecast.baseForecast r
      /\ ExpenseForecast.baseForecast r < ExpenseForecast.maxForecast r)
    (seq 0 6)
    (fst (ExpenseForecast.generate_expense_sample_data (λ _, "Q"%string) 6
            Scenario.generator)).
Proof.
  apply (expense_forecasts_are_ordered (λ _, "Q"%string) 6 Scenario.generator).
  intros n. unfold Qle, Qlt. simpl. lia.
Defined.

End ExpenseTable.

(** ** forecast_pkg/balance_sheet_dashboard.py *)

Section BalanceSheet.
Import np py.

(** X20.  With samples of [0, 1), every impact that the balance-sheet
    [sensitivity_analysis] draws has an absolute value between 5 and 20,
    as its comment says (between -20% and 20%, not close to zero); the
    table has one entry per parameter, in the order of the parameter
    list. *)
Theorem balance_sheet_impacts_away_from_zero (g : RandomState) :
  (forall n, 0 <= samples g n < 1) ->
  Forall2 (λ param entry,
      fst entry = param
      /\ (5 <= BalanceSheetDashboard.increased (snd entry) <= 20
          \/ -20 <= BalanceSheetDashboard.increased (snd entry) <= -5)
      /\ (5 <= BalanceSheetDashboard.decreased (snd entry) <= 20
          \/ -20 <= BalanceSheetDashboard.decreased (snd entry) <= -5))
    BalanceSheetDashboard.parameters
    (fst (BalanceSheetDashboard.sensitivity_analysis g)).
Proof.
  intros Hg. unfold BalanceSheetDashboard.sensitivity_analysis.
  eapply proj1.
  apply (Rand_mapM_Forall2 _ (λ g, forall n, 0 <= samples g n < 1)); [|exact Hg].
  clear g Hg. intros param [u c] _ Hg. split; [|exact Hg].
  cbv [mbind mret Rand_bind Rand_ret random samples consumed fst snd] in *.
  cbn [BalanceSheetDashboard.increased BalanceSheetDashboard.decreased].
  pose proof (Hg c). pose proof (Hg (S (S c))).
  split; [reflexivity|].
  split; match goal with |- context [BalanceSheetDashboard.lt ?a ?b] =>
           destruct (BalanceSheetDashboard.lt a b) end;
    first [left; split; lra | right; split; lra].
Qed.

(** X20 at the sample generator. *)
Lemma balance_sheet_impacts_away_from_zero_witness :
  Forall2 (λ param entry,
      fst entry = param
      /\ (5 <= BalanceSheetDashboard.increased (snd entry) <= 20
          \/ -20 <= BalanceSheetDashboard.increased (snd entry) <= -5)
      /\ (5 <= BalanceSheetDashboard.decreased (snd entry) <= 20
          \/ -20 <= BalanceSheetDashboard.decreased (snd entry) <= -5))
    BalanceSheetDashboard.parameters
    (fst (BalanceSheetDashboard.sensitivity_analysis Scenario.generator)).
Proof.
  apply (balance_sheet_impacts_away_from_zero Scenario.generator).
  intros n. unfold Qle, Qlt. simpl. lia.
Defined.

(** X21.  [calculate_balance_sheet] returns only if every record has the
    eight keys that it reads (capex and depreciationAmortization are not
    among them).  The result then has one entry per period, in order and
    with the label of the period, and its balanceSheetTotal is its
    totalAssets, whatever the liabilities and the equity are. *)
Theorem calculate_balance_sheet_returns_only_if
    (data : list CashflowDashboard.PeriodRecord) (v : Q)
    (balance_sheet : list BalanceSheetForecast.BalanceSheet) :
  BalanceSheetForecast.calculate_balance_sheet data v = Ok balance_sheet ->
  Forall (λ q, Forall (λ key, is_Some (CashflowDashboard.fields q !! key))
                 BalanceSheetForecast.reads) data
  /\ Forall2 (λ q row,
       BalanceSheetForecast.quarter row = CashflowDashboard.quarter q
       /\ BalanceSheetForecast.balanceSheetTotal row
          = BalanceSheetForecast.totalAssets row)
     data balance_sheet.
Proof.
  unfold BalanceSheetForecast.calculate_balance_sheet.
  intros H. apply result_mapM_Ok in H.
  induction H as [|q y data bs Hq _ [IH1 IH2]]; [by split; constructor|].
  unfold CashflowDashboard.getitem in Hq.
  repeat match type of Hq with
  | context [CashflowDashboard.fields q !! ?k] =>
      let E := fresh "E" in let x := fresh "x" in
      destruct (CashflowDashboard.fields q !! k) as [x|] eqn:E;
        cbn [mbind result_bind mret result_ret] in Hq; [|discriminate]
  end.
  injection Hq as <-. split.
  - constructor; [|exact IH1]. unfold BalanceSheetForecast.reads.
    repeat (constructor; [by eexists|]). constructor.
  - constructor; [|exact IH2]. by split.
Qed.

(** X21 at a quarter with assets 100, liabilities 30 and equity 50. *)
Lemma calculate_balance_sheet_returns_only_if_witness :
  exists balance_sheet,
    BalanceSheetForecast.calculate_balance_sheet [Inputs.unbalanced] 10
      = Ok balance_sheet
    /\ Forall (λ key, is_Some (CashflowDashboard.fields Inputs.unbalanced !! key))
         BalanceSheetForecast.reads
    /\ Forall2 (λ q row,
         BalanceSheetForecast.quarter row = CashflowDashboard.quarter q
         /\ BalanceSheetForecast.balanceSheetTotal row
            = BalanceSheetForecast.totalAssets row)
       [Inputs.unbalanced] balance_sheet.
Proof.
  assert (exists bs, BalanceSheetForecast.calculate_balance_sheet
                       [Inputs.unbalanced] 10 = Ok bs) as [bs Hrun]
    by (eexists; vm_compute; reflexivity).
  destruct (calculate_balance_sheet_returns_only_if [Inputs.unbalanced] 10 bs Hrun)
    as [H1 H2].
  exists bs. split; [exact Hrun|]. split; [|exact H2].
  by apply Forall_cons in H1 as [H1 _].
Defined.

(** The totals of a record with finite numbers under the keys read. *)
Lemma calculate_balance_sheet_values (data : list CashflowDashboard.PeriodRecord)
    (v : Q) :
  Forall (λ q, Forall (CashflowDashboard.finite_at q)
                 BalanceSheetForecast.reads) data ->
  exists balance_sheet,
    BalanceSheetForecast.calculate_balance_sheet data v = Ok balance_sheet
    /\ Forall2 (λ q row,
         BalanceSheetForecast.quarter row = CashflowDashboard.quarter q
         /\ BalanceSheetForecast.balanceSheetTotal row
            = BalanceSheetForecast.totalAssets row
         /\ represents (BalanceSheetForecast.totalAssets row)
              ((CashflowValues.value_at q "cash"
                + CashflowValues.value_at q "accountsReceivable"
                + CashflowValues.value_at q "inventory"
                + CashflowValues.value_at q "ppe") * (1 + v / 100))
         /\ represents (BalanceSheetForecast.totalLiabilities row)
              ((CashflowValues.value_at q "accountsPayable"
                + CashflowValues.value_at q "shortTermDebt"
                + CashflowValues.value_at q "longTermDebt") * (1 + v / 100))
         /\ represents (BalanceSheetForecast.totalEquity row)
              (CashflowValues.value_at q "retainedEarnings" * (1 + v / 100)))
       data balance_sheet.
Proof.
  intros H. unfold BalanceSheetForecast.calculate_balance_sheet.
  apply result_mapM_Forall2.
  eapply Forall_impl; [exact H|]. intros q Hk.
  unfold BalanceSheetForecast.reads in Hk.
  repeat (apply Forall_cons in Hk as [(? & ? & ?)%finite_at_value Hk]).
  unfold CashflowDashboard.getitem.
  repeat match goal with E : CashflowDashboard.fields q !! _ = Some _ |- _ =>
    rewrite E; clear E end.
  cbn [mbind result_bind mret result_ret].
  eexists. split; [reflexivity|].
  cbn [BalanceSheetForecast.quarter BalanceSheetForecast.totalAssets
       BalanceSheetForecast.totalLiabilities BalanceSheetForecast.totalEquity
       BalanceSheetForecast.balanceSheetTotal].
  split; [reflexivity|]. split; [reflexivity|].
  repeat split;
    repeat first [ eassumption | apply represents_Builtin
                 | eapply represents_add | eapply represents_mul ].
Qed.

(** X22.  The variation scales the three totals alike, and the balance
    sheet total is the total of the assets: on records with finite numbers
    under the eight keys read, every total at the variation [v] is
    [1 + v / 100] times the total at variation 0, quarter by quarter.  (The
    dashboard charts the variations 10 and -10 as Maximum and Minimum
    Forecast: 110 and 90 percent of the total assets.) *)
Theorem variation_scales_balance_sheet
    (data : list CashflowDashboard.PeriodRecord) (v : Q) :
  Forall (λ q, Forall (CashflowDashboard.finite_at q)
                 BalanceSheetForecast.reads) data ->
  exists base varied,
    BalanceSheetForecast.calculate_balance_sheet data 0 = Ok base
    /\ BalanceSheetForecast.calculate_balance_sheet data v = Ok varied
    /\ Forall2 (λ b r,
         BalanceSheetForecast.quarter r = BalanceSheetForecast.quarter b
         /\ BalanceSheetForecast.balanceSheetTotal r
            = BalanceSheetForecast.totalAssets r
         /\ exists assets liabilities equity,
              represents (BalanceSheetForecast.totalAssets b) assets
              /\ represents (BalanceSheetForecast.totalLiabilities b) liabilities
              /\ represents (BalanceSheetForecast.totalEquity b) equity
              /\ represents (BalanceSheetForecast.totalAssets r)
                   ((1 + v / 100) * assets)
              /\ represents (BalanceSheetForecast.totalLiabilities r)
                   ((1 + v / 100) * liabilities)
              /\ represents (BalanceSheetForecast.totalEquity r)
                   ((1 + v / 100) * equity))
       base varied.
Proof.
  intros H.
  destruct (calculate_balance_sheet_values data 0 H) as (bs0 & H0 & HF0).
  destruct (calculate_balance_sheet_values data v H) as (bsv & Hv & HFv).
  exists bs0, bsv. split; [exact H0|]. split; [exact Hv|].
  eapply Forall2_common_left; [exact HF0|exact HFv|].
  intros q b r (Lb & _ & Ab & Bb & Cb) (Lr & Tr & Ar & Br & Cr).
  split; [congruence|]. split; [exact Tr|].
  eexists _, _, _. repeat (split; [eassumption|]).
  split; [|split]; (eapply represents_proper; [|eassumption]); field.
Qed.

(** X22 at a quarter with assets 100, liabilities 30 and equity 50, at the
    variation 10. *)
Lemma variation_scales_balance_sheet_witness :
  exists base varied,
    BalanceSheetForecast.calculate_balance_sheet [Inputs.unbalanced] 0 = Ok base
    /\ BalanceSheetForecast.calculate_balance_sheet [Inputs.unbalanced] 10
       = Ok varied
    /\ Forall2 (λ b r,
         BalanceSheetForecast.quarter r = BalanceSheetForecast.quarter b
         /\ BalanceSheetForecast.balanceSheetTotal r
            = BalanceSheetForecast.totalAssets r
         /\ exists assets liabilities equity,
              represents (BalanceSheetForecast.totalAssets b) assets
              /\ represents (BalanceSheetForecast.totalLiabilities b) liabilities
              /\ represents (BalanceSheetForecast.totalEquity b) equity
              /\ represents (BalanceSheetForecast.totalAssets r)
                   ((1 + 10 / 100) * assets)
              /\ represents (BalanceSheetForecast.totalLiabilities r)
                   ((1 + 10 / 100) * liabilities)
              /\ represents (BalanceSheetForecast.totalEquity r)
                   ((1 + 10 / 100) * equity))
       base varied.
Proof.
  apply (variation_scales_balance_sheet [Inputs.unbalanced] 10).
  constructor; [|constructor]. unfold BalanceSheetForecast.reads.
  repeat (constructor;
          [eexists _, _;
           (split; [vm_compute; reflexivity | apply represents_Builtin])|]).
  constructor.
Defined.

End BalanceSheet.

(** ** code-v3/expense-forecast-dashboard-streamlit-v1.6.py *)

Section ExpenseV3Run.
Import ExpenseFrame ExpenseV3.

Lemma Frames_bind_run {A B : Type} (m : Frames A) (f : A -> Frames B)
    (s s' : list DataFrame) (x : A) :
  m s = Some (x, s') -> (m ≫= f) s = f x s'.
Proof. intros H. unfold mbind, Frames_bind. rewrite H. reflexivity. Qed.

Lemma Frames_mapM_run {A B : Type} (I : list DataFrame -> Prop) (f : A -> Frames B)
    (g : A -> B) (h : A -> list DataFrame) (l : list A) (s : list DataFrame) :
  (forall s t, I s -> I (s ++ t)) ->
  (forall x s, x ∈ l -> I s -> f x s = Some (g x, s ++ h x)) ->
  I s ->
  mapM f l s = Some (g <$> l, s ++ concat (h <$> l)).
Proof.
  intros Happ. revert s. induction l as [|x l IH]; intros s Hf Hs; simpl.
  - rewrite app_nil_r. reflexivity.
  - rewrite (Frames_bind_run _ _ s (s ++ h x) (g x)) by (apply Hf; [left | done]).
    rewrite (Frames_bind_run _ _ _ ((s ++ h x) ++ concat (h <$> l)) (g <$> l)).
    + rewrite <- app_assoc. reflexivity.
    + apply IH; [|by apply Happ]. intros y t Hy. apply Hf. by right.
Qed.

(** One iteration of the loop, from a store in which [base_data] refers to
    [df]. *)
Lemma expense_iteration_run (s : list DataFrame) (base_data : nat)
    (df : DataFrame) (param : Column) (k : Q) :
  s !! base_data = Some df ->
  (modified_data ← copy base_data;
   imul modified_data param k;;
   setitem_sum modified_data TotalExpenses parameters;;
   deref modified_data) s
  = Some (assign_column TotalExpenses
            (λ row, pd.sum ((λ c, cell c row) <$> parameters))
            (scale_column param k df),
          s ++ [assign_column TotalExpenses
                  (λ row, pd.sum ((λ c, cell c row) <$> parameters))
                  (scale_column param k df)]).
Proof.
  intros Hs.
  rewrite (Frames_bind_run _ _ s (s ++ [df]) (length s))
    by (unfold copy; by rewrite Hs).
  rewrite (Frames_bind_run _ _ _ (s ++ [scale_column param k df]) tt).
  2:{ unfold imul. rewrite list_lookup_middle by reflexivity. simpl.
      rewrite <- (Nat.add_0_r (length s)) at 1. by rewrite insert_app_r. }
  rewrite (Frames_bind_run _ _ _
             (s ++ [assign_column TotalExpenses
                      (λ row, pd.sum ((λ c, cell c row) <$> parameters))
                      (scale_column param k df)]) tt).
  2:{ unfold setitem_sum. rewrite list_lookup_middle by reflexivity. simpl.
      rewrite <- (Nat.add_0_r (length s)) at 1. by rewrite insert_app_r. }
  unfold deref. by rewrite list_lookup_middle.
Qed.

(** A run from a store in which [base_data] refers to the frame [df]
    returns [result_rows df] and appends the thirty modified copies. *)
Lemma expense_sensitivity_analysis_run (s : list DataFrame) (base_data : nat)
    (df : DataFrame) :
  s !! base_data = Some df ->
  sensitivity_analysis base_data s = Some (result_rows df, s ++ copies df).
Proof.
  intros Hs. unfold sensitivity_analysis.
  rewrite (Frames_bind_run _ _ s s df) by (unfold deref; by rewrite Hs).
  unfold result_rows, copies.
  erewrite Frames_bind_run; [reflexivity|].
  apply (Frames_mapM_run (λ s, s !! base_data = Some df)); [| |exact Hs].
  { intros s0 t H0. by apply lookup_app_l_Some. }
  intros param s0 Hparam H0.
  replace (modified_frame df param <$> variations)
    with (concat ((λ v, [modified_frame df param v]) <$> variations))
    by reflexivity.
  apply (Frames_mapM_run (λ s, s !! base_data = Some df)); [| |exact H0].
  { intros s1 t H1. by apply lookup_app_l_Some. }
  intros variation s1 _ H1.
  pose proof (expense_iteration_run s1 base_data df param
                (1 + variation / 100) H1) as Hrun.
  assert (exists factor, sensitivity_factors param = Some factor) as [factor Hf].
  { apply list_elem_of_In in Hparam. destruct param; simpl in Hparam;
      try (eexists; reflexivity). exfalso. intuition discriminate. }
  rewrite Hf. simpl default.
  unfold mbind, Frames_bind in *.
  destruct (copy base_data s1) as [[md s2]|]; [|discriminate].
  destruct (imul md param (1 + variation / 100) s2) as [[[] s3]|]; [|discriminate].
  destruct (setitem_sum md TotalExpenses parameters s3) as [[[] s4]|];
    [|discriminate].
  rewrite Hrun. reflexivity.
Qed.

Lemma expense_percent_change_nonzero (t b f : Q) :
  ~ b == 0 -> percent_change t b f = np.Fin ((t - b) / b * 100 * f).
Proof.
  intros H. unfold percent_change. simpl.
  apply is_zero_false in H. rewrite H. reflexivity.
Qed.

End ExpenseV3Run.

(** ** The forecast summary of revenue-forecast-dashboard-streamlit-1.3.py *)

Section Summaries.
Import RevenueFrame.

Lemma summary_min_spec (a : pd.Series) :
  a ≠ [] ->
  exists m, ForecastSummary.min a = Some m /\ m ∈ a /\ Forall (λ x, m <= x) a.
Proof.
  induction a as [|x a IH]; [done|]. intros _. simpl.
  destruct a as [|y a].
  - exists x. simpl. split; [reflexivity|]. split; [apply list_elem_of_here|].
    constructor; [apply Qle_refl | constructor].
  - destruct IH as (m & -> & Hin & Hle); [done|].
    destruct (Qle_bool x m) eqn:E.
    + apply Qle_bool_iff in E. exists x. split; [reflexivity|].
      split; [apply list_elem_of_here|].
      constructor; [apply Qle_refl|].
      eapply Forall_impl; [exact Hle|]. intros z Hz. simpl in Hz. lra.
    + assert (~ x <= m) by (rewrite <- Qle_bool_iff; congruence).
      exists m. split; [reflexivity|].
      split; [by apply list_elem_of_further|].
      constructor; [lra | exact Hle].
Qed.

Lemma summary_max_spec (a : pd.Series) :
  a ≠ [] ->
  exists m, ForecastSummary.max a = Some m /\ m ∈ a /\ Forall (λ x, x <= m) a.
Proof.
  induction a as [|x a IH]; [done|]. intros _. simpl.
  destruct a as [|y a].
  - exists x. simpl. split; [reflexivity|]. split; [apply list_elem_of_here|].
    constructor; [apply Qle_refl | constructor].
  - destruct IH as (m & -> & Hin & Hle); [done|].
    destruct (Qle_bool m x) eqn:E.
    + apply Qle_bool_iff in E. exists x. split; [reflexivity|].
      split; [apply list_elem_of_here|].
      constructor; [apply Qle_refl|].
      eapply Forall_impl; [exact Hle|]. intros z Hz. simpl in Hz. lra.
    + assert (~ m <= x) by (rewrite <- Qle_bool_iff; congruence).
      exists m. split; [reflexivity|].
      split; [by apply list_elem_of_further|].
      constructor; [lra | exact Hle].
Qed.

(** X26.  The summary of the v3 revenue dashboard shows the smallest and
    the largest revenue of the thirty perturbed copies as Minimum and
    Maximum Forecast, and the total of the stored revenueForecast column,
    read after the run, as Base Forecast.  On a frame whose revenueForecast
    column agrees with its inputs, the copies of level 0 have the revenue of
    the baseline, so the Minimum and the Maximum Forecast bracket the Base
    Forecast. *)
Theorem revenue_summary_brackets_base_forecast
    (s : store) (base_data : ref) (df : DataFrame) :
  s !! base_data = Some df ->
  consistent df ->
  exists s' minimum maximum,
    ForecastSummary.revenue_summary base_data s
    = Some ((pd.sum (column RevenueForecast df), Some minimum, Some maximum), s')
    /\ minimum <= pd.sum (column RevenueForecast df) <= maximum.
Proof.
  intros Hs Hc.
  pose proof (v3_sensitivity_analysis_run s base_data df Hs) as Hrun.
  set (revenues := RevenueV3.revenue <$> RevenueV3.result_rows df).
  assert (revenues ≠ []) as Hne by discriminate.
  destruct (summary_min_spec revenues Hne) as (mn & Hmn & Imn & Lmn).
  destruct (summary_max_spec revenues Hne) as (mx & Hmx & Imx & Lmx).
  exists (s ++ RevenueV3.copies df), mn, mx.
  split.
  { unfold ForecastSummary.revenue_summary.
    rewrite (St_bind_run _ _ _ _ _ Hrun).
    rewrite (St_bind_run _ _ _ (s ++ RevenueV3.copies df) df).
    - fold revenues. rewrite Hmn, Hmx. reflexivity.
    - unfold deref. by rewrite (lookup_app_l_Some _ _ _ _ Hs). }
  assert (exists x, revenues !! 2%nat = Some x
                    /\ x == pd.sum (column RevenueForecast df)) as (x & Hx & Ex).
  { eexists. split; [reflexivity|]. simpl.
    change (RevenueV3.total_revenue_of ?d) with (RevenueDashboard.revenue_sum d).
    rewrite revenue_sum_scale_column, (sum_revenueForecast df Hc). simpl. field. }
  rewrite Forall_forall in Lmn, Lmx.
  apply list_elem_of_lookup_2 in Hx.
  pose proof (Lmn x Hx). pose proof (Lmx x Hx). lra.
Qed.

(** X26 at the two quarters drawn from the sample generator. *)
Lemma revenue_summary_brackets_base_forecast_witness :
  exists s' minimum maximum,
    ForecastSummary.revenue_summary 0%nat [Scenario.generated_frame]
    = Some ((pd.sum (column RevenueForecast Scenario.generated_frame),
             Some minimum, Some maximum), s')
    /\ minimum <= pd.sum (column RevenueForecast Scenario.generated_frame)
       <= maximum.
Proof.
  apply (revenue_summary_brackets_base_forecast [Scenario.generated_frame]
           0%nat Scenario.generated_frame).
  - reflexivity.
  - apply generate_sample_data_consistent.
Defined.

End Summaries.

(** ** The frames that the v3 expense dashboard generates *)

Section ExpenseGenerated.
Import np ExpenseFrame ExpenseV3.

Lemma expense_generate_sample_data_rows (quarter_label : nat -> string)
    (quarters : nat) (g : RandomState) :
  (forall n, 0 <= samples g n < 1) ->
  Forall2 (λ i r,
      quarter r = quarter_label i
      /\ 800000000 <= payrollCosts r <= 1000000000
      /\ 1600000000 <= COGS r <= 2000000000
      /\ 400000000 <= operatingCost r <= 500000000
      /\ 200000000 <= overheadCost r <= 250000000
      /\ 200000000 <= RDExpenses r <= 250000000
      /\ 300000000 <= marketingSalesExpenses r <= 375000000
      /\ totalExpenses r
         == payrollCosts r + COGS r + operatingCost r + overheadCost r
            + RDExpenses r + marketingSalesExpenses r)
    (seq 0 quarters) (fst (generate_sample_data quarter_label quarters g)).
Proof.
  intros Hg. unfold generate_sample_data.
  eapply proj1.
  apply (Rand_mapM_Forall2 _ (λ g, forall n, 0 <= samples g n < 1)); [|exact Hg].
  clear g Hg. intros i [u c] _ Hg.
  cbv [mbind mret Rand_bind Rand_ret uniform random samples consumed fst snd] in *.
  split; [|exact Hg].
  pose proof (Hg c). pose proof (Hg (S c)). pose proof (Hg (S (S c))).
  pose proof (Hg (S (S (S c)))). pose proof (Hg (S (S (S (S c))))).
  pose proof (Hg (S (S (S (S (S c)))))).
  cbn [quarter payrollCosts COGS operatingCost overheadCost RDExpenses
       marketingSalesExpenses totalExpenses].
  repeat split; lra.
Qed.

Lemma sum_positive (a : pd.Series) :
  Forall (λ x, 0 < x) a -> a ≠ [] -> 0 < pd.sum a.
Proof.
  intros H Hne. destruct H as [|x a Hx H]; [done|].
  unfold pd.sum. cbn [foldr].
  assert (0 <= foldr Qplus 0 a); [|lra].
  clear -H. induction H as [|y a Hy _ IH]; simpl; [apply Qle_refl | lra].
Qed.

Lemma expense_result_rows_finite (df : DataFrame) :
  ~ pd.sum (column TotalExpenses df) == 0 ->
  length (result_rows df) = 30%nat
  /\ Forall (λ r, is_finite (percentChange r) = true) (result_rows df).
Proof.
  intros Hnz. split; [reflexivity|].
  unfold result_rows.
  apply Forall_concat, Forall_fmap, Forall_forall. intros p _.
  apply Forall_fmap, Forall_forall. intros v _. simpl.
  by rewrite expense_percent_change_nonzero.
Qed.

(** X27.  With samples of [0, 1), every row that the v3 expense
    dashboard's [generate_sample_data] draws has a totalExpenses that is
    the sum of its six costs, between 3.5 and 4.375 billion (the sums of
    the limits of the six [np.random.uniform] calls, included).  A run of
    [sensitivity_analysis] on such a frame with at least one quarter
    therefore divides by a positive total: it returns thirty rows, and every
    percentChange is a finite number. *)
Theorem expense_generated_frame_run (quarter_label : nat -> string)
    (quarters : nat) (g : RandomState) (s : list DataFrame) (base_data : nat) :
  (forall n, 0 <= samples g n < 1) ->
  (0 < quarters)%nat ->
  s !! base_data = Some (fst (generate_sample_data quarter_label quarters g)) ->
  consistent (fst (generate_sample_data quarter_label quarters g))
  /\ length (fst (generate_sample_data quarter_label quarters g)) = quarters
  /\ Forall (λ r, 3500000000 <= totalExpenses r <= 4375000000)
       (fst (generate_sample_data quarter_label quarters g))
  /\ exists results s',
       sensitivity_analysis base_data s = Some (results, s')
       /\ length results = 30%nat
       /\ Forall (λ r, is_finite (percentChange r) = true) results.
Proof.
  intros Hg Hq Hs.
  pose proof (expense_generate_sample_data_rows quarter_label quarters g Hg) as HF.
  set (df := fst (generate_sample_data quarter_label quarters g)) in *.
  assert (length df = quarters) as Hlen.
  { apply Forall2_length in HF. by rewrite length_seq in HF. }
  assert (Forall (λ r, 3500000000 <= totalExpenses r <= 4375000000) df) as Hrange.
  { eapply Forall2_Forall_right; [exact HF|].
    intros i r (_ & ? & ? & ? & ? & ? & ? & E). cbv beta.
    rewrite E. split; lra. }
  split.
  { eapply Forall2_Forall_right; [exact HF|]. intros i r H. apply H. }
  split; [exact Hlen|]. split; [exact Hrange|].
  assert (0 < pd.sum (column TotalExpenses df)) as Hpos.
  { apply sum_positive.
    - unfold column. apply Forall_fmap.
      eapply Forall_impl; [exact Hrange|]. intros r Hr.
      cbv beta in Hr. unfold compose. cbn [cell]. lra.
    - intros Hnil. apply fmap_nil_inv in Hnil.
      rewrite Hnil in Hlen. simpl in Hlen. lia. }
  eexists _, _. split; [by apply expense_sensitivity_analysis_run|].
  apply expense_result_rows_finite. lra.
Qed.

(** X27 at five quarters drawn from the sample generator. *)
Lemma expense_generated_frame_run_witness :
  exists results s',
    sensitivity_analysis 0%nat
      [fst (generate_sample_data (λ _, "Q"%string) 5 Scenario.generator)]
    = Some (results, s')
    /\ length results = 30%nat
    /\ Forall (λ r, is_finite (percentChange r) = true) results.
Proof.
  destruct (expense_generated_frame_run (λ _, "Q"%string) 5 Scenario.generator
              [fst (generate_sample_data (λ _, "Q"%string) 5 Scenario.generator)]
              0%nat) as (_ & _ & _ & H).
  - intros n. unfold Qle, Qlt. simpl. lia.
  - lia.
  - reflexivity.
  - exact H.
Defined.

End ExpenseGenerated.
